(** * Creator-economy podcast automation (Notion only): a shallow embedding

    The development follows [creator_economy_NOTION.py], class
    [CreatorEconomyNotionAutomation].  Pure helpers (slicing, [range],
    truthiness, JSON access) come first, then the effectful methods written
    in a small state-and-exception monad, then the theorems.

    Conventions.
    - A Python [str] is a [string]; one character of the model stands for one
      unit of [len].
    - Every call that leaves the process (HTTP, the transcription client,
      the file system, [time.sleep]) is recorded in a trace, newest event
      first; what the outside world answers is read from an environment
      indexed by the number of events recorded so far.
    - A Python exception is the outcome [Exc]; a loop whose number of
      iterations is decided by the outside world runs on fuel and ends in
      the outcome [Div] when the fuel is spent. *)

From Stdlib Require Import ZArith Lia Ascii DecimalString.
From stdpp Require Import gmap strings.

Local Open Scope nat_scope.

(** ** Python strings *)

Module PyStr.

(** [s[i:j]] for [0 <= i]; the slice is cut at the end of [s]. *)
Definition slice (s : string) (i j : nat) : string :=
  String.substring i (j - i) s.

(** [s[:j]] *)
Definition take (s : string) (j : nat) : string := slice s 0 j.

Definition concat (l : list string) : string :=
  foldr String.append EmptyString l.

(** [range(start, stop, step)] for a positive [step]: Python computes the
    number of elements first, then the elements by multiplication. *)
Definition range_len (start stop step : nat) : nat :=
  (stop - start + (step - 1)) / step.

Definition range (start stop step : nat) : list nat :=
  map (fun k => start + k * step) (seq 0 (range_len start stop step)).

Definition is_space (c : ascii) : bool :=
  let n := nat_of_ascii c in
  ((9 <=? n) && (n <=? 13)) || ((28 <=? n) && (n <=? 32))
  || (n =? 133) || (n =? 160).

Fixpoint lstrip (s : string) : string :=
  match s with
  | EmptyString => EmptyString
  | String c s' => if is_space c then lstrip s' else s
  end.

(** Drops trailing white space; the result of the recursive call tells
    whether everything to the right was dropped. *)
Fixpoint rstrip (s : string) : string :=
  match s with
  | EmptyString => EmptyString
  | String c s' =>
      match rstrip s' with
      | EmptyString => if is_space c then EmptyString else String c EmptyString
      | r => String c r
      end
  end.

(** [s.strip()] *)
Definition strip (s : string) : string := rstrip (lstrip s).

Definition lower_char (c : ascii) : ascii :=
  let n := nat_of_ascii c in
  if ((65 <=? n) && (n <=? 90))
     || ((192 <=? n) && (n <=? 222) && negb (n =? 215))
  then ascii_of_nat (n + 32) else c.

(** [s.lower()] *)
Fixpoint lower (s : string) : string :=
  match s with
  | EmptyString => EmptyString
  | String c s' => String (lower_char c) (lower s')
  end.

(** [needle in hay] *)
Fixpoint contains (needle hay : string) : bool :=
  String.prefix needle hay
  || match hay with
     | EmptyString => false
     | String _ hay' => contains needle hay'
     end.

(** [str(n)] for an integer. *)
Definition of_Z (z : Z) : string := NilZero.string_of_int (Z.to_int z).

End PyStr.

(** ** Blocks of a Notion page *)

Inductive block : Type :=
| Heading1 (text : string)
| Divider
| Paragraph (text : string).

Definition block_text (b : block) : string :=
  match b with
  | Heading1 t | Paragraph t => t
  | Divider => EmptyString
  end.

(** ** The pure part of [add_to_notion] *)

(** Lines 176-178: the summary cut to the property limit. *)
Definition trim_summary (summary : string) : string :=
  if 2000 <? String.length summary
  then PyStr.take summary 1997 +:+ "..."
  else summary.

(** Lines 181-189: the text of each paragraph block, then the blocks. *)
Definition chunk_texts (transcript : string) : list string :=
  map (fun i => PyStr.slice transcript i (i + 2000))
      (PyStr.range 0 (String.length transcript) 2000).

Definition chunks (transcript : string) : list block :=
  map Paragraph (chunk_texts transcript).

(** Lines 198-210 *)
Definition initial_blocks (chunks : list block) : list block :=
  [Heading1 "Full Transcript"; Divider] ++ take 98 chunks.

(** Line 237 *)
Definition remaining (chunks : list block) : list block := drop 98 chunks.

(** Lines 242-243: the batches of the append loop. *)
Definition batches (remaining : list block) : list (list block) :=
  map (fun i => take 100 (drop i remaining))
      (PyStr.range 0 (length remaining) 100).

(** ** Outcomes and exceptions *)

Inductive exn : Type :=
| KeyError | IndexError | TypeError | AttributeError
| ConnectionError | HTTPError | JSONDecodeError | OSError | ClientError
| Exception (msg : string).

(** [Ret]: the code ran to its end with a value; [Exc]: an exception
    left it; [Div]: a world-driven loop was still running when the fuel
    was spent. *)
Inductive outcome (A : Type) : Type :=
| Ret (a : A)
| Exc (e : exn)
| Div.
Arguments Ret {A} a.
Arguments Exc {A} e.
Arguments Div {A}.

(** ** JSON values as Python sees them after [response.json()]

    Numbers are kept as integers: the code computes with none of them. *)

#[warnings="-register-all"] Inductive json : Type :=
| JNull
| JBool (b : bool)
| JNum (n : Z)
| JStr (s : string)
| JArr (items : list json)
| JObj (fields : list (string * json)).

Module Py.

Fixpoint assoc (k : string) (fields : list (string * json)) : option json :=
  match fields with
  | [] => None
  | (k', v) :: rest => if String.eqb k k' then Some v else assoc k rest
  end.

(** [bool(v)] *)
Definition truthy (v : json) : bool :=
  match v with
  | JNull => false
  | JBool b => b
  | JNum n => negb (n =? 0)%Z
  | JStr s => negb (String.eqb s "")
  | JArr l => match l with [] => false | _ => true end
  | JObj l => match l with [] => false | _ => true end
  end.

(** [v[k]] for a string key [k] *)
Definition getitem (v : json) (k : string) : outcome json :=
  match v with
  | JObj fields =>
      match assoc k fields with Some x => Ret x | None => Exc KeyError end
  | _ => Exc TypeError
  end.

(** [v.get(k, default)] *)
Definition get (v : json) (k : string) (default : json) : outcome json :=
  match v with
  | JObj fields =>
      match assoc k fields with Some x => Ret x | None => Ret default end
  | _ => Exc AttributeError
  end.

(** [v[0]]; the keys of a decoded JSON object are strings, so [0] is
    never one of them. *)
Definition getitem0 (v : json) : outcome json :=
  match v with
  | JArr (x :: _) => Ret x
  | JArr [] => Exc IndexError
  | JStr (String c _) => Ret (JStr (String c EmptyString))
  | JStr EmptyString => Exc IndexError
  | JObj _ => Exc KeyError
  | _ => Exc TypeError
  end.

Fixpoint chars (s : string) : list json :=
  match s with
  | EmptyString => []
  | String c s' => JStr (String c EmptyString) :: chars s'
  end.

(** The values a [for] loop over [v] visits. *)
Definition iter (v : json) : outcome (list json) :=
  match v with
  | JArr l => Ret l
  | JObj fields => Ret (map (fun kv => JStr (fst kv)) fields)
  | JStr s => Ret (chars s)
  | _ => Exc TypeError
  end.

Definition hashable (v : json) : bool :=
  match v with
  | JArr _ | JObj _ => false
  | _ => true
  end.

Definition num_of (v : json) : option Z :=
  match v with
  | JBool b => Some (if b then 1 else 0)%Z
  | JNum n => Some n
  | _ => None
  end.

(** [a == b] on hashable values. *)
Definition eqb (a b : json) : bool :=
  match a, b with
  | JNull, JNull => true
  | JStr s, JStr t => String.eqb s t
  | _, _ =>
      match num_of a, num_of b with
      | Some m, Some n => (m =? n)%Z
      | _, _ => false
      end
  end.

(** A Python [set] of hashable values, in insertion order. *)
Definition pyset : Type := list json.

(** [x in s] *)
Definition contains (s : pyset) (x : json) : bool := existsb (eqb x) s.

(** [s.add(x)] *)
Definition add (s : pyset) (x : json) : outcome pyset :=
  if hashable x
  then Ret (if contains s x then s else s ++ [x])
  else Exc TypeError.

End Py.

(** ** The outside world *)

Inductive http_reply : Type :=
| NoConnection                                   (* the request itself raises *)
| Response (status_ok : bool) (body : option json).
                     (* [body = None]: [response.json()] raises *)

(** A file handle of the transcription service. *)
Record gfile : Type := { gname : string; gstate : string }.

Inductive prompt : Type := summary_prompt | transcript_prompt.

(** The create request of line 212. *)
Record create_data : Type := {
  cd_database_id : string;
  cd_podcast : string;
  cd_episode : string;
  cd_date : string;
  cd_summary : string;
  cd_children : list block
}.

(** Calls that leave the process.  [ok] is false when the call raised. *)
Inductive event : Type :=
| EvQuery (body : option json)
| EvCreate (data : create_data) (ok : bool)
| EvAppend (page_id : json) (children : list block) (ok : bool)
| EvDownload (url : string) (ok : bool)
| EvOpen (path : string) (ok : bool)
| EvWrite (path : string) (ok : bool)
| EvRemove (path : string) (ok : bool)
| EvUpload (path : string) (ok : bool)
| EvGetFile (name : string) (ok : bool)
| EvGenerate (p : prompt) (file : string) (ok : bool)
| EvDeleteFile (name : string) (ok : bool)
| EvSleep (milliseconds : Z).

(** What the world answers at step [n], the number of events so far. *)
Record Env : Type := {
  notion_database_id : string;
  clock : nat -> Z;                       (* [time.time()], in milliseconds *)
  parse_date : nat -> string -> option string;
                                          (* [parser.parse(..).strftime(..)] *)
  today : nat -> string;                  (* [datetime.now().strftime(..)] *)
  notion_query : nat -> http_reply;
  notion_create : nat -> http_reply;
  notion_append : nat -> http_reply;
  http_get : nat -> http_reply;           (* the body is not looked at *)
  stream_ok : nat -> bool;                (* [iter_content] and the writes *)
  fs_open : nat -> bool;
  fs_remove : nat -> bool;
  genai_upload : nat -> option gfile;
  genai_get : nat -> option gfile;
  genai_generate : nat -> option string;  (* [generate_content(..).text] *)
  genai_delete : nat -> bool
}.

(** The state a method runs in: the trace, the files of the working
    directory, and the one mutable field of [self]. *)
Record State : Type := {
  trace : list event;
  files : gset string;
  processed_episodes_cache : Py.pyset
}.

Definition step (st : State) : nat := length (trace st).

Definition emit (ev : event) (st : State) : State :=
  {| trace := ev :: trace st;
     files := files st;
     processed_episodes_cache := processed_episodes_cache st |}.

Definition set_files (fs : gset string) (st : State) : State :=
  {| trace := trace st;
     files := fs;
     processed_episodes_cache := processed_episodes_cache st |}.

Definition set_cache (c : Py.pyset) (st : State) : State :=
  {| trace := trace st;
     files := files st;
     processed_episodes_cache := c |}.

(** ** The monad *)

Definition M (S A : Type) : Type := S -> outcome A * S.

Definition ret {S A} (a : A) : M S A := fun s => (Ret a, s).
Definition raise {S A} (e : exn) : M S A := fun s => (Exc e, s).
Definition diverge {S A} : M S A := fun s => (Div, s).

Definition bind {S A B} (c : M S A) (k : A -> M S B) : M S B :=
  fun s =>
    match c s with
    | (Ret a, s') => k a s'
    | (Exc e, s') => (Exc e, s')
    | (Div, s') => (Div, s')
    end.

Notation "'let!' x ':=' c 'in' k" := (bind c (fun x => k))
  (at level 10, x name, c at level 100, k at level 200,
   format "'[v' 'let!'  x  ':='  c  'in' '/' k ']'").
Notation "'run' c 'then' k" := (bind c (fun _ => k))
  (at level 10, c at level 100, k at level 200,
   format "'[v' 'run'  c  'then' '/' k ']'").

(** A partial pure operation run inside the monad. *)
Definition pure {S A} (o : outcome A) : M S A := fun s => (o, s).

(** [try: body / except Exception as e: handler e] *)
Definition try_except {S A} (body : M S A) (handler : exn -> M S A) : M S A :=
  fun s =>
    match body s with
    | (Exc e, s') => handler e s'
    | r => r
    end.

(** [try: body / except: pass] *)
Definition try_pass {S} (body : M S unit) : M S unit :=
  try_except body (fun _ => ret tt).

(** [try: body / finally: cleanup]; an exception of the cleanup replaces
    the outcome of the body. *)
Definition try_finally {S A} (body : M S A) (cleanup : M S unit) : M S A :=
  fun s =>
    match body s with
    | (Div, s') => (Div, s')
    | (r, s') =>
        match cleanup s' with
        | (Ret _, s'') => (r, s'')
        | (Exc e, s'') => (Exc e, s'')
        | (Div, s'') => (Div, s'')
        end
    end.

(** A method frame with one assignable local variable of type [L]. *)
Definition with_local {S L A} (init : L) (c : M (S * L) A) : M S A :=
  fun s => let '(r, (s', _)) := c (s, init) in (r, s').

Definition outer {S L A} (c : M S A) : M (S * L) A :=
  fun sl => let '(r, s') := c (fst sl) in (r, (s', snd sl)).

Definition get_local {S L} : M (S * L) L := fun sl => (Ret (snd sl), sl).
Definition set_local {S L} (l : L) : M (S * L) unit :=
  fun sl => (Ret tt, (fst sl, l)).

(** ** Feed entries as [process_episode] reads them *)

(** [enc_href = None]: the enclosure has no [href] attribute. *)
Record enclosure : Type := { enc_href : option string }.

(** [link.get('type', '')] and [link.get('href')] *)
Record link : Type := { link_type : option string; link_href : option string }.

(** [None] in [e_enclosures] or [e_links]: [hasattr] is false. *)
Record Entry : Type := {
  e_title : option string;
  e_published : option string;
  e_enclosures : option (list enclosure);
  e_links : option (list link)
}.

(** The dictionary [transcribe_with_retry] returns. *)
Record transcription : Type := { summary : string; transcript : string }.

(** ** The methods of [CreatorEconomyNotionAutomation]

    [print] calls are left out: nothing reads what they write. *)

Section Methods.

Variable env : Env.

(** *** Calls that leave the process *)

Definition time_time : M State Z :=
  fun st => (Ret (clock env (step st)), st).

Definition time_sleep (milliseconds : Z) : M State unit :=
  fun st => (Ret tt, emit (EvSleep milliseconds) st).

(** [requests.post(url, ..)], [raise_for_status()], [json()] in a row. *)
Definition checked_json (r : http_reply) : outcome json :=
  match r with
  | NoConnection => Exc ConnectionError
  | Response false _ => Exc HTTPError
  | Response true None => Exc JSONDecodeError
  | Response true (Some data) => Ret data
  end.

(** [raise_for_status()] passed. *)
Definition status_passed (r : http_reply) : bool :=
  match r with
  | Response true _ => true
  | _ => false
  end.

Definition checked_status (r : http_reply) : outcome unit :=
  match r with
  | NoConnection => Exc ConnectionError
  | Response false _ => Exc HTTPError
  | Response true _ => Ret tt
  end.

Definition post_query (body : option json) : M State json :=
  fun st => (checked_json (notion_query env (step st)), emit (EvQuery body) st).

Definition post_create (data : create_data) : M State json :=
  fun st =>
    let r := notion_create env (step st) in
    (checked_json r, emit (EvCreate data (status_passed r)) st).

Definition patch_append (page_id : json) (batch : list block) : M State unit :=
  fun st =>
    let r := notion_append env (step st) in
    (checked_status r, emit (EvAppend page_id batch (status_passed r)) st).

Definition requests_get (url : string) : M State unit :=
  fun st =>
    let r := http_get env (step st) in
    (checked_status r, emit (EvDownload url (status_passed r)) st).

(** [open(path, "wb")] creates the file. *)
Definition open_wb (path : string) : M State unit :=
  fun st =>
    if fs_open env (step st)
    then (Ret tt, set_files ({[path]} ∪ files st) (emit (EvOpen path true) st))
    else (Exc OSError, emit (EvOpen path false) st).

(** The loop over [resp.iter_content(8192)] with its writes. *)
Definition write_stream (path : string) : M State unit :=
  fun st =>
    if stream_ok env (step st)
    then (Ret tt, emit (EvWrite path true) st)
    else (Exc ConnectionError, emit (EvWrite path false) st).

Definition os_path_exists (path : string) : M State bool :=
  fun st => (Ret (bool_decide (path ∈ files st)), st).

Definition os_remove (path : string) : M State unit :=
  fun st =>
    if fs_remove env (step st)
    then (Ret tt, set_files (files st ∖ {[path]}) (emit (EvRemove path true) st))
    else (Exc OSError, emit (EvRemove path false) st).

Definition genai_upload_file (path : string) : M State gfile :=
  fun st =>
    match genai_upload env (step st) with
    | Some f => (Ret f, emit (EvUpload path true) st)
    | None => (Exc ClientError, emit (EvUpload path false) st)
    end.

Definition genai_get_file (name : string) : M State gfile :=
  fun st =>
    match genai_get env (step st) with
    | Some f => (Ret f, emit (EvGetFile name true) st)
    | None => (Exc ClientError, emit (EvGetFile name false) st)
    end.

(** [model.generate_content([p, f]).text] *)
Definition generate_text (p : prompt) (f : gfile) : M State string :=
  fun st =>
    match genai_generate env (step st) with
    | Some t => (Ret t, emit (EvGenerate p (gname f) true) st)
    | None => (Exc ClientError, emit (EvGenerate p (gname f) false) st)
    end.

Definition genai_delete_file (name : string) : M State unit :=
  fun st =>
    if genai_delete env (step st)
    then (Ret tt, emit (EvDeleteFile name true) st)
    else (Exc ClientError, emit (EvDeleteFile name false) st).

(** *** [load_processed_episodes_from_notion], lines 52-93 *)

(** Lines 78-81, the body of the inner [try]: the title found in one
    record, if its [rich_text] is truthy. *)
Definition episode_title {S} (page : json) : M S (option json) :=
  let! properties := pure (Py.getitem page "properties") in
  let! episode_prop := pure (Py.get properties "Episode" (JObj [])) in
  let! rich := pure (Py.get episode_prop "rich_text" JNull) in
  if Py.truthy rich then
    let! rich_text := pure (Py.getitem episode_prop "rich_text") in
    let! first := pure (Py.getitem0 rich_text) in
    let! text := pure (Py.getitem first "text") in
    let! title := pure (Py.getitem text "content") in
    ret (Some title)
  else ret None.

(** Lines 77-83: one turn of the [for page] loop. *)
Definition record_page {S} (all_titles : Py.pyset) (page : json)
  : M S Py.pyset :=
  try_except
    (let! found := episode_title page in
     match found with
     | Some title => pure (Py.add all_titles title)
     | None => ret all_titles
     end)
    (fun _ => ret all_titles).

Fixpoint record_pages {S} (all_titles : Py.pyset) (pages : list json)
  : M S Py.pyset :=
  match pages with
  | [] => ret all_titles
  | page :: rest =>
      let! all_titles := record_page all_titles page in
      record_pages all_titles rest
  end.

(** Lines 67-86: the [while has_more] loop. *)
Fixpoint query_loop (fuel : nat) (all_titles : Py.pyset)
  (has_more start_cursor : json) : M State Py.pyset :=
  if Py.truthy has_more then
    match fuel with
    | 0 => diverge
    | S fuel' =>
        let body := if Py.truthy start_cursor then Some start_cursor else None in
        let! data := post_query body in
        let! results := pure (Py.get data "results" (JArr [])) in
        let! pages := pure (Py.iter results) in
        let! all_titles := record_pages all_titles pages in
        let! has_more := pure (Py.get data "has_more" (JBool false)) in
        let! start_cursor := pure (Py.get data "next_cursor" JNull) in
        query_loop fuel' all_titles has_more start_cursor
    end
  else ret all_titles.

Definition load_processed_episodes_from_notion (fuel : nat)
  : M State Py.pyset :=
  try_except
    (query_loop fuel [] (JBool true) JNull)
    (fun _ => ret []).

(** *** [transcribe_with_retry], lines 95-163 *)

(** The frame of one turn of the [for attempt] loop: the state and the
    local variable [gemini_file]. *)
Definition frame : Type := (State * option gfile)%type.

(** Reading an attribute of [gemini_file]. *)
Definition gemini_file : M frame gfile :=
  let! l := get_local in
  match l with
  | Some f => ret f
  | None => raise AttributeError
  end.

(** Lines 106-110 *)
Fixpoint poll (fuel : nat) (start_time : Z) : M frame unit :=
  let! f := gemini_file in
  if String.eqb (gstate f) "PROCESSING" then
    match fuel with
    | 0 => diverge
    | S fuel' =>
        let! now := outer time_time in
        if (600000 <? now - start_time)%Z then raise (Exception "Timeout")
        else
          run outer (time_sleep 5000) then
          let! f' := outer (genai_get_file (gname f)) in
          run set_local (Some f') then
          poll fuel' start_time
    end
  else ret tt.

(** Lines 100-150, the body of the [try]. *)
Definition attempt_body (fuel : nat) (audio_file : string)
  : M frame transcription :=
  let! f := outer (genai_upload_file audio_file) in
  run set_local (Some f) then
  let! start_time := outer time_time in
  run poll fuel start_time then
  let! f := gemini_file in
  if String.eqb (gstate f) "FAILED" then raise (Exception "Processing failed")
  else
    let! summary_text := outer (generate_text summary_prompt f) in
    let summary := PyStr.strip summary_text in
    let! transcript := outer (generate_text transcript_prompt f) in
    run try_pass (outer (genai_delete_file (gname f))) then
    ret {| summary := summary; transcript := transcript |}.

(** Lines 152-163, the handler; [None] stands for going on with the
    next turn of the loop. *)
Definition attempt_handler (max_retries attempt : nat) (e : exn)
  : M frame (option transcription) :=
  let! l := get_local in
  run match l with
      | Some f => try_pass (outer (genai_delete_file (gname f)))
      | None => ret tt
      end then
  if attempt <? max_retries - 1
  then run outer (time_sleep (60000 * 2 ^ Z.of_nat attempt)) then ret None
  else raise e.

Definition attempt_turn (fuel : nat) (audio_file : string)
  (max_retries attempt : nat) : M State (option transcription) :=
  with_local None
    (try_except
       (let! r := attempt_body fuel audio_file in ret (Some r))
       (attempt_handler max_retries attempt)).

(** The [for attempt in range(max_retries)] loop; a loop that runs out
    of turns makes the method return [None]. *)
Fixpoint attempts (fuel : nat) (audio_file : string) (max_retries : nat)
  (turns : list nat) : M State (option transcription) :=
  match turns with
  | [] => ret None
  | attempt :: rest =>
      let! r := attempt_turn fuel audio_file max_retries attempt in
      match r with
      | Some t => ret (Some t)
      | None => attempts fuel audio_file max_retries rest
      end
  end.

Definition transcribe_with_retry (fuel : nat) (audio_file : string)
  (max_retries : nat) : M State (option transcription) :=
  attempts fuel audio_file max_retries (seq 0 max_retries).

(** *** [add_to_notion], lines 165-261 *)

(** Lines 171-174 *)
Definition notion_date (published : string) : M State string :=
  try_except
    (fun st =>
       (match parse_date env (step st) published with
        | Some d => Ret d
        | None => Exc (Exception "date")
        end, st))
    (fun _ st => (Ret (today env (step st)), st)).

(** Lines 242-252 *)
Fixpoint append_batches (page_id : json) (bs : list (list block))
  : M State unit :=
  match bs with
  | [] => ret tt
  | batch :: rest =>
      run patch_append page_id batch then
      run time_sleep 300 then
      append_batches page_id rest
  end.

Definition add_to_notion (podcast_name title published summary
                          transcript : string) : M State json :=
  try_except
    (let! date := notion_date published in
     let summary := trim_summary summary in
     let chunks := chunks transcript in
     let initial_blocks := initial_blocks chunks in
     let create_data :=
       {| cd_database_id := notion_database_id env;
          cd_podcast := podcast_name;
          cd_episode := title;
          cd_date := date;
          cd_summary := summary;
          cd_children := initial_blocks |} in
     let! page := post_create create_data in
     let! page_id := pure (Py.getitem page "id") in
     let! page_url := pure (Py.get page "url" (JStr "")) in
     let remaining := remaining chunks in
     run match remaining with
         | [] => ret tt
         | _ => append_batches page_id (batches remaining)
         end then
     ret page_url)
    (fun e => raise e).

(** *** [process_episode], lines 263-321 *)

Fixpoint first_audio_link (links : list link) : option string :=
  match links with
  | [] => None
  | l :: rest =>
      if PyStr.contains "audio" (PyStr.lower (default "" (link_type l)))
      then link_href l
      else first_audio_link rest
  end.

(** Lines 277-284 *)
Definition audio_url (entry : Entry) : outcome (option string) :=
  match e_enclosures entry with
  | Some (enc :: _) =>
      match enc_href enc with
      | Some href => Ret (Some href)
      | None => Exc AttributeError
      end
  | _ =>
      match e_links entry with
      | Some links => Ret (first_audio_link links)
      | None => Ret None
      end
  end.

Definition cache_add (title : string) : M State unit :=
  fun st =>
    match Py.add (processed_episodes_cache st) (JStr title) with
    | Ret c => (Ret tt, set_cache c st)
    | Exc e => (Exc e, st)
    | Div => (Div, st)
    end.

Definition entry_title (entry : Entry) : string :=
  default "Unknown" (e_title entry).

(** Line 273; [int] cuts the fraction off, toward zero. *)
Definition temp_path_at (now : Z) : string :=
  "temp_" +:+ PyStr.of_Z (Z.quot now 1000) +:+ ".mp3".

(** Lines 276-310, the body of the [try]. *)
Definition process_body (fuel : nat) (podcast_name : string) (entry : Entry)
  (title temp_path : string) : M State bool :=
  let! url := pure (audio_url entry) in
  match url with
  | None | Some EmptyString => ret false
  | Some url =>
      run requests_get url then
      run open_wb temp_path then
      run write_stream temp_path then
      let! result := transcribe_with_retry fuel temp_path 5 in
      let! result := match result with
                     | Some r => ret r
                     | None => raise TypeError
                     end in
      let! _ := add_to_notion podcast_name title
                  (default "" (e_published entry))
                  (summary result) (transcript result) in
      run cache_add title then
      ret true
  end.

(** Lines 317-321 *)
Definition cleanup (temp_path : string) : M State unit :=
  let! there := os_path_exists temp_path in
  if there then try_pass (os_remove temp_path) else ret tt.

Definition process_episode (fuel : nat) (podcast_name : string)
  (entry : Entry) : M State bool :=
  fun st =>
    let title := entry_title entry in
    if Py.contains (processed_episodes_cache st) (JStr title)
    then (Ret false, st)
    else
      (let! now := time_time in
       let temp_path := temp_path_at now in
       try_finally
         (try_except
            (process_body fuel podcast_name entry title temp_path)
            (fun _ => ret false))
         (cleanup temp_path)) st.

End Methods.

(** * Vocabulary of the statements *)

(** The state inside a method frame. *)
Class View (S : Type) : Type := view : S → State.
#[export] Instance view_state : View State := fun st => st.
#[export] Instance view_frame (L : Type) : View (State * L) := fst.

(** Nothing of [self] and no file changed between [st] and [st']. *)
Definition same_self (st st' : State) : Prop :=
  processed_episodes_cache st' = processed_episodes_cache st
  ∧ files st' = files st.

(** [effects P c]: whatever the state it starts in, [c] only adds events
    to the trace, each of them satisfies [P], and [c] leaves the cache and
    the files as it found them. *)
Definition effects {S A : Type} `{View S} (P : event → Prop) (c : M S A)
  : Prop :=
  ∀ s, ∃ new,
    trace (view (c s).2) = new ++ trace (view s)
    ∧ Forall P new
    ∧ same_self (view s) (view (c s).2).

(** The block ceiling of one request to the document store. *)
Definition within_limits (ev : event) : Prop :=
  match ev with
  | EvCreate data _ => length (cd_children data) ≤ 100
  | EvAppend _ children _ => length children ≤ 100
  | _ => True
  end.

Definition is_upload (ev : event) : bool :=
  match ev with EvUpload _ _ => true | _ => false end.

Definition is_create (ev : event) : bool :=
  match ev with EvCreate _ _ => true | _ => false end.

Definition is_append (ev : event) : bool :=
  match ev with EvAppend _ _ _ => true | _ => false end.

(** Events of the transcription client and the sleeps around them. *)
Definition transcription_event (ev : event) : Prop :=
  match ev with
  | EvUpload _ _ | EvGetFile _ _ | EvGenerate _ _ _ | EvDeleteFile _ _
  | EvSleep _ => True
  | _ => False
  end.

(** A request to the document store or a step of the download that
    raised. *)
Definition failed_request (ev : event) : Prop :=
  match ev with
  | EvCreate _ false | EvAppend _ _ false
  | EvDownload _ false | EvOpen _ false | EvWrite _ false => True
  | _ => False
  end.

Definition count (f : event → bool) (evs : list event) : nat :=
  length (filter (fun ev => f ev = true) evs).

(** The batches of the append requests of a trace, oldest first. *)
Definition appended (evs : list event) : list (list block) :=
  omap (fun ev => match ev with
                  | EvAppend _ children _ => Some children
                  | _ => None
                  end) (reverse evs).

(** A transcription event other than an upload. *)
Definition no_upload (ev : event) : Prop :=
  transcription_event ev ∧ is_upload ev = false.

(** What the [try] body of one turn of the retry loop ends in when the
    turn starts in [st]. *)
Definition try_outcome (env : Env) (fuel : nat) (audio_file : string)
  (st : State) : outcome transcription :=
  (with_local None (attempt_body env fuel audio_file) st).1.

(** The state after the turns [a], [a + 1], .., [a + n - 1] of the retry
    loop, the first of them starting in [st]. *)
Fixpoint after_turns (env : Env) (fuel : nat) (audio_file : string)
  (max_retries a n : nat) (st : State) : State :=
  match n with
  | 0 => st
  | S n' =>
      after_turns env fuel audio_file max_retries (S a) n'
        (attempt_turn env fuel audio_file max_retries a st).2
  end.

(** An append request or the pause after it. *)
Definition append_or_sleep (ev : event) : Prop :=
  match ev with
  | EvAppend _ _ _ | EvSleep _ => True
  | _ => False
  end.

(** The create request [add_to_notion] builds when the date is [date]. *)
Definition create_request (env : Env) (podcast_name title date summary
                                      transcript : string) : create_data :=
  {| cd_database_id := notion_database_id env;
     cd_podcast := podcast_name;
     cd_episode := title;
     cd_date := date;
     cd_summary := trim_summary summary;
     cd_children := initial_blocks (chunks transcript) |}.

(** *** The episode processor *)

(** The name of the temporary file of a call that starts in [st]. *)
Definition temp_path_of (env : Env) (st : State) : string :=
  temp_path_at (clock env (step st)).

(** The [try] of [process_episode] with its [except], without the
    [finally]. *)
Definition guarded_body (env : Env) (fuel : nat) (podcast_name : string)
  (entry : Entry) (st : State) : outcome bool * State :=
  try_except
    (process_body env fuel podcast_name entry (entry_title entry)
       (temp_path_of env st))
    (fun _ => ret false) st.

(** The state once the audio is on disk, when the three steps of the
    download succeed. *)
Definition downloaded (url temp_path : string) (st : State) : State :=
  let st1 := emit (EvDownload url true) st in
  let st2 := set_files ({[temp_path]} ∪ files st1)
               (emit (EvOpen temp_path true) st1) in
  emit (EvWrite temp_path true) st2.

Definition download_succeeds (env : Env) (st : State) : Prop :=
  status_passed (http_get env (step st)) = true
  ∧ fs_open env (S (step st)) = true
  ∧ stream_ok env (S (S (step st))) = true.

(** The episode was written in full: the create request went through
    with the head of the transcript [r], and the append requests carried
    all the batches of the rest. *)
Definition fully_persisted (env : Env) (podcast_name title : string)
  (new : list event) : Prop :=
  ∃ r date,
    In (EvCreate (create_request env podcast_name title date (summary r)
                    (transcript r)) true) new
    ∧ appended new = batches (remaining (chunks (transcript r))).

(** What holds of an outcome [o] and a state [st'] reached from [st]. *)
Definition body_post (env : Env) (podcast_name title temp_path : string)
  (st : State) (o : outcome bool) (st' : State) : Prop :=
  (∀ e, o ≠ Exc e)
  ∧ files st' ⊆ files st ∪ {[temp_path]}
  ∧ ∃ new,
      trace st' = new ++ trace st
      ∧ (Exists failed_request new → o = Ret false)
      ∧ match o with
        | Ret true =>
            Py.add (processed_episodes_cache st) (JStr title)
            = Ret (processed_episodes_cache st')
            ∧ fully_persisted env podcast_name title new
        | _ => processed_episodes_cache st' = processed_episodes_cache st
        end.

(** *** The ledger load *)

(** The request raised, the status was an error, or the body was not
    JSON. *)
Definition failed_reply (r : http_reply) : bool :=
  match checked_json r with
  | Ret _ => false
  | _ => true
  end.

(** A page of results after which the [while] loop asks for the next. *)
Definition page_continues (data : json) : bool :=
  match Py.get data "results" (JArr []), Py.get data "has_more" (JBool false)
  with
  | Ret results, Ret has_more =>
      match Py.iter results with
      | Ret _ => Py.truthy has_more
      | _ => false
      end
  | _, _ => false
  end.

(** A page of results after which the loop ends. *)
Definition page_ends (data : json) : bool :=
  match Py.get data "results" (JArr []), Py.get data "has_more" (JBool false)
  with
  | Ret results, Ret has_more =>
      match Py.iter results with
      | Ret _ => negb (Py.truthy has_more)
      | _ => false
      end
  | _, _ => false
  end.

(** A page the loop can read: a JSON object whose [results], the empty
    list when there is none, can be iterated. *)
Definition readable_page (data : json) : bool :=
  match data with
  | JObj fields =>
      match Py.iter (default (JArr []) (Py.assoc "results" fields)) with
      | Ret _ => true
      | _ => false
      end
  | _ => false
  end.

(** A failure of the network or of the protocol: the request raised, the
    status was an error, the body was not JSON, or the JSON was not a
    page the loop can read. *)
Definition reply_breaks (r : http_reply) : bool :=
  match r with
  | Response true (Some data) => negb (readable_page data)
  | _ => true
  end.

(** The identity field of a record, where it has the shape the loop
    reads: [properties], in it [Episode], in it a [rich_text] list whose
    first item has a [text] with a [content]. *)
Definition identity_field (page : json) : option json :=
  match page with
  | JObj fields =>
      match Py.assoc "properties" fields with
      | Some (JObj properties) =>
          match default (JObj []) (Py.assoc "Episode" properties) with
          | JObj episode =>
              match Py.assoc "rich_text" episode with
              | Some (JArr (JObj first :: _)) =>
                  match Py.assoc "text" first with
                  | Some (JObj text) => Py.assoc "content" text
                  | _ => None
                  end
              | _ => None
              end
          | _ => None
          end
      | _ => None
      end
  | _ => None
  end.

(** The titles of one page of results, added to [acc]. *)
Definition titles_of_page (acc : Py.pyset) (data : json) : Py.pyset :=
  match Py.get data "results" (JArr []) with
  | Ret results =>
      match Py.iter results with
      | Ret pages =>
          match record_pages acc pages tt with
          | (Ret s, _) => s
          | _ => acc
          end
      | _ => acc
      end
  | _ => acc
  end.

(** What the pages answered at the steps [first], .., [first + k - 1]
    add to [acc]: the set accumulated from the pages already read. *)
Fixpoint accumulated (env : Env) (first k : nat) (acc : Py.pyset)
  : Py.pyset :=
  match k with
  | 0 => acc
  | S k' =>
      match notion_query env first with
      | Response true (Some data) =>
          accumulated env (S first) k' (titles_of_page acc data)
      | _ => acc
      end
  end.

(** The first [k] requests are answered by pages that continue. *)
Definition pages_continue (env : Env) (first k : nat) : Prop :=
  ∀ i, i < k →
    ∃ data, notion_query env (first + i) = Response true (Some data)
            ∧ page_continues data = true.

(** The sentence of the specification on a failing load: what has been
    accumulated is returned. *)
Definition returns_accumulated (env : Env) (fuel : nat) (st : State) : Prop :=
  ∀ k, k < fuel →
    pages_continue env (step st) k →
    failed_reply (notion_query env (step st + k)) = true →
    (load_processed_episodes_from_notion env fuel st).1
    = Ret (accumulated env (step st) k []).

(** * Sample worlds *)

Definition empty_state : State :=
  {| trace := []; files := ∅; processed_episodes_cache := [] |}.

Definition sample_file : gfile := {| gname := "files/a1"; gstate := "ACTIVE" |}.

Definition sample_page : json :=
  JObj [("id", JStr "p1"); ("url", JStr "https://www.notion.so/p1")].

(** A world in which every call succeeds at once. *)
Definition calm : Env :=
  {| notion_database_id := "db";
     clock := fun n => (1700000000000 + Z.of_nat n)%Z;
     parse_date := fun _ _ => Some "2024-05-01";
     today := fun _ => "2024-06-01";
     notion_query := fun _ => Response true (Some (JObj []));
     notion_create := fun _ => Response true (Some sample_page);
     notion_append := fun _ => Response true None;
     http_get := fun _ => Response true None;
     stream_ok := fun _ => true;
     fs_open := fun _ => true;
     fs_remove := fun _ => true;
     genai_upload := fun _ => Some sample_file;
     genai_get := fun _ => Some sample_file;
     genai_generate := fun _ => Some " Two hosts talk. ";
     genai_delete := fun _ => true |}.

(** [calm] with another answer to uploads. *)
Definition with_upload (f : nat → option gfile) (env : Env) : Env :=
  {| notion_database_id := notion_database_id env;
     clock := clock env;
     parse_date := parse_date env;
     today := today env;
     notion_query := notion_query env;
     notion_create := notion_create env;
     notion_append := notion_append env;
     http_get := http_get env;
     stream_ok := stream_ok env;
     fs_open := fs_open env;
     fs_remove := fs_remove env;
     genai_upload := f;
     genai_get := genai_get env;
     genai_generate := genai_generate env;
     genai_delete := genai_delete env |}.

Definition with_query (f : nat → http_reply) (env : Env) : Env :=
  {| notion_database_id := notion_database_id env;
     clock := clock env;
     parse_date := parse_date env;
     today := today env;
     notion_query := f;
     notion_create := notion_create env;
     notion_append := notion_append env;
     http_get := http_get env;
     stream_ok := stream_ok env;
     fs_open := fs_open env;
     fs_remove := fs_remove env;
     genai_upload := genai_upload env;
     genai_get := genai_get env;
     genai_generate := genai_generate env;
     genai_delete := genai_delete env |}.

(** The answer to [os.remove] replaced, all else as in [env]. *)
Definition with_remove (f : nat → bool) (env : Env) : Env :=
  {| notion_database_id := notion_database_id env;
     clock := clock env;
     parse_date := parse_date env;
     today := today env;
     notion_query := notion_query env;
     notion_create := notion_create env;
     notion_append := notion_append env;
     http_get := http_get env;
     stream_ok := stream_ok env;
     fs_open := fs_open env;
     fs_remove := f;
     genai_upload := genai_upload env;
     genai_get := genai_get env;
     genai_generate := genai_generate env;
     genai_delete := genai_delete env |}.

(** The first four uploads fail; a failing turn leaves two events, the
    upload and the sleep. *)
Definition four_failures : Env :=
  with_upload (fun n => if n <? 8 then None else Some sample_file) calm.

Definition no_upload_ever : Env := with_upload (fun _ => None) calm.

Definition record_titled (title : string) : json :=
  JObj [("properties",
         JObj [("Episode",
                JObj [("rich_text",
                       JArr [JObj [("text",
                                    JObj [("content", JStr title)])]])])])].

(** One page with one record and more to come, then no connection. *)
Definition second_page_fails : Env :=
  with_query
    (fun n =>
       if n =? 0
       then Response true
              (Some (JObj [("results", JArr [record_titled "Episode 1"]);
                           ("has_more", JBool true);
                           ("next_cursor", JStr "c1")]))
       else NoConnection)
    calm.

(** A record whose identity field holds [content]. *)
Definition record_holding (content : json) : json :=
  JObj [("properties",
         JObj [("Episode",
                JObj [("rich_text",
                       JArr [JObj [("text",
                                    JObj [("content", content)])]])])])].

(** One page with one record and more to come, then a page whose
    [results] is null. *)
Definition second_page_unreadable : Env :=
  with_query
    (fun n =>
       if n =? 0
       then Response true
              (Some (JObj [("results", JArr [record_titled "Episode 1"]);
                           ("has_more", JBool true);
                           ("next_cursor", JStr "c1")]))
       else Response true
              (Some (JObj [("results", JNull); ("has_more", JBool false)])))
    calm.

Definition sample_entry : Entry :=
  {| e_title := Some "Episode 1";
     e_published := Some "Mon, 01 Jan 2024 08:00:00 GMT";
     e_enclosures := Some [{| enc_href := Some "https://cdn.example/e1.mp3" |}];
     e_links := None |}.

Definition untitled_entry : Entry :=
  {| e_title := None;
     e_published := None;
     e_enclosures := Some [];
     e_links :=
       Some [{| link_type := Some "text/html"; link_href := Some "https://a" |};
             {| link_type := Some "Audio/MPEG";
                link_href := Some "https://cdn.example/e2.mp3" |}] |}.

(** The ledger holds the title of [sample_entry]. *)
Definition seen_state : State :=
  {| trace := []; files := ∅; processed_episodes_cache := [JStr "Episode 1"] |}.

Fixpoint replicate_char (n : nat) (c : ascii) : string :=
  match n with
  | 0 => EmptyString
  | S n' => String c (replicate_char n' c)
  end.

(** A summary of 2500 characters. *)
Definition long_summary : string := replicate_char 2500 "s".

(** * The rest of the class *)

(** ** [load_env_configs], lines 22-35 *)

(** What the method keeps in [self]. *)
Record Config : Type := {
  gemini_key : string;
  notion_token : string;
  config_database_id : string;
  rss_feeds : json
}.

(** [os.environ.get], and [config.json] as [open] and [json.load] find it:
    [None] when the file cannot be opened, [Some None] when it is not
    JSON. *)
Record Process : Type := {
  environ : string → option string;
  config_json : option (option json)
}.

(** The [ValueError] of line 29. *)
Definition missing_variables : exn :=
  Exception "Missing required environment variables".

(** Truthiness of what [os.environ.get] returns. *)
Definition set_variable (v : option string) : bool :=
  match v with
  | Some (String _ _) => true
  | _ => false
  end.

Definition load_env_configs (p : Process) : outcome Config :=
  let gemini_key := environ p "GEMINI_API_KEY" in
  let notion_token := environ p "NOTION_API_KEY" in
  let notion_database_id := environ p "NOTION_DATABASE_ID" in
  if negb (set_variable gemini_key && set_variable notion_token
           && set_variable notion_database_id)
  then Exc missing_variables
  else
    match config_json p with
    | None => Exc OSError
    | Some None => Exc JSONDecodeError
    | Some (Some config) =>
        match Py.getitem config "rss_feeds" with
        | Ret feeds =>
            Ret {| gemini_key := default "" gemini_key;
                   notion_token := default "" notion_token;
                   config_database_id := default "" notion_database_id;
                   rss_feeds := feeds |}
        | Exc e => Exc e
        | Div => Div
        end
    end.

(** ** Loops *)

(** [for x in xs: body x] *)
Fixpoint for_each {S X : Type} (xs : list X) (body : X → M S unit)
  : M S unit :=
  match xs with
  | [] => ret tt
  | x :: rest => run body x then for_each rest body
  end.

(** ** [force_clear_api_storage], lines 37-50

    [list_files] is what [list(genai.list_files())] gives at a step,
    [None] when it raises; the listing leaves no event. *)
Definition force_clear_api_storage (env : Env)
  (list_files : nat → option (list gfile)) : M State unit :=
  try_except
    (let! listed := (fun st =>
                       (match list_files (step st) with
                        | Some l => Ret l
                        | None => Exc ClientError
                        end, st)) in
     match listed with
     | [] => ret tt
     | _ =>
         for_each listed
           (fun f => try_pass (genai_delete_file env (gname f)))
     end)
    (fun _ => ret tt).

(** ** [run], lines 323-350 *)

(** What [feedparser.parse] returns, as [run] reads it. *)
Record Feed : Type := {
  feed_title : option string;
  feed_entries : list Entry
}.

(** The frame of [run]: the state and the local variable [total]. *)
Definition run_frame : Type := (State * nat)%type.

(** Lines 343-345 *)
Definition run_entry (env : Env) (fuel : nat) (podcast_name : string)
  (entry : Entry) : M run_frame unit :=
  let! processed := outer (process_episode env fuel podcast_name entry) in
  if processed
  then
    let! total := get_local in
    run set_local (S total) then
    outer (time_sleep 5000)
  else ret tt.

(** Lines 332-348: one turn of the [for feed_url] loop.  [parse] is what
    [feedparser.parse] gives at a step, [None] when it raises; the fetch
    leaves no event. *)
Definition run_feed (env : Env) (parse : nat → json → option Feed)
  (fuel : nat) (feed_url : json) : M run_frame unit :=
  try_except
    (let! feed := (fun sl : run_frame =>
                     (match parse (step (fst sl)) feed_url with
                      | Some f => Ret f
                      | None => Exc (Exception "feed")
                      end, sl)) in
     match feed_entries feed with
     | [] => ret tt
     | _ =>
         let podcast_name := default "Unknown" (feed_title feed) in
         for_each (take 10 (feed_entries feed))
           (run_entry env fuel podcast_name)
     end)
    (fun _ => ret tt).

(** [run]; the value is the count the last [print] shows. *)
Definition run_loop (env : Env) (parse : nat → json → option Feed) (fuel : nat)
  (rss_feeds : json) : M State nat :=
  with_local 0
    (let! urls := pure (Py.iter rss_feeds) in
     run for_each urls (run_feed env parse fuel) then
     get_local).

(** ** [__init__], lines 17-20 *)

Definition init (env : Env) (list_files : nat → option (list gfile))
  (p : Process) (fuel : nat) : M State Config :=
  let! config := pure (load_env_configs p) in
  run force_clear_api_storage env list_files then
  let! cache := load_processed_episodes_from_notion env fuel in
  run (fun st => (Ret tt, set_cache cache st)) then
  ret config.

(** * Vocabulary of the further statements *)

(** *** The ledger load *)

(** The bodies of the query requests of a trace, oldest first. *)
Definition queries (evs : list event) : list (option json) :=
  omap (fun ev => match ev with
                  | EvQuery body => Some body
                  | _ => None
                  end) (reverse evs).

(** The body line 68-70 builds from [start_cursor]. *)
Definition query_body (start_cursor : json) : option json :=
  if Py.truthy start_cursor then Some start_cursor else None.

(** [data.get(k, default)] when [data] is an object. *)
Definition field (data : json) (k : string) (default : json) : json :=
  match Py.get data k default with
  | Ret v => v
  | _ => default
  end.

(** The bodies of the first [S k] requests when the pages answered from
    step [first] on continue: the first has [body], each next one the
    cursor of the page before it, if that is truthy. *)
Fixpoint bodies (env : Env) (first k : nat) (body : option json)
  : list (option json) :=
  match k with
  | 0 => [body]
  | S k' =>
      body ::
      match notion_query env first with
      | Response true (Some data) =>
          bodies env (S first) k'
            (query_body (field data "next_cursor" JNull))
      | _ => []
      end
  end.

(** The records of the page answered at step [n]. *)
Definition records_at (env : Env) (n : nat) : list json :=
  match notion_query env n with
  | Response true (Some data) =>
      match Py.iter (field data "results" (JArr [])) with
      | Ret pages => pages
      | _ => []
      end
  | _ => []
  end.

(** *** The retry loop *)

Definition is_delete (ev : event) : bool :=
  match ev with EvDeleteFile _ _ => true | _ => false end.

(** An upload that gave a handle. *)
Definition is_handle (ev : event) : bool :=
  match ev with EvUpload _ true => true | _ => false end.

(** The pause line 161 takes after the failed attempt [attempt], in
    milliseconds. *)
Definition backoff (attempt : nat) : Z := 60000 * 2 ^ Z.of_nat attempt.

(** The pauses of a minute or more of a trace, oldest first: the pauses
    between attempts (a poll pauses five seconds, an append 0.3). *)
Definition backoffs (evs : list event) : list Z :=
  omap (fun ev => match ev with
                  | EvSleep d => if (60000 <=? d)%Z then Some d else None
                  | _ => None
                  end) (reverse evs).

(** What the status loop leaves in the trace. *)
Definition poll_event (ev : event) : Prop :=
  match ev with
  | EvSleep d => d = 5000%Z
  | EvGetFile _ _ => True
  | _ => False
  end.

Definition is_status_request (ev : event) : bool :=
  match ev with EvGetFile _ _ => true | _ => false end.

(** Every round of a status loop that began at step [since] or later
    took five seconds or more: where the trace has a pause of five
    seconds followed by a status request that was answered, the clock
    read after the two is five seconds or more past the clock read
    before them.  Nothing is asked of the time any other call takes. *)
Definition status_rounds_take_five (env : Env) (since : nat)
  (tr : list event) : Prop :=
  ∀ later name earlier,
    tr = later ++ EvGetFile name true :: EvSleep 5000 :: earlier →
    since ≤ length earlier →
    (clock env (length earlier) + 5000 ≤ clock env (length earlier + 2))%Z.

(** The same, computed. *)
Fixpoint rounds_checked (env : Env) (since : nat) (tr : list event) : bool :=
  match tr with
  | [] => true
  | ev :: rest =>
      match ev, rest with
      | EvGetFile _ true, EvSleep d :: earlier =>
          negb (d =? 5000)%Z
          || (length earlier <? since)
          || (clock env (length earlier) + 5000
              <=? clock env (length earlier + 2))%Z
      | _, _ => true
      end
      && rounds_checked env since rest
  end.

(** A clock that moves on by five seconds over any two calls in a row. *)
Definition ticking (env : Env) : Prop :=
  ∀ n, (clock env n + 5000 ≤ clock env (n + 2))%Z.

(** A call ended in [final] because a transcription that began at step
    [since] or later was still in a status loop when the fuel was
    spent. *)
Definition stalled (env : Env) (fuel since : nat) (final : State) : Prop :=
  ∃ path st0,
    since ≤ step st0
    ∧ transcribe_with_retry env fuel path 5 st0 = (Div, final).

(** *** The storage cleanup *)

(** The names of the handles a trace asks to delete, oldest first. *)
Definition deletions (evs : list event) : list string :=
  omap (fun ev => match ev with
                  | EvDeleteFile name _ => Some name
                  | _ => None
                  end) (reverse evs).

(** The names of the three variables [load_env_configs] reads. *)
Definition required_variables : list string :=
  ["GEMINI_API_KEY"; "NOTION_API_KEY"; "NOTION_DATABASE_ID"].

(** *** The main loop *)

(** What a part of [run] that looks at no more than [m] entries does to
    the count and to the ledger. *)
Definition counted (env : Env) (fuel m : nat) (before : run_frame)
  (r : outcome unit * run_frame) : Prop :=
  (∀ e, r.1 ≠ Exc e)
  ∧ before.2 ≤ r.2.2 ≤ before.2 + m
  ∧ length (processed_episodes_cache r.2.1) + before.2
    = length (processed_episodes_cache before.1) + r.2.2
  ∧ step before.1 ≤ step r.2.1
  ∧ (r.1 = Div → stalled env fuel (step before.1) r.2.1).

(** ** Further sample worlds *)

(** Every handle stays in [PROCESSING]; the clock moves on by two and a
    half seconds with every call that leaves the process. *)
Definition stuck : Env :=
  {| notion_database_id := "db";
     clock := fun n => (1700000000000 + 2500 * Z.of_nat n)%Z;
     parse_date := fun _ _ => Some "2024-05-01";
     today := fun _ => "2024-06-01";
     notion_query := fun _ => Response true (Some (JObj []));
     notion_create := fun _ => Response true (Some sample_page);
     notion_append := fun _ => Response true None;
     http_get := fun _ => Response true None;
     stream_ok := fun _ => true;
     fs_open := fun _ => true;
     fs_remove := fun _ => true;
     genai_upload :=
       fun _ => Some {| gname := "files/a1"; gstate := "PROCESSING" |};
     genai_get :=
       fun _ => Some {| gname := "files/a1"; gstate := "PROCESSING" |};
     genai_generate := fun _ => Some " Two hosts talk. ";
     genai_delete := fun _ => true |}.

(** The download, the opening of the file and its writing take no time;
    from then on every call takes two and a half seconds.  A handle is
    in [PROCESSING] when uploaded and until the eighth step. *)
Definition instant_download : Env :=
  {| notion_database_id := "db";
     clock := fun n => (1700000000000 + 2500 * Z.of_nat (n - 3))%Z;
     parse_date := fun _ _ => Some "2024-05-01";
     today := fun _ => "2024-06-01";
     notion_query := fun _ => Response true (Some (JObj []));
     notion_create := fun _ => Response true (Some sample_page);
     notion_append := fun _ => Response true None;
     http_get := fun _ => Response true None;
     stream_ok := fun _ => true;
     fs_open := fun _ => true;
     fs_remove := fun _ => true;
     genai_upload :=
       fun _ => Some {| gname := "files/a1"; gstate := "PROCESSING" |};
     genai_get :=
       fun n => Some {| gname := "files/a1";
                        gstate := if n <? 8 then "PROCESSING" else "ACTIVE" |};
     genai_generate := fun _ => Some " Two hosts talk. ";
     genai_delete := fun _ => true |}.

(** No date can be parsed, and the reply to the create request is JSON
    without an [id]. *)
Definition page_lacks_id : Env :=
  {| notion_database_id := "db";
     clock := fun n => (1700000000000 + Z.of_nat n)%Z;
     parse_date := fun _ _ => None;
     today := fun _ => "2024-06-01";
     notion_query := fun _ => Response true (Some (JObj []));
     notion_create :=
       fun _ => Response true (Some (JObj [("object", JStr "page")]));
     notion_append := fun _ => Response true None;
     http_get := fun _ => Response true None;
     stream_ok := fun _ => true;
     fs_open := fun _ => true;
     fs_remove := fun _ => true;
     genai_upload := fun _ => Some sample_file;
     genai_get := fun _ => Some sample_file;
     genai_generate := fun _ => Some " Two hosts talk. ";
     genai_delete := fun _ => true |}.

Definition first_page : json :=
  JObj [("results", JArr [record_titled "Episode 1"]);
        ("has_more", JBool true);
        ("next_cursor", JStr "c1")].

Definition second_page : json :=
  JObj [("results", JArr [record_titled "Episode 2"; JObj []]);
        ("has_more", JBool false);
        ("next_cursor", JNull)].

(** A ledger of two pages. *)
Definition two_pages : Env :=
  with_query
    (fun n => Response true (Some (if n =? 0 then first_page else second_page)))
    calm.

(** A ledger whose every page says that more follow. *)
Definition endless_pages : Env :=
  with_query (fun _ => Response true (Some first_page)) calm.

(** The first enclosure has an empty [href]; a link has the audio. *)
Definition silent_entry : Entry :=
  {| e_title := Some "Episode 3";
     e_published := None;
     e_enclosures := Some [{| enc_href := Some "" |}];
     e_links :=
       Some [{| link_type := Some "audio/mpeg";
                link_href := Some "https://cdn.example/e3.mp3" |}] |}.

(** A process with no variable set. *)
Definition bare_process : Process :=
  {| environ := fun _ => None;
     config_json :=
       Some (Some (JObj [("rss_feeds",
                          JArr [JStr "https://feeds.example/a.xml"])])) |}.

(** A process with all it needs. *)
Definition sample_process : Process :=
  {| environ :=
       fun name =>
         if String.eqb name "GEMINI_API_KEY" then Some "g-key"
         else if String.eqb name "NOTION_API_KEY" then Some "n-token"
         else if String.eqb name "NOTION_DATABASE_ID" then Some "db"
         else None;
     config_json :=
       Some (Some (JObj [("rss_feeds",
                          JArr [JStr "https://feeds.example/a.xml"])])) |}.

Definition sample_config : Config :=
  {| gemini_key := "g-key";
     notion_token := "n-token";
     config_database_id := "db";
     rss_feeds := JArr [JStr "https://feeds.example/a.xml"] |}.

(** A feed of two episodes, whatever the address. *)
Definition sample_feed (_ : nat) (_ : json) : option Feed :=
  Some {| feed_title := Some "Creator Talk";
          feed_entries := [sample_entry; untitled_entry] |}.

(** * Runs on sample inputs *)

Example chunk_lengths_0 :
  map String.length (chunk_texts (replicate_char 0 "a")) = [].
Proof. reflexivity. Qed.

Example chunk_lengths_1 :
  map String.length (chunk_texts (replicate_char 1 "a")) = [1].
Proof. vm_compute. reflexivity. Qed.

Example chunk_lengths_1999 :
  map String.length (chunk_texts (replicate_char 1999 "a")) = [1999].
Proof. vm_compute. reflexivity. Qed.

Example chunk_lengths_2000 :
  map String.length (chunk_texts (replicate_char 2000 "a")) = [2000].
Proof. vm_compute. reflexivity. Qed.

Example chunk_lengths_2001 :
  map String.length (chunk_texts (replicate_char 2001 "a")) = [2000; 1].
Proof. vm_compute. reflexivity. Qed.

Example batches_of_250 :
  map length (batches (replicate 250 Divider)) = [100; 100; 50].
Proof. vm_compute. reflexivity. Qed.

Example strip_sample : PyStr.strip "  Two hosts talk. " = "Two hosts talk.".
Proof. reflexivity. Qed.

Example audio_url_from_links :
  audio_url untitled_entry = Ret (Some "https://cdn.example/e2.mp3").
Proof. reflexivity. Qed.

(** A first episode in a calm world: downloaded, transcribed in one turn,
    written with one create request, recorded, and the file removed. *)
Example calm_run :
  let r := process_episode calm 3 "Creator Talk" sample_entry empty_state in
  r.1 = Ret true
  ∧ reverse (trace r.2)
    = [EvDownload "https://cdn.example/e1.mp3" true;
       EvOpen "temp_1700000000.mp3" true;
       EvWrite "temp_1700000000.mp3" true;
       EvUpload "temp_1700000000.mp3" true;
       EvGenerate summary_prompt "files/a1" true;
       EvGenerate transcript_prompt "files/a1" true;
       EvDeleteFile "files/a1" true;
       EvCreate
         {| cd_database_id := "db";
            cd_podcast := "Creator Talk";
            cd_episode := "Episode 1";
            cd_date := "2024-05-01";
            cd_summary := "Two hosts talk.";
            cd_children := [Heading1 "Full Transcript"; Divider;
                            Paragraph " Two hosts talk. "] |} true;
       EvRemove "temp_1700000000.mp3" true]
  ∧ processed_episodes_cache r.2 = [JStr "Episode 1"]
  ∧ elements (files r.2) = [].
Proof. vm_compute. repeat split. Qed.

(** The same episode when every upload fails: five uploads, four pauses
    of 60, 120, 240 and 480 seconds, nothing written, nothing recorded. *)
Example exhausted_run :
  let r := process_episode no_upload_ever 3 "Creator Talk" sample_entry
             empty_state in
  r.1 = Ret false
  ∧ reverse (trace r.2)
    = [EvDownload "https://cdn.example/e1.mp3" true;
       EvOpen "temp_1700000000.mp3" true;
       EvWrite "temp_1700000000.mp3" true;
       EvUpload "temp_1700000000.mp3" false; EvSleep 60000;
       EvUpload "temp_1700000000.mp3" false; EvSleep 120000;
       EvUpload "temp_1700000000.mp3" false; EvSleep 240000;
       EvUpload "temp_1700000000.mp3" false; EvSleep 480000;
       EvUpload "temp_1700000000.mp3" false;
       EvRemove "temp_1700000000.mp3" true]
  ∧ processed_episodes_cache r.2 = []
  ∧ elements (files r.2) = [].
Proof. vm_compute. repeat split. Qed.

(** Two requests, the second without an answer: the title of the first
    page is lost. *)
Example failing_load_run :
  let r := load_processed_episodes_from_notion second_page_fails 5
             empty_state in
  r.1 = Ret []
  ∧ reverse (trace r.2) = [EvQuery None; EvQuery (Some (JStr "c1"))].
Proof. vm_compute. repeat split. Qed.

(** * Properties *)

(** ** Slices and ranges *)

Section Slices.

Lemma substring_length (s : string) (n m : nat) :
  String.length (String.substring n m s) = min m (String.length s - n).
Proof.
  revert n m; induction s as [|c s IH]; intros [|n] [|m];
    cbn [String.substring String.length]; rewrite ?IH; lia.
Qed.

Lemma substring_whole (s : string) (m : nat) :
  String.length s ≤ m → String.substring 0 m s = s.
Proof.
  revert m; induction s as [|c s IH]; intros [|m] H; simpl in *;
    try reflexivity; try lia.
  f_equal. apply IH. lia.
Qed.

Lemma substring_split (s : string) (n m : nat) :
  String.substring 0 n s +:+ String.substring n m s
  = String.substring 0 (n + m) s.
Proof.
  revert n m; induction s as [|c s IH]; intros [|n] m;
    cbn [String.substring Nat.add].
  - destruct m; reflexivity.
  - reflexivity.
  - reflexivity.
  - change (String c ?a +:+ ?b) with (String c (a +:+ b)).
    f_equal. apply IH.
Qed.

Lemma append_length (a b : string) :
  String.length (a +:+ b) = String.length a + String.length b.
Proof.
  induction a as [|c a IH]; [reflexivity|].
  change (S (String.length (a +:+ b)) = S (String.length a + String.length b)).
  now rewrite IH.
Qed.

Lemma concat_snoc (l : list string) (x : string) :
  PyStr.concat (l ++ [x]) = PyStr.concat l +:+ x.
Proof.
  induction l as [|y l IH]; cbn [app PyStr.concat foldr].
  - change (x +:+ "" = "" +:+ x). induction x as [|c x IHx]; [reflexivity|].
    change (String c (x +:+ "") = String c x). f_equal. exact IHx.
  - fold (PyStr.concat (l ++ [x])). fold (PyStr.concat l). rewrite IH.
    induction y as [|c y IHy]; [reflexivity|].
    change (String c (y +:+ PyStr.concat l +:+ x)
            = String c ((y +:+ PyStr.concat l) +:+ x)).
    f_equal. exact IHy.
Qed.

Lemma range_len_bounds (stop step : nat) :
  0 < step →
  stop ≤ PyStr.range_len 0 stop step * step
  ∧ (0 < stop → (PyStr.range_len 0 stop step - 1) * step < stop).
Proof.
  intros Hs. unfold PyStr.range_len. rewrite Nat.sub_0_r.
  pose proof (Nat.div_mod_eq (stop + (step - 1)) step) as E.
  pose proof (Nat.mod_upper_bound (stop + (step - 1)) step ltac:(lia)) as B.
  set (q := (stop + (step - 1)) / step) in *.
  set (r := (stop + (step - 1)) mod step) in *.
  clearbody q r. rewrite (Nat.mul_comm step q) in E.
  split; [lia|]. intros Hp. destruct q as [|q]; [lia|].
  replace (S q - 1) with q by lia. simpl in E. lia.
Qed.

Lemma range_len_zero (step : nat) :
  0 < step → PyStr.range_len 0 0 step = 0.
Proof.
  intros Hs. unfold PyStr.range_len. apply Nat.div_small. lia.
Qed.

Lemma range_length (start stop step : nat) :
  length (PyStr.range start stop step) = PyStr.range_len start stop step.
Proof. unfold PyStr.range. now rewrite length_map, length_seq. Qed.

Lemma range_lookup (start stop step i k : nat) :
  PyStr.range start stop step !! i = Some k →
  k = start + i * step ∧ i < PyStr.range_len start stop step.
Proof.
  unfold PyStr.range. rewrite list_lookup_fmap.
  destruct (seq 0 _ !! i) as [j|] eqn:E; [|discriminate].
  apply lookup_seq in E as [-> ?]. simpl. intros [= <-]. split; [lia|assumption].
Qed.

(** The slices of width [w] taken at the first [n] multiples of [w] make
    up the first [n * w] characters. *)
Lemma slices_concat (s : string) (w n : nat) :
  PyStr.concat
    (map (fun i => PyStr.slice s i (i + w))
         (map (fun k => 0 + k * w) (seq 0 n)))
  = String.substring 0 (n * w) s.
Proof.
  induction n as [|n IH].
  - simpl. destruct s; reflexivity.
  - rewrite seq_S, !map_app. cbn [map]. rewrite concat_snoc, IH.
    unfold PyStr.slice. replace (0 + n * w + w - (0 + n * w)) with w by lia.
    replace (0 + n * w) with (n * w) by lia.
    rewrite substring_split. f_equal. lia.
Qed.

End Slices.

(** ** The transcript in segments *)

Lemma chunk_texts_concat (t : string) :
  PyStr.concat (chunk_texts t) = t.
Proof.
  unfold chunk_texts, PyStr.range. rewrite slices_concat.
  apply substring_whole.
  apply (range_len_bounds (String.length t) 2000). lia.
Qed.

Lemma chunks_length (t : string) :
  length (chunks t) = (String.length t + 1999) / 2000.
Proof.
  unfold chunks, chunk_texts. rewrite !length_map, range_length.
  unfold PyStr.range_len. now rewrite Nat.sub_0_r.
Qed.

Lemma chunk_texts_lookup (t : string) (i : nat) (s : string) :
  chunk_texts t !! i = Some s →
  s = PyStr.slice t (i * 2000) (i * 2000 + 2000)
  ∧ i < length (chunk_texts t).
Proof.
  unfold chunk_texts. intros H. rewrite list_lookup_fmap in H.
  destruct (PyStr.range _ _ _ !! i) as [k|] eqn:E; [|discriminate].
  injection H as <-. apply range_lookup in E as [-> Hi]. simpl. split; [reflexivity|].
  now rewrite length_map, range_length.
Qed.

(** C1: the segments of a transcript, put back together in order, are the
    transcript; every segment but the last has 2000 characters, the last
    has between 1 and 2000; the empty transcript has no segment. *)
Theorem chunking_roundtrip (t : string) :
  PyStr.concat (map block_text (chunks t)) = t
  ∧ (∀ i b, chunks t !! i = Some b →
       ∃ s, b = Paragraph s
            ∧ (S i < length (chunks t) → String.length s = 2000)
            ∧ (S i = length (chunks t) → 1 ≤ String.length s ≤ 2000))
  ∧ chunks "" = [].
Proof.
  split; [|split].
  - unfold chunks. rewrite map_map. simpl.
    rewrite map_id. apply chunk_texts_concat.
  - intros i b H. unfold chunks in H. rewrite list_lookup_fmap in H.
    destruct (chunk_texts t !! i) as [s|] eqn:E; [|discriminate].
    injection H as <-. exists s. split; [reflexivity|].
    apply chunk_texts_lookup in E as [-> Hi].
    unfold chunks. rewrite length_map.
    unfold PyStr.slice. rewrite substring_length.
    unfold chunk_texts in *. rewrite length_map, range_length in *.
    destruct (range_len_bounds (String.length t) 2000 ltac:(lia)) as [Hu Hl].
    pose proof (range_len_zero 2000 ltac:(lia)) as Hz.
    destruct (String.length t) as [|len] eqn:El; [rewrite Hz in Hi; lia|].
    set (n := PyStr.range_len 0 (S len) 2000) in *.
    split; intros Hn.
    + assert ((n - 1) * 2000 < S len) by (apply Hl; lia). lia.
    + assert ((n - 1) * 2000 < S len) by (apply Hl; lia).
      replace (n - 1) with i in * by lia. lia.
  - reflexivity.
Qed.


(** ** Rules for [effects] *)

Lemma same_self_refl (st : State) : same_self st st.
Proof. split; reflexivity. Qed.

Lemma same_self_trans (a b c : State) :
  same_self a b → same_self b c → same_self a c.
Proof. intros [? ?] [? ?]. split; congruence. Qed.

Lemma same_self_emit (ev : event) (st : State) : same_self st (emit ev st).
Proof. split; reflexivity. Qed.

#[local] Hint Resolve same_self_refl same_self_emit : core.

Section Effects.

Context {S : Type} `{View S}.
Variable P : event → Prop.

Lemma effects_ret {A} (a : A) : effects P (ret a : M S A).
Proof. intros s. exists []. simpl. auto. Qed.

Lemma effects_raise {A} (e : exn) : effects P (raise e : M S A).
Proof. intros s. exists []. simpl. auto. Qed.

Lemma effects_diverge {A} : effects P (diverge : M S A).
Proof. intros s. exists []. simpl. auto. Qed.

Lemma effects_pure {A} (o : outcome A) : effects P (pure o : M S A).
Proof. intros s. exists []. simpl. auto. Qed.

Lemma effects_seq {A} (c : M S A) (s s' : S) (new : list event) :
  trace (view s') = new ++ trace (view s) →
  Forall P new →
  same_self (view s) (view s') →
  effects P c →
  ∃ new', trace (view (c s').2) = new' ++ trace (view s)
          ∧ Forall P new'
          ∧ same_self (view s) (view (c s').2).
Proof.
  intros Ht HP Hc Hk. destruct (Hk s') as (n2 & Ht2 & HP2 & Hc2).
  exists (n2 ++ new). rewrite Ht2, Ht, app_assoc.
  split; [reflexivity|]. split; [|eapply same_self_trans; eauto].
  apply Forall_app; auto.
Qed.

Lemma effects_bind {A B} (c : M S A) (k : A → M S B) :
  effects P c → (∀ a, effects P (k a)) → effects P (bind c k).
Proof.
  intros Hc Hk s. destruct (Hc s) as (n1 & Ht & HP & Hca).
  unfold bind. destruct (c s) as [[a|e|] s1]; simpl in *.
  - eapply effects_seq; eauto.
  - exists n1. auto.
  - exists n1. auto.
Qed.

Lemma effects_try_except {A} (body : M S A) (h : exn → M S A) :
  effects P body → (∀ e, effects P (h e)) → effects P (try_except body h).
Proof.
  intros Hc Hk s. destruct (Hc s) as (n1 & Ht & HP & Hca).
  unfold try_except. destruct (body s) as [[a|e|] s1]; simpl in *.
  - exists n1. auto.
  - eapply effects_seq; eauto.
  - exists n1. auto.
Qed.

Lemma effects_try_pass (body : M S unit) :
  effects P body → effects P (try_pass body).
Proof.
  intros Hb. apply effects_try_except; [assumption|].
  intros _. apply effects_ret.
Qed.

End Effects.

Section EffectsFrame.

Context {L : Type}.
Variable P : event → Prop.

Lemma effects_outer {A} (c : M State A) :
  effects P c → effects P (outer c : M (State * L) A).
Proof.
  intros Hc [s l]. destruct (Hc s) as (n & Ht & HP & Hca).
  exists n. unfold outer. simpl. destruct (c s) as [r s']. auto.
Qed.

Lemma effects_get_local : effects P (get_local : M (State * L) L).
Proof. intros s. exists []. simpl. auto. Qed.

Lemma effects_set_local (l : L) :
  effects P (set_local l : M (State * L) unit).
Proof. intros s. exists []. simpl. auto. Qed.

End EffectsFrame.

(** ** What each call leaves in the trace *)

Section Calls.

Variable env : Env.
Variable P : event → Prop.

Ltac one_event reply :=
  let st := fresh "st" in
  intros st; destruct (reply env (step st)) eqn:?;
  eexists [_]; simpl;
  (split; [reflexivity|split; [constructor; auto|split; reflexivity]]).

Lemma effects_time_time : effects P (time_time env).
Proof. intros st. exists []. simpl. auto. Qed.

Lemma effects_time_sleep ms :
  P (EvSleep ms) → effects P (time_sleep ms).
Proof. intros HP st. eexists [_]. simpl.
  split; [reflexivity|split; [constructor; auto|split; reflexivity]]. Qed.

Lemma effects_genai_get_file name :
  (∀ ok, P (EvGetFile name ok)) → effects P (genai_get_file env name).
Proof. intros HP. unfold genai_get_file. one_event genai_get. Qed.

Lemma effects_generate_text p f :
  (∀ ok, P (EvGenerate p (gname f) ok)) → effects P (generate_text env p f).
Proof. intros HP. unfold generate_text. one_event genai_generate. Qed.

Lemma effects_genai_delete_file name :
  (∀ ok, P (EvDeleteFile name ok)) → effects P (genai_delete_file env name).
Proof. intros HP. unfold genai_delete_file. one_event genai_delete. Qed.

End Calls.

(** ** Monad equations *)

Lemma try_bind_first {S A B} (c : M S A) (k : A → M S B) (h : exn → M S B)
  (s : S) :
  try_except (bind c k) h s
  = match c s with
    | (Ret a, s') => try_except (k a) h s'
    | (Exc e, s') => h e s'
    | (Div, s') => (Div, s')
    end.
Proof. unfold try_except, bind. destruct (c s) as [[a|e|] s']; reflexivity. Qed.

Lemma bind_assoc_at {S A B C} (c : M S A) (k1 : A → M S B) (k2 : B → M S C)
  (s : S) :
  bind (bind c k1) k2 s = bind c (fun a => bind (k1 a) k2) s.
Proof. unfold bind. destruct (c s) as [[a|e|] s']; reflexivity. Qed.

Lemma try_bind_bind_first {S A B C} (c : M S A) (k1 : A → M S B)
  (k2 : B → M S C) (h : exn → M S C) (s : S) :
  try_except (bind (bind c k1) k2) h s
  = match c s with
    | (Ret a, s') => try_except (bind (k1 a) k2) h s'
    | (Exc e, s') => h e s'
    | (Div, s') => (Div, s')
    end.
Proof.
  unfold try_except. rewrite bind_assoc_at. unfold bind at 1.
  destruct (c s) as [[a|e|] s']; reflexivity.
Qed.

(** ** Counting events *)

Lemma count_app (f : event → bool) (a b : list event) :
  count f (a ++ b) = count f a + count f b.
Proof. unfold count. now rewrite filter_app, length_app. Qed.

Lemma count_no_upload (evs : list event) :
  Forall no_upload evs → count is_upload evs = 0.
Proof.
  induction 1 as [|ev evs [_ Hev] _ IH]; [reflexivity|].
  unfold count in *. rewrite filter_cons_False; [assumption|].
  rewrite Hev. discriminate.
Qed.

(** ** The retry loop *)

Ltac effects_step :=
  first
    [ apply effects_ret | apply effects_raise | apply effects_diverge
    | apply effects_pure | apply effects_get_local | apply effects_set_local
    | apply effects_time_time | apply effects_outer | apply effects_try_pass
    | apply effects_try_except | apply effects_bind
    | apply effects_time_sleep | apply effects_genai_get_file
    | apply effects_generate_text | apply effects_genai_delete_file
    | match goal with
      | |- effects _ (if ?b then _ else _) => destruct b
      | |- effects _ (match ?x with _ => _ end) => destruct x
      | |- ∀ _, _ => intro
      end ].

Section Retry.

Variable env : Env.

Lemma effects_gemini_file (P : event → Prop) : effects P gemini_file.
Proof. unfold gemini_file. repeat effects_step. Qed.

Lemma effects_poll (fuel : nat) (start_time : Z) :
  effects no_upload (poll env fuel start_time).
Proof.
  induction fuel as [|fuel IH]; simpl.
  - apply effects_bind; [apply effects_gemini_file|]. repeat effects_step.
  - apply effects_bind; [apply effects_gemini_file|]. intros f.
    destruct (String.eqb _ _); [|apply effects_ret].
    repeat first [exact IH | effects_step | split; [exact I|reflexivity]].
Qed.

Lemma effects_attempt_handler (max_retries attempt : nat) (e : exn) :
  effects no_upload (attempt_handler env max_retries attempt e).
Proof.
  unfold attempt_handler.
  repeat first [effects_step | split; [exact I|reflexivity]].
Qed.

(** A turn uploads once, first of all. *)
Lemma attempt_turn_trace (fuel : nat) (audio_file : string)
  (max_retries attempt : nat) (st : State) :
  ∃ new ok,
    trace (attempt_turn env fuel audio_file max_retries attempt st).2
    = new ++ EvUpload audio_file ok :: trace st
    ∧ Forall no_upload new
    ∧ same_self st
        (attempt_turn env fuel audio_file max_retries attempt st).2.
Proof.
  destruct (attempt_turn env fuel audio_file max_retries attempt st)
    as [o s1] eqn:R. simpl.
  unfold attempt_turn, with_local, attempt_body in R.
  rewrite try_bind_bind_first in R.
  unfold outer at 1, genai_upload_file in R. simpl in R.
  destruct (genai_upload env (step st)) as [f|] eqn:E.
  - match type of R with
    | context [try_except ?b ?h ?s] =>
        assert (Hc : effects no_upload (try_except b h));
        [|destruct (Hc s) as (new & Ht & HP & Hca);
          destruct (try_except b h s) as [r [s' l]]]
    end.
    { apply effects_try_except; [|apply effects_attempt_handler].
      repeat first [apply effects_poll | apply effects_gemini_file
                   | effects_step | split; [exact I|reflexivity]]. }
    injection R as <- <-. exists new, true. simpl in *. auto.
  - pose proof (effects_attempt_handler max_retries attempt ClientError) as Hc.
    match type of R with
    | context [attempt_handler _ _ _ _ ?s] =>
        destruct (Hc s) as (new & Ht & HP & Hca);
        destruct (attempt_handler env max_retries attempt ClientError s)
          as [r [s' l]]
    end.
    injection R as <- <-. exists new, false. simpl in *. auto.
Qed.

(** How a turn ends, from how its [try] body ends. *)
Lemma attempt_turn_outcome (fuel : nat) (audio_file : string)
  (max_retries attempt : nat) (st : State) :
  (attempt_turn env fuel audio_file max_retries attempt st).1
  = match try_outcome env fuel audio_file st with
    | Ret r => Ret (Some r)
    | Exc e => if attempt <? max_retries - 1 then Ret None else Exc e
    | Div => Div
    end.
Proof.
  unfold attempt_turn, try_outcome, with_local, try_except, bind.
  destruct (attempt_body env fuel audio_file (st, None)) as [[r|e|] [s' l]];
    simpl; try reflexivity.
  unfold attempt_handler, bind, get_local. simpl.
  destruct l as [f|]; unfold try_pass, try_except, outer, ret; simpl.
  - destruct (genai_delete_file env (gname f) s') as [[[]|?|] s2] eqn:E;
      simpl.
    + destruct (attempt <? max_retries - 1); reflexivity.
    + destruct (attempt <? max_retries - 1); reflexivity.
    + unfold genai_delete_file in E.
      destruct (genai_delete env (step s')); discriminate.
  - destruct (attempt <? max_retries - 1); reflexivity.
Qed.

Lemma attempts_cons (fuel : nat) (audio_file : string) (max_retries a : nat)
  (rest : list nat) (st : State) :
  attempts env fuel audio_file max_retries (a :: rest) st
  = match attempt_turn env fuel audio_file max_retries a st with
    | (Ret (Some t), s) => (Ret (Some t), s)
    | (Ret None, s) => attempts env fuel audio_file max_retries rest s
    | (Exc e, s) => (Exc e, s)
    | (Div, s) => (Div, s)
    end.
Proof.
  simpl. unfold bind.
  destruct (attempt_turn _ _ _ _ _ _) as [[[t|]|e|] s]; reflexivity.
Qed.

(** The loop never uploads more often than it has turns. *)
Lemma attempts_trace (fuel : nat) (audio_file : string) (max_retries : nat)
  (turns : list nat) (st : State) :
  ∃ new,
    trace (attempts env fuel audio_file max_retries turns st).2
    = new ++ trace st
    ∧ count is_upload new ≤ length turns
    ∧ Forall transcription_event new
    ∧ same_self st (attempts env fuel audio_file max_retries turns st).2.
Proof.
  revert st. induction turns as [|a rest IH]; intros st.
  - exists []. split; [reflexivity|]. split; [apply Nat.le_refl|].
    split; [constructor|apply same_self_refl].
  - rewrite attempts_cons.
    destruct (attempt_turn_trace fuel audio_file max_retries a st)
      as (new & ok & Ht & HP & Hca).
    assert (Hone : count is_upload (new ++ [EvUpload audio_file ok]) = 1).
    { rewrite count_app, count_no_upload by assumption. reflexivity. }
    assert (Hall : Forall transcription_event
                     (new ++ [EvUpload audio_file ok])).
    { apply Forall_app. split; [|repeat constructor].
      eapply Forall_impl; [exact HP|]. intros ev [? _]. assumption. }
    destruct (attempt_turn _ _ _ _ _ _) as [[[t|]|e|] s] eqn:E;
      cbn [fst snd] in Ht, Hca; cbn [fst snd];
      try (exists (new ++ [EvUpload audio_file ok]);
           rewrite <- app_assoc; simpl;
           split; [assumption|]; split; [lia|]; split; assumption).
    destruct (IH s) as (new' & Ht' & Hn' & HP' & Hca').
    exists (new' ++ new ++ [EvUpload audio_file ok]).
    rewrite Ht', Ht, <- !app_assoc.
    split; [reflexivity|]. split; [rewrite count_app, Hone; simpl; lia|].
    split; [apply Forall_app; auto|].
    eapply same_self_trans; eauto.
Qed.

Lemma after_turns_trace (fuel : nat) (audio_file : string)
  (max_retries n a : nat) (st : State) :
  ∃ new,
    trace (after_turns env fuel audio_file max_retries a n st)
    = new ++ trace st
    ∧ count is_upload new = n.
Proof.
  revert a st. induction n as [|n IH]; intros a st; simpl.
  - exists []. auto.
  - destruct (attempt_turn_trace fuel audio_file max_retries a st)
      as (new & ok & Ht & HP & _).
    destruct (IH (S a) (attempt_turn env fuel audio_file max_retries a st).2)
      as (new' & Ht' & Hn').
    exists (new' ++ new ++ [EvUpload audio_file ok]).
    rewrite Ht', Ht, <- !app_assoc. split; [reflexivity|].
    rewrite !count_app, Hn', count_no_upload by assumption.
    unfold count. simpl. lia.
Qed.

(** Failing turns, none of them the last one, are passed over. *)
Lemma attempts_skip_failures (fuel : nat) (audio_file : string)
  (max_retries : nat) (rest : list nat) :
  ∀ n a st,
    a + n < max_retries →
    (∀ i, i < n →
       ∃ e, try_outcome env fuel audio_file
              (after_turns env fuel audio_file max_retries a i st) = Exc e) →
    attempts env fuel audio_file max_retries (seq a n ++ rest) st
    = attempts env fuel audio_file max_retries rest
        (after_turns env fuel audio_file max_retries a n st).
Proof.
  induction n as [|n IH]; intros a st Hlt Hfail; [reflexivity|].
  change (seq a (S n) ++ rest) with (a :: (seq (S a) n ++ rest)).
  rewrite attempts_cons.
  pose proof (attempt_turn_outcome fuel audio_file max_retries a st) as Ho.
  destruct (Hfail 0 ltac:(lia)) as [e He]. simpl in He. rewrite He in Ho.
  assert (Hb : (a <? max_retries - 1) = true) by (apply Nat.ltb_lt; lia).
  rewrite Hb in Ho.
  destruct (attempt_turn env fuel audio_file max_retries a st)
    as [o s] eqn:Eq. simpl in Ho. subst o.
  assert (Hs : ∀ k, after_turns env fuel audio_file max_retries a (S k) st
                    = after_turns env fuel audio_file max_retries (S a) k s)
    by (intros k; simpl; now rewrite Eq).
  rewrite Hs. apply IH; [lia|].
  intros i Hi. rewrite <- Hs. apply Hfail. lia.
Qed.

(** The last turn decides. *)
Lemma attempts_last (fuel : nat) (audio_file : string) (max_retries : nat)
  (st : State) :
  attempts env fuel audio_file max_retries [max_retries - 1] st
  = (match try_outcome env fuel audio_file st with
     | Ret r => Ret (Some r)
     | Exc e => Exc e
     | Div => Div
     end,
     (attempt_turn env fuel audio_file max_retries (max_retries - 1) st).2).
Proof.
  rewrite attempts_cons.
  pose proof (attempt_turn_outcome fuel audio_file max_retries
                (max_retries - 1) st) as Ho.
  rewrite Nat.ltb_irrefl in Ho.
  destruct (attempt_turn _ _ _ _ _ _) as [o s]. simpl in *. subst o.
  destruct (try_outcome env fuel audio_file st); reflexivity.
Qed.

End Retry.

(** C4: with five turns, [transcribe_with_retry] never uploads more than
    five times.  When the [try] bodies of the first four turns raise, it
    uploads five times in all and ends as the fifth [try] body ends: it
    returns what the fifth returned, or raises what the fifth raised. *)
Theorem transcribe_five_attempts (env : Env) (fuel : nat)
  (audio_file : string) (st : State) :
  (∃ new,
     trace (transcribe_with_retry env fuel audio_file 5 st).2 = new ++ trace st
     ∧ count is_upload new ≤ 5)
  ∧ ((∀ k, k < 4 →
        ∃ e, try_outcome env fuel audio_file
               (after_turns env fuel audio_file 5 0 k st) = Exc e) →
     (∀ r,
        try_outcome env fuel audio_file
          (after_turns env fuel audio_file 5 0 4 st) = Ret r →
        (transcribe_with_retry env fuel audio_file 5 st).1 = Ret (Some r))
     ∧ (∀ e,
          try_outcome env fuel audio_file
            (after_turns env fuel audio_file 5 0 4 st) = Exc e →
          (transcribe_with_retry env fuel audio_file 5 st).1 = Exc e)
     ∧ (∃ new,
          trace (transcribe_with_retry env fuel audio_file 5 st).2
          = new ++ trace st
          ∧ count is_upload new = 5)).
Proof.
  split.
  - unfold transcribe_with_retry.
    destruct (attempts_trace env fuel audio_file 5 (seq 0 5) st)
      as (new & Ht & Hn & _).
    exists new. split; [assumption|]. simpl in Hn. lia.
  - intros Hfail.
    assert (E : transcribe_with_retry env fuel audio_file 5 st
                = (match try_outcome env fuel audio_file
                           (after_turns env fuel audio_file 5 0 4 st) with
                   | Ret r => Ret (Some r)
                   | Exc e => Exc e
                   | Div => Div
                   end,
                   after_turns env fuel audio_file 5 0 5 st)).
    { unfold transcribe_with_retry. change (seq 0 5) with (seq 0 4 ++ [5 - 1]).
      rewrite attempts_skip_failures by (lia || exact Hfail).
      apply attempts_last. }
    rewrite E. cbn [fst snd]. split; [|split].
    + intros r ->. reflexivity.
    + intros e ->. reflexivity.
    + destruct (after_turns_trace env fuel audio_file 5 5 0 st)
        as (new & Ht & Hn).
      exists new. auto.
Qed.

(** ** The ledger load *)

Section Ledger.

Variable env : Env.

Lemma episode_title_pure {S} (page : json) (s : S) :
  episode_title page s = ((episode_title page tt).1, s).
Proof.
  unfold episode_title, bind, pure, ret. simpl.
  destruct (Py.getitem page "properties") as [properties| |]; try reflexivity.
  destruct (Py.get properties "Episode" (JObj [])) as [prop| |];
    try reflexivity.
  destruct (Py.get prop "rich_text" JNull) as [rich| |]; try reflexivity.
  destruct (Py.truthy rich); try reflexivity.
  destruct (Py.getitem prop "rich_text") as [rich_text| |]; try reflexivity.
  destruct (Py.getitem0 rich_text) as [first| |]; try reflexivity.
  destruct (Py.getitem first "text") as [text| |]; try reflexivity.
  destruct (Py.getitem text "content") as [title| |]; reflexivity.
Qed.

Lemma episode_title_no_div (page : json) :
  (episode_title page tt).1 ≠ Div.
Proof.
  unfold episode_title, bind, pure, ret. simpl.
  destruct page as [| | | | |fields]; simpl; try discriminate.
  destruct (Py.assoc "properties" fields) as [properties|]; try discriminate.
  destruct properties as [| | | | |pf]; simpl; try discriminate.
  assert (Hget : ∀ v k d, Py.get v k d ≠ Div).
  { intros [] k d; simpl; try discriminate.
    destruct (Py.assoc k fields0); discriminate. }
  assert (Hitem : ∀ v k, Py.getitem v k ≠ Div).
  { intros [] k; simpl; try discriminate.
    destruct (Py.assoc k fields0); discriminate. }
  assert (Hzero : ∀ v, Py.getitem0 v ≠ Div).
  { intros [| | |[]|[]|]; simpl; discriminate. }
  set (prop := match Py.assoc "Episode" pf with
               | Some x => x
               | None => JObj []
               end).
  replace (match Py.assoc "Episode" pf with
           | Some x => Ret x
           | None => Ret (JObj [])
           end) with (Ret prop : outcome json)
    by (unfold prop; destruct (Py.assoc "Episode" pf); reflexivity).
  pose proof (Hget prop "rich_text" JNull).
  destruct (Py.get prop "rich_text" JNull) as [rich| |];
    try discriminate; try congruence.
  destruct (Py.truthy rich); try discriminate.
  pose proof (Hitem prop "rich_text").
  destruct (Py.getitem prop "rich_text") as [rich_text| |];
    try discriminate; try congruence.
  pose proof (Hzero rich_text).
  destruct (Py.getitem0 rich_text) as [first| |];
    try discriminate; try congruence.
  pose proof (Hitem first "text").
  destruct (Py.getitem first "text") as [text| |];
    try discriminate; try congruence.
  pose proof (Hitem text "content").
  destruct (Py.getitem text "content") as [title| |];
    try discriminate; congruence.
Qed.

(** One record never stops the loop: its title is added, or the set
    stays as it was. *)
Lemma record_page_total {S} (acc : Py.pyset) (page : json) (s : S) :
  ∃ acc',
    record_page acc page s = (Ret acc', s)
    ∧ (acc' = acc
       ∨ ∃ title, (episode_title page tt).1 = Ret (Some title)
                  ∧ Py.add acc title = Ret acc').
Proof.
  unfold record_page, try_except, bind. rewrite episode_title_pure.
  pose proof (episode_title_no_div page) as Hnd.
  destruct (episode_title page tt).1 as [[title|]|e|] eqn:E; simpl.
  - unfold pure, Py.add. destruct (Py.hashable title) eqn:Hh; simpl.
    + eexists. split; [reflexivity|]. right. exists title.
      unfold Py.add. rewrite Hh. auto.
    + exists acc. auto.
  - exists acc. auto.
  - exists acc. auto.
  - congruence.
Qed.

Lemma record_pages_total {S} (pages : list json) (acc : Py.pyset) (s : S) :
  ∃ acc', record_pages acc pages s = (Ret acc', s).
Proof.
  revert acc. induction pages as [|page rest IH]; intros acc; simpl.
  - exists acc. reflexivity.
  - unfold bind. destruct (record_page_total acc page s) as (a1 & -> & _).
    apply IH.
Qed.

Lemma record_page_pure {S} (acc : Py.pyset) (page : json) (s : S) :
  (record_page acc page s).1 = (record_page acc page tt).1.
Proof.
  unfold record_page, try_except, bind. rewrite (episode_title_pure page s).
  destruct (episode_title page tt) as [o []] eqn:E. simpl.
  destruct o as [[title|]|e|]; simpl; try reflexivity.
  unfold pure. destruct (Py.add acc title); reflexivity.
Qed.

Lemma record_pages_pure {S} (pages : list json) (acc : Py.pyset) (s : S) :
  (record_pages acc pages s).1 = (record_pages acc pages tt).1.
Proof.
  revert acc. induction pages as [|page rest IH]; intros acc; simpl.
  - reflexivity.
  - unfold bind. pose proof (record_page_pure acc page s) as Hp.
    destruct (record_page_total acc page s) as (a1 & E1 & _).
    destruct (record_page_total acc page tt) as (a2 & E2 & _).
    rewrite E1, E2 in *. simpl in Hp. injection Hp as ->. apply IH.
Qed.

Lemma query_loop_continue (fuel : nat) (acc : Py.pyset)
  (has_more cursor data : json) (st : State) :
  Py.truthy has_more = true →
  notion_query env (step st) = Response true (Some data) →
  page_continues data = true →
  ∃ has_more' cursor' st',
    Py.truthy has_more' = true
    ∧ step st' = S (step st)
    ∧ query_loop env (S fuel) acc has_more cursor st
      = query_loop env fuel (titles_of_page acc data) has_more' cursor' st'.
Proof.
  intros Hm Hq Hc. simpl. rewrite Hm.
  unfold bind at 1. unfold post_query. rewrite Hq. simpl.
  unfold page_continues in Hc. unfold titles_of_page.
  unfold bind at 1. unfold pure at 1.
  destruct (Py.get data "results" (JArr [])) as [results| |] eqn:Er;
    try discriminate.
  destruct (Py.get data "has_more" (JBool false)) as [hm| |] eqn:Eh;
    try discriminate.
  unfold bind at 1. unfold pure at 1.
  destruct (Py.iter results) as [pages| |] eqn:Ei; try discriminate.
  unfold bind at 1.
  pose proof (record_pages_pure pages acc
                (emit (EvQuery (if Py.truthy cursor then Some cursor
                                else None)) st)) as Hp.
  destruct (record_pages_total pages acc
              (emit (EvQuery (if Py.truthy cursor then Some cursor
                              else None)) st)) as (a1 & E1).
  destruct (record_pages_total pages acc tt) as (a2 & E2).
  rewrite E1, E2 in *. simpl in Hp. injection Hp as ->.
  unfold bind at 1. unfold pure at 1. try rewrite Eh.
  destruct data as [| | | | |fields]; try discriminate.
  unfold bind at 1. unfold pure at 1. simpl.
  destruct (Py.assoc "next_cursor" fields);
    (eexists hm, _, _; split; [exact Hc|]; split; [|reflexivity]);
    reflexivity.
Qed.

Lemma query_loop_fail (fuel : nat) (acc : Py.pyset)
  (has_more cursor : json) (st : State) :
  Py.truthy has_more = true →
  failed_reply (notion_query env (step st)) = true →
  ∃ e st', query_loop env (S fuel) acc has_more cursor st = (Exc e, st').
Proof.
  intros Hm Hf. simpl. rewrite Hm. unfold bind at 1, post_query.
  unfold failed_reply in Hf.
  destruct (checked_json (notion_query env (step st))) as [d|e|] eqn:E;
    try discriminate.
  - eauto.
  - destruct (notion_query env (step st)) as [|[] []]; discriminate.
Qed.

Lemma readable_page_cases (data : json) :
  readable_page data = page_continues data || page_ends data.
Proof.
  unfold readable_page, page_continues, page_ends.
  destruct data as [| | | | |fields]; try reflexivity. simpl.
  destruct (Py.assoc "results" fields) as [results|]; simpl;
    destruct (Py.assoc "has_more" fields) as [has_more|]; simpl;
    try (destruct (Py.iter results)); try reflexivity;
    try (destruct (Py.truthy has_more)); reflexivity.
Qed.

Lemma failed_reply_breaks (r : http_reply) :
  failed_reply r = true → reply_breaks r = true.
Proof. destruct r as [|[] []]; simpl; auto; discriminate. Qed.

(** Any failure of the network or of the protocol ends the loop in an
    exception. *)
Lemma query_loop_break (fuel : nat) (acc : Py.pyset)
  (has_more cursor : json) (st : State) :
  Py.truthy has_more = true →
  reply_breaks (notion_query env (step st)) = true →
  ∃ e st', query_loop env (S fuel) acc has_more cursor st = (Exc e, st').
Proof.
  intros Hm Hb. simpl. rewrite Hm. unfold bind at 1, post_query.
  destruct (notion_query env (step st)) as [|[] [data|]];
    cbn [checked_json]; eauto.
  cbn [reply_breaks] in Hb. apply negb_true_iff in Hb.
  unfold bind at 1. unfold pure at 1.
  destruct data as [| | | | |fields]; cbn [Py.get]; eauto.
  cbn [readable_page] in Hb.
  destruct (Py.assoc "results" fields) as [results|]; simpl in Hb.
  - unfold bind at 1. unfold pure at 1.
    destruct (Py.iter results) as [pages|e|] eqn:Ei;
      [discriminate Hb|simpl; eauto|].
    destruct results; discriminate Ei.
  - discriminate Hb.
Qed.

(** What one record does to the set: its identity field, if it has the
    shape read and a content that can be hashed, is added; any other
    record leaves the set as it was. *)
Lemma record_page_identity {S} (acc : Py.pyset) (page : json) (s : S) :
  record_page acc page s
  = (Ret (match identity_field page with
          | Some content =>
              if Py.hashable content
              then (if Py.contains acc content then acc
                    else acc ++ [content])
              else acc
          | None => acc
          end), s).
Proof.
  unfold record_page, try_except, bind. rewrite episode_title_pure.
  unfold episode_title, identity_field, bind, pure, ret. simpl.
  destruct page as [| | | | |fields]; try reflexivity. simpl.
  destruct (Py.assoc "properties" fields) as [properties|];
    [|reflexivity].
  destruct properties as [| | | | |props]; try reflexivity. simpl.
  destruct (Py.assoc "Episode" props) as [episode|]; simpl;
    [|reflexivity].
  destruct episode as [| | | | |ep]; try reflexivity. simpl.
  destruct (Py.assoc "rich_text" ep) as [rich|]; [|reflexivity].
  destruct rich as [|b|n|t|l|o]; simpl; try reflexivity.
  - destruct b; reflexivity.
  - destruct (negb (n =? 0)%Z); reflexivity.
  - destruct t; reflexivity.
  - destruct l as [|first rest]; [reflexivity|].
    destruct first as [| | | | |ff]; try reflexivity. simpl.
    destruct (Py.assoc "text" ff) as [text|]; [|reflexivity].
    destruct text as [| | | | |tf]; try reflexivity. simpl.
    destruct (Py.assoc "content" tf) as [content|]; [|reflexivity].
    unfold Py.add. simpl. destruct (Py.hashable content); reflexivity.
  - destruct o; reflexivity.
Qed.

Lemma query_loop_after_pages (fuel : nat) :
  ∀ k acc has_more cursor st,
    Py.truthy has_more = true →
    pages_continue env (step st) k →
    ∃ has_more' cursor' st',
      Py.truthy has_more' = true
      ∧ step st' = step st + k
      ∧ query_loop env (k + fuel) acc has_more cursor st
        = query_loop env fuel (accumulated env (step st) k acc)
            has_more' cursor' st'.
Proof.
  induction k as [|k IH]; intros acc has_more cursor st Hm Hp.
  - exists has_more, cursor, st. rewrite Nat.add_0_r. auto.
  - destruct (Hp 0 ltac:(lia)) as (data & Hq & Hc).
    rewrite Nat.add_0_r in Hq.
    destruct (query_loop_continue (k + fuel) acc has_more cursor data st
                Hm Hq Hc) as (hm1 & c1 & st1 & Hm1 & Hs1 & E1).
    change (S k + fuel) with (S (k + fuel)). rewrite E1.
    destruct (IH (titles_of_page acc data) hm1 c1 st1 Hm1)
      as (hm2 & c2 & st2 & Hm2 & Hs2 & E2).
    { intros i Hi. rewrite Hs1.
      replace (S (step st) + i) with (step st + S i) by lia.
      apply Hp. lia. }
    exists hm2, c2, st2. split; [assumption|]. split; [lia|].
    rewrite E2. simpl. rewrite Hq, Hs1. reflexivity.
Qed.

(** Without a failure the load returns all the titles of all the
    pages. *)
Lemma load_complete (fuel k : nat) (st : State) (data : json) :
  k < fuel →
  pages_continue env (step st) k →
  notion_query env (step st + k) = Response true (Some data) →
  page_ends data = true →
  (load_processed_episodes_from_notion env fuel st).1
  = Ret (accumulated env (step st) (S k) []).
Proof.
  intros Hk Hp Hq He.
  assert (Ha : accumulated env (step st) (S k) []
               = titles_of_page (accumulated env (step st) k []) data).
  { clear -Hp Hq. generalize (@nil json) as acc.
    revert Hp Hq. generalize (step st) as first.
    induction k as [|k IH]; intros first Hp Hq acc.
    - simpl. rewrite Nat.add_0_r in Hq. now rewrite Hq.
    - destruct (Hp 0 ltac:(lia)) as (d0 & Hq0 & _).
      rewrite Nat.add_0_r in Hq0.
      change (accumulated env first (S (S k)) acc)
        with (match notion_query env first with
              | Response true (Some data) =>
                  accumulated env (S first) (S k) (titles_of_page acc data)
              | _ => acc
              end).
      rewrite Hq0. rewrite IH.
      + simpl. now rewrite Hq0.
      + intros i Hi. replace (S first + i) with (first + S i) by lia.
        apply Hp. lia.
      + now replace (S first + k) with (first + S k) by lia. }
  rewrite Ha. clear Ha.
  replace fuel with (k + S (fuel - S k)) at 1 by lia.
  unfold load_processed_episodes_from_notion, try_except.
  destruct (query_loop_after_pages (S (fuel - S k)) k [] (JBool true) JNull
              st eq_refl Hp) as (hm & c & st' & Hm & Hs & E).
  rewrite E. clear E. simpl query_loop. rewrite Hm.
  unfold bind at 1, post_query. rewrite Hs, Hq. simpl.
  set (acc := accumulated env (step st) k []).
  unfold page_ends in He. unfold titles_of_page.
  unfold bind at 1. unfold pure at 1.
  destruct (Py.get data "results" (JArr [])) as [results| |] eqn:Er;
    try discriminate.
  destruct (Py.get data "has_more" (JBool false)) as [hm0| |] eqn:Eh;
    try discriminate.
  unfold bind at 1. unfold pure at 1.
  destruct (Py.iter results) as [pages| |] eqn:Ei; try discriminate.
  unfold bind at 1.
  match goal with
  | |- context [record_pages acc pages ?s] =>
      pose proof (record_pages_pure pages acc s) as Hpure;
      destruct (record_pages_total pages acc s) as (a1 & E1)
  end.
  destruct (record_pages_total pages acc tt) as (a2 & E2).
  rewrite E1, E2 in *. simpl in Hpure. injection Hpure as ->.
  unfold bind at 1. unfold pure at 1. try rewrite Eh.
  destruct data as [| | | | |fields]; try discriminate.
  unfold bind at 1. unfold pure at 1. simpl.
  apply negb_true_iff in He.
  destruct (Py.assoc "next_cursor" fields);
    destruct (fuel - S k) as [|f]; simpl; rewrite He; reflexivity.
Qed.

End Ledger.

(** C2, as the code has it: the load never raises; when a request or
    its reply fails in any way after any number of pages that were read,
    be it the network, the status, a body that is not JSON or JSON that
    is not a page, it returns the empty set; and a record never stops
    the load: a record without an identity field of the shape read, or
    with a content that cannot be hashed, is skipped, the set staying as
    it was, and the content of any other record, a string or not, is
    added. *)
Theorem load_never_raises (env : Env) (fuel : nat) (st : State) :
  (∀ e, (load_processed_episodes_from_notion env fuel st).1 ≠ Exc e)
  ∧ (∀ k, k < fuel →
       pages_continue env (step st) k →
       reply_breaks (notion_query env (step st + k)) = true →
       (load_processed_episodes_from_notion env fuel st).1 = Ret [])
  ∧ (∀ r, failed_reply r = true → reply_breaks r = true)
  ∧ (∀ data, reply_breaks (Response true (Some data)) = false →
       page_continues data = true ∨ page_ends data = true)
  ∧ (∀ acc page,
       (identity_field page = None →
        record_page acc page st = (Ret acc, st))
       ∧ (∀ content,
            identity_field page = Some content →
            Py.hashable content = false →
            record_page acc page st = (Ret acc, st))
       ∧ (∀ content,
            identity_field page = Some content →
            Py.hashable content = true →
            record_page acc page st
            = (Ret (if Py.contains acc content then acc
                    else acc ++ [content]), st))).
Proof.
  split; [|split; [|split; [|split]]].
  - intros e. unfold load_processed_episodes_from_notion, try_except.
    destruct (query_loop env fuel [] (JBool true) JNull st) as [[a|e'|] s];
      simpl; discriminate.
  - intros k Hk Hp Hf.
    replace fuel with (k + S (fuel - S k)) by lia.
    unfold load_processed_episodes_from_notion, try_except.
    destruct (query_loop_after_pages env (S (fuel - S k)) k [] (JBool true)
                JNull st eq_refl Hp) as (hm & c & st' & Hm & Hs & E).
    rewrite E. rewrite <- Hs in Hf.
    destruct (query_loop_break env (fuel - S k)
                (accumulated env (step st) k []) hm c st' Hm Hf)
      as (e & s & ->).
    reflexivity.
  - apply failed_reply_breaks.
  - intros data Hb. cbn [reply_breaks] in Hb.
    apply negb_false_iff in Hb. rewrite readable_page_cases in Hb.
    apply orb_true_iff in Hb. exact Hb.
  - intros acc page. rewrite record_page_identity. split; [|split].
    + intros ->. reflexivity.
    + intros content -> ->. reflexivity.
    + intros content -> ->. reflexivity.
Qed.

(** C2, as the specification has it, fails: after a first page with one
    record, a failing second request makes the load return the empty set,
    not the title read from the first page. *)
Lemma load_drops_accumulated :
  (load_processed_episodes_from_notion second_page_fails 5 empty_state).1
  = Ret []
  ∧ accumulated second_page_fails (step empty_state) 1 [] = [JStr "Episode 1"]
  ∧ ¬ returns_accumulated second_page_fails 5 empty_state.
Proof.
  split; [reflexivity|]. split; [reflexivity|].
  intros H. specialize (H 1).
  assert (Hp : pages_continue second_page_fails (step empty_state) 1).
  { intros i Hi. destruct i; [|lia]. eexists. split; reflexivity. }
  specialize (H ltac:(lia) Hp eq_refl).
  vm_compute in H. discriminate H.
Qed.

(** ** The two-phase writer *)

Lemma batches_concat (l : list block) :
  concat (batches l) = l.
Proof.
  unfold batches, PyStr.range.
  assert (H : ∀ n, concat (map (fun i => take 100 (drop i l))
                             (map (fun k => 0 + k * 100) (seq 0 n)))
                   = take (n * 100) l).
  { induction n as [|n IH]; [reflexivity|].
    rewrite seq_S, !map_app, concat_app, IH. cbn [map concat].
    rewrite app_nil_r. replace (0 + (0 + n) * 100) with (n * 100) by lia.
    rewrite take_take_drop. f_equal. lia. }
  rewrite H. apply take_ge.
  apply (range_len_bounds (length l) 100). lia.
Qed.

Lemma batches_within (l : list block) :
  Forall (fun b => length b ≤ 100) (batches l).
Proof.
  unfold batches. apply Forall_map, Forall_forall. intros i _. simpl.
  rewrite length_take. lia.
Qed.

Lemma appended_app (a b : list event) :
  appended (a ++ b) = appended b ++ appended a.
Proof. unfold appended. now rewrite reverse_app, omap_app. Qed.

Lemma count_append_or_sleep (evs : list event) :
  Forall append_or_sleep evs → count is_create evs = 0.
Proof.
  induction 1 as [|ev evs Hev _ IH]; [reflexivity|].
  unfold count in *. rewrite filter_cons_False; [assumption|].
  destruct ev; simpl in *; try discriminate; contradiction.
Qed.

Lemma count_append_appended (evs : list event) :
  count is_append evs = length (appended evs).
Proof.
  induction evs as [|ev evs IH]; [reflexivity|].
  change (ev :: evs) with ([ev] ++ evs).
  rewrite count_app, appended_app, length_app, IH.
  destruct ev; unfold count, appended; simpl; lia.
Qed.

Lemma appended_within (evs : list event) :
  Forall append_or_sleep evs →
  Forall (fun b => length b ≤ 100) (appended evs) →
  Forall within_limits evs.
Proof.
  induction 1 as [|ev evs Hev _ IH]; intros Hb; [constructor|].
  change (ev :: evs) with ([ev] ++ evs) in Hb.
  rewrite appended_app in Hb. apply Forall_app in Hb as [Hb1 Hb2].
  constructor; [|auto].
  destruct ev; simpl in *; try exact I; try contradiction.
  unfold appended in Hb2. simpl in Hb2. now inversion Hb2.
Qed.

Section Writer.

Variable env : Env.

Lemma notion_date_total (published : string) (st : State) :
  ∃ date, notion_date env published st = (Ret date, st).
Proof.
  unfold notion_date, try_except.
  destruct (parse_date env (step st) published); eauto.
Qed.

Lemma append_batches_cons (page_id : json) (b : list block)
  (rest : list (list block)) (st : State) :
  append_batches env page_id (b :: rest) st
  = let r := notion_append env (step st) in
    let st1 := emit (EvAppend page_id b (status_passed r)) st in
    match checked_status r with
    | Ret _ => append_batches env page_id rest (emit (EvSleep 300) st1)
    | Exc e => (Exc e, st1)
    | Div => (Div, st1)
    end.
Proof.
  simpl. unfold bind, patch_append, time_sleep.
  destruct (checked_status (notion_append env (step st))); reflexivity.
Qed.

(** The append loop sends the batches in order and stops at the first
    that fails. *)
Lemma append_batches_trace (page_id : json) :
  ∀ bs st,
    ∃ new,
      trace (append_batches env page_id bs st).2 = new ++ trace st
      ∧ Forall append_or_sleep new
      ∧ appended new `prefix_of` bs
      ∧ ((append_batches env page_id bs st).1 = Ret tt →
         appended new = bs ∧ Forall (fun ev => ¬ failed_request ev) new)
      ∧ (append_batches env page_id bs st).1 ≠ Div
      ∧ processed_episodes_cache (append_batches env page_id bs st).2
        = processed_episodes_cache st
      ∧ files (append_batches env page_id bs st).2 = files st.
Proof.
  induction bs as [|b rest IH]; intros st.
  - exists []. simpl. split; [reflexivity|]. split; [constructor|].
    split; [reflexivity|]. split; [auto|]. split; [discriminate|]. auto.
  - rewrite append_batches_cons. cbv zeta.
    destruct (notion_append env (step st)) as [|[] body] eqn:Eq;
      cbn [checked_status status_passed fst snd].
    + exists [EvAppend page_id b false].
      split; [reflexivity|]. split; [repeat constructor|].
      split; [unfold appended; simpl; apply prefix_cons, prefix_nil|].
      split; [intros [=]|]. split; [discriminate|]. auto.
    + destruct (IH (emit (EvSleep 300)
                      (emit (EvAppend page_id b true) st)))
        as (new & Ht & HP & Hpre & Hret & Hnd & Hca & Hfs).
      exists (new ++ [EvSleep 300; EvAppend page_id b true]).
      rewrite Ht, Hca, Hfs, <- app_assoc.
      split; [reflexivity|]. split.
      { apply Forall_app. split; [assumption|]. repeat constructor. }
      rewrite appended_app.
      change (appended [EvSleep 300; EvAppend page_id b true]) with [b].
      split; [now apply prefix_cons|]. split; [|auto].
      intros Hr. destruct (Hret Hr) as [-> Hok]. split; [reflexivity|].
      apply Forall_app. split; [assumption|].
      repeat constructor; simpl; auto.
    + exists [EvAppend page_id b false].
      split; [reflexivity|]. split; [repeat constructor|].
      split; [unfold appended; simpl; apply prefix_cons, prefix_nil|].
      split; [intros [=]|]. split; [discriminate|]. auto.
Qed.

(** [add_to_notion] sends one create request, then append requests. *)
Lemma add_to_notion_trace (podcast_name title published summary
                           transcript : string) (st : State) :
  ∃ date ok apps,
    trace (add_to_notion env podcast_name title published summary
             transcript st).2
    = apps ++ EvCreate (create_request env podcast_name title date summary
                          transcript) ok :: trace st
    ∧ Forall append_or_sleep apps
    ∧ appended apps `prefix_of` batches (remaining (chunks transcript))
    ∧ (∀ url,
         (add_to_notion env podcast_name title published summary
            transcript st).1 = Ret url →
         ok = true
         ∧ appended apps = batches (remaining (chunks transcript))
         ∧ Forall (fun ev => ¬ failed_request ev) apps)
    ∧ (add_to_notion env podcast_name title published summary
         transcript st).1 ≠ Div
    ∧ processed_episodes_cache
        (add_to_notion env podcast_name title published summary
           transcript st).2
      = processed_episodes_cache st
    ∧ files (add_to_notion env podcast_name title published summary
               transcript st).2
      = files st.
Proof.
  destruct (add_to_notion env podcast_name title published summary
              transcript st) as [o s'] eqn:E. cbn [fst snd].
  unfold add_to_notion in E. rewrite try_bind_first in E.
  destruct (notion_date_total published st) as (date & Hd).
  rewrite Hd in E. exists date.
  rewrite try_bind_first in E. unfold post_create in E.
  fold (create_request env podcast_name title date summary transcript) in E.
  set (data := create_request env podcast_name title date summary
                 transcript) in *.
  assert (Hstop : ∀ ok, (∀ u, o ≠ Ret u) → o ≠ Div →
            s' = emit (EvCreate data ok) st →
            ∃ ok apps,
              trace s' = apps ++ EvCreate data ok :: trace st
              ∧ Forall append_or_sleep apps
              ∧ appended apps
                  `prefix_of` batches (remaining (chunks transcript))
              ∧ (∀ url, o = Ret url →
                   ok = true
                   ∧ appended apps = batches (remaining (chunks transcript))
                   ∧ Forall (fun ev => ¬ failed_request ev) apps)
              ∧ o ≠ Div
              ∧ processed_episodes_cache s' = processed_episodes_cache st
              ∧ files s' = files st).
  { intros ok Ho Hd' ->. exists ok, [].
    split; [reflexivity|]. split; [constructor|].
    split; [apply prefix_nil|]. split; [|auto].
    intros url Hu. exfalso. eapply Ho; eauto. }
  destruct (notion_create env (step st)) as [|[] [page|]] eqn:Eq;
    cbn [checked_json status_passed] in E;
    try (injection E as <- <-; eapply Hstop;
         [intros; discriminate|discriminate|reflexivity]).
  rewrite try_bind_first in E. unfold pure at 1 in E.
  destruct (Py.getitem page "id") as [page_id| |] eqn:Eid.
  - rewrite try_bind_first in E. unfold pure at 1 in E.
    destruct (Py.get page "url" (JStr "")) as [page_url| |] eqn:Eurl.
    + rewrite try_bind_first in E.
      destruct (remaining (chunks transcript)) as [|b0 rest] eqn:Er.
      * unfold ret at 1 in E. unfold try_except, ret in E.
        injection E as <- <-.
        exists true, []. unfold batches. simpl.
        split; [reflexivity|]. split; [constructor|].
        split; [reflexivity|]. split; [auto|]. split; [discriminate|]. auto.
      * destruct (append_batches_trace page_id (batches (b0 :: rest))
                    (emit (EvCreate data true) st))
          as (new & Ht & HP & Hpre & Hret & Hnd & Hca & Hfs).
        exists true, new.
        destruct (append_batches env page_id (batches (b0 :: rest))
                    (emit (EvCreate data true) st))
          as [[[]|e|] st2]; cbn [fst snd] in *;
          unfold try_except, ret, raise in E; injection E as <- <-.
        -- split; [exact Ht|]. split; [exact HP|]. split; [exact Hpre|].
           split; [|split; [discriminate|auto]].
           intros url _. destruct (Hret eq_refl). auto.
        -- split; [exact Ht|]. split; [exact HP|]. split; [exact Hpre|].
           split; [intros url [=]|split; [discriminate|auto]].
        -- congruence.
    + injection E as <- <-; eapply Hstop;
        [intros; discriminate|discriminate|reflexivity].
    + destruct page; simpl in Eurl; try discriminate.
      destruct (Py.assoc "url" fields); discriminate.
  - injection E as <- <-; eapply Hstop;
      [intros; discriminate|discriminate|reflexivity].
  - destruct page; simpl in Eid; try discriminate.
    destruct (Py.assoc "id" fields); discriminate.
Qed.

End Writer.

(** C3: of the requests [add_to_notion] sends, the create request has a
    heading, a divider and the first 98 segments at most, 100 blocks at
    most in all, and an append request has 100 blocks at most. *)
Theorem requests_within_limits (env : Env) (podcast_name title published
  summary transcript : string) (st : State) :
  ∃ new,
    trace (add_to_notion env podcast_name title published summary
             transcript st).2 = new ++ trace st
    ∧ Forall within_limits new
    ∧ ∀ data ok, In (EvCreate data ok) new →
        ∃ segments,
          cd_children data = Heading1 "Full Transcript" :: Divider :: segments
          ∧ segments = take 98 (chunks transcript)
          ∧ length segments ≤ 98.
Proof.
  destruct (add_to_notion_trace env podcast_name title published summary
              transcript st)
    as (date & ok & apps & Ht & HP & Hpre & _).
  exists (apps ++ [EvCreate (create_request env podcast_name title date
                               summary transcript) ok]).
  rewrite Ht, <- app_assoc. split; [reflexivity|]. split.
  - apply Forall_app. split.
    + apply appended_within; [assumption|].
      destruct Hpre as [k Hk].
      pose proof (batches_within (remaining (chunks transcript))) as Hb.
      rewrite Hk in Hb. now apply Forall_app in Hb as [? _].
    + constructor; [|constructor].
      cbn [within_limits create_request cd_children]. unfold initial_blocks.
      rewrite length_app, length_take. cbn [length]. lia.
  - intros data ok' Hin. apply in_app_or in Hin as [Hin|Hin].
    + rewrite Forall_forall in HP. apply list_elem_of_In, HP in Hin.
      contradiction.
    + destruct Hin as [[= <- <-]|[]]. eexists. split; [reflexivity|].
      split; [reflexivity|]. rewrite length_take. lia.
Qed.

(** C10: [add_to_notion] sends one create request; the batches of its
    append requests, in the order sent, are the first of the batches that
    make up the segments after the 98th; and a transcript of at most 98
    segments, that is 196000 characters, gets no append request. *)
Theorem appends_only_beyond_98 (env : Env) (podcast_name title published
  summary transcript : string) (st : State) :
  ∃ new,
    trace (add_to_notion env podcast_name title published summary
             transcript st).2 = new ++ trace st
    ∧ count is_create new = 1
    ∧ appended new `prefix_of` batches (drop 98 (chunks transcript))
    ∧ concat (batches (drop 98 (chunks transcript)))
      = drop 98 (chunks transcript)
    ∧ (String.length transcript ≤ 98 * 2000 →
       length (chunks transcript) ≤ 98 ∧ count is_append new = 0).
Proof.
  destruct (add_to_notion_trace env podcast_name title published summary
              transcript st)
    as (date & ok & apps & Ht & HP & Hpre & _).
  exists (apps ++ [EvCreate (create_request env podcast_name title date
                               summary transcript) ok]).
  rewrite Ht, <- app_assoc. split; [reflexivity|].
  assert (Happ : appended (apps ++ [EvCreate (create_request env podcast_name
                                                title date summary transcript)
                                      ok]) = appended apps).
  { rewrite appended_app. reflexivity. }
  split; [|split; [|split]].
  - rewrite count_app, count_append_or_sleep by assumption. reflexivity.
  - rewrite Happ. exact Hpre.
  - apply batches_concat.
  - intros Hlen.
    assert (Hc : length (chunks transcript) ≤ 98)
      by (rewrite chunks_length; apply Nat.lt_succ_r,
            Nat.Div0.div_lt_upper_bound; lia).
    split; [exact Hc|].
    rewrite count_append_appended, Happ.
    unfold remaining in Hpre. rewrite drop_ge in Hpre by exact Hc.
    destruct Hpre as [k Hk]. unfold batches in Hk. simpl in Hk.
    symmetry in Hk. apply app_eq_nil in Hk as [-> _]. reflexivity.
Qed.

(** C5: a summary longer than 2000 characters is stored as its first 1997
    characters followed by the three-character marker, 2000 characters in
    all; that is the summary the create request carries. *)
Theorem summary_truncated (s : string) :
  2000 < String.length s →
  trim_summary s = String.substring 0 1997 s +:+ "..."
  ∧ String.length (String.substring 0 1997 s) = 1997
  ∧ String.length (trim_summary s) = 2000
  ∧ ∀ env podcast_name title published transcript st,
      ∃ data ok apps,
        trace (add_to_notion env podcast_name title published s transcript
                 st).2
        = apps ++ EvCreate data ok :: trace st
        ∧ Forall append_or_sleep apps
        ∧ cd_summary data = String.substring 0 1997 s +:+ "..."
        ∧ String.length (cd_summary data) = 2000.
Proof.
  intros H.
  assert (E : trim_summary s = String.substring 0 1997 s +:+ "...").
  { unfold trim_summary. apply Nat.ltb_lt in H as Hb. rewrite Hb.
    unfold PyStr.take, PyStr.slice. now rewrite Nat.sub_0_r. }
  assert (L : String.length (String.substring 0 1997 s) = 1997)
    by (rewrite substring_length; lia).
  assert (T : String.length (trim_summary s) = 2000)
    by (rewrite E, append_length, L; reflexivity).
  split; [exact E|]. split; [exact L|]. split; [exact T|].
  intros env podcast_name title published transcript st.
  destruct (add_to_notion_trace env podcast_name title published s
              transcript st) as (date & ok & apps & Ht & HP & _).
  exists (create_request env podcast_name title date s transcript), ok, apps.
  split; [exact Ht|]. split; [exact HP|].
  cbn [create_request cd_summary]. rewrite <- E. auto.
Qed.

(** ** The episode processor *)

Lemma appended_none (evs : list event) :
  Forall (fun ev => is_append ev = false) evs → appended evs = [].
Proof.
  induction 1 as [|ev evs Hev _ IH]; [reflexivity|].
  change (ev :: evs) with ([ev] ++ evs). rewrite appended_app, IH.
  destruct ev; try discriminate; reflexivity.
Qed.

Lemma transcription_not_failed (evs : list event) :
  Forall transcription_event evs →
  Forall (fun ev => ¬ failed_request ev) evs
  ∧ Forall (fun ev => is_append ev = false) evs
  ∧ ∀ data ok, ¬ In (EvCreate data ok) evs.
Proof.
  intros H. split; [|split].
  - eapply Forall_impl; [exact H|]. intros [] Hev; simpl in *; tauto.
  - eapply Forall_impl; [exact H|]. intros [] Hev; simpl in *; tauto.
  - intros data ok Hin. rewrite Forall_forall in H.
    apply list_elem_of_In, H in Hin. exact Hin.
Qed.

Ltac norm_app :=
  repeat (rewrite <- app_assoc || rewrite <- app_comm_cons); reflexivity.

Section Processor.

Variable env : Env.

Lemma audio_url_no_div (entry : Entry) : audio_url entry ≠ Div.
Proof.
  unfold audio_url.
  destruct (e_enclosures entry) as [[|enc ?]|];
    try destruct (enc_href enc); destruct (e_links entry); discriminate.
Qed.

(** The [finally] block: it returns, touches the cache never, and
    leaves the file only when the removal failed. *)
Lemma cleanup_spec (temp_path : string) (st : State) :
  ∃ st',
    cleanup env temp_path st = (Ret tt, st')
    ∧ processed_episodes_cache st' = processed_episodes_cache st
    ∧ files st' ⊆ files st
    ∧ (∀ p, p ≠ temp_path → p ∈ files st → p ∈ files st')
    ∧ ((st' = st ∧ temp_path ∉ files st)
       ∨ (trace st' = EvRemove temp_path true :: trace st
          ∧ temp_path ∉ files st')
       ∨ (trace st' = EvRemove temp_path false :: trace st
          ∧ fs_remove env (step st) = false)).
Proof.
  unfold cleanup, bind, os_path_exists. simpl.
  destruct (bool_decide (temp_path ∈ files st)) eqn:Ex.
  - unfold try_pass, try_except, os_remove.
    destruct (fs_remove env (step st)) eqn:Er; simpl.
    + eexists. split; [reflexivity|]. simpl.
      split; [reflexivity|]. split; [apply subseteq_difference_l; reflexivity|].
      split.
      { intros p Hp Hin. apply elem_of_difference. split; [assumption|].
        now rewrite elem_of_singleton. }
      right. left. split; [reflexivity|].
      rewrite elem_of_difference, elem_of_singleton. tauto.
    + eexists. split; [reflexivity|]. simpl.
      split; [reflexivity|]. split; [reflexivity|]. split; [auto|].
      right. right. auto.
  - exists st. split; [reflexivity|]. split; [reflexivity|].
    split; [reflexivity|]. split; [auto|].
    left. split; [reflexivity|]. now apply bool_decide_eq_false in Ex.
Qed.

(** The stages of the [try] block, once the audio is on disk. *)
Lemma guarded_body_stages (fuel : nat) (podcast_name : string)
  (entry : Entry) (url : string) (st : State) :
  audio_url entry = Ret (Some url) →
  url ≠ "" →
  download_succeeds env st →
  guarded_body env fuel podcast_name entry st
  = match transcribe_with_retry env fuel (temp_path_of env st) 5
            (downloaded url (temp_path_of env st) st) with
    | (Ret (Some r), st1) =>
        match add_to_notion env podcast_name (entry_title entry)
                (default "" (e_published entry))
                (summary r) (transcript r) st1 with
        | (Ret _, st2) =>
            match Py.add (processed_episodes_cache st2)
                    (JStr (entry_title entry)) with
            | Ret c => (Ret true, set_cache c st2)
            | _ => (Ret false, st2)
            end
        | (Exc _, st2) => (Ret false, st2)
        | (Div, st2) => (Div, st2)
        end
    | (Ret None, st1) => (Ret false, st1)
    | (Exc _, st1) => (Ret false, st1)
    | (Div, st1) => (Div, st1)
    end.
Proof.
  intros Hu Hne (Hget & Hopen & Hstream).
  unfold guarded_body, process_body. rewrite try_bind_first.
  unfold pure at 1. rewrite Hu.
  destruct url as [|c url']; [congruence|].
  rewrite try_bind_first. unfold requests_get at 1.
  destruct (http_get env (step st)) as [|[] body]; try discriminate.
  cbn [checked_status status_passed].
  rewrite try_bind_first. unfold open_wb at 1.
  change (step (emit (EvDownload (String c url') true) st))
    with (S (step st)).
  rewrite Hopen.
  rewrite try_bind_first. unfold write_stream at 1.
  change (step (set_files _ (emit (EvOpen _ true) _)))
    with (S (S (step st))).
  rewrite Hstream.
  fold (downloaded (String c url') (temp_path_of env st) st).
  rewrite try_bind_first.
  destruct (transcribe_with_retry env fuel (temp_path_of env st) 5
              (downloaded (String c url') (temp_path_of env st) st))
    as [[[r|]|e|] st1]; try reflexivity.
  rewrite try_bind_first. unfold ret at 1.
  rewrite try_bind_first.
  destruct (add_to_notion env podcast_name (entry_title entry)
              (default "" (e_published entry)) (summary r) (transcript r)
              st1) as [[u|e|] st2]; reflexivity.
Qed.

Lemma guarded_body_no_url (fuel : nat) (podcast_name : string)
  (entry : Entry) (st : State) :
  (∀ c url, audio_url entry ≠ Ret (Some (String c url))) →
  guarded_body env fuel podcast_name entry st = (Ret false, st).
Proof.
  intros Hu. unfold guarded_body, process_body. rewrite try_bind_first.
  unfold pure at 1.
  destruct (audio_url entry) as [[[|c url]|]|e|] eqn:Eu; try reflexivity.
  - now destruct (Hu c url).
  - now apply audio_url_no_div in Eu.
Qed.

Lemma body_post_exit (podcast_name title temp_path : string)
  (st st' : State) (new : list event) :
  trace st' = new ++ trace st →
  processed_episodes_cache st' = processed_episodes_cache st →
  files st' ⊆ files st ∪ {[temp_path]} →
  body_post env podcast_name title temp_path st (Ret false) st'.
Proof.
  intros Ht Hc Hf. split; [discriminate|]. split; [exact Hf|].
  exists new. auto.
Qed.

Lemma body_post_div (podcast_name title temp_path : string)
  (st st' : State) (new : list event) :
  trace st' = new ++ trace st →
  Forall (fun ev => ¬ failed_request ev) new →
  processed_episodes_cache st' = processed_episodes_cache st →
  files st' ⊆ files st ∪ {[temp_path]} →
  body_post env podcast_name title temp_path st Div st'.
Proof.
  intros Ht Hn Hc Hf. split; [discriminate|]. split; [exact Hf|].
  exists new. split; [exact Ht|]. split; [|exact Hc].
  intros Hex. apply Exists_exists in Hex as (ev & Hin & Hev).
  rewrite Forall_forall in Hn. now apply Hn in Hin.
Qed.

(** What the [try] block with its [except] guarantees. *)
Lemma guarded_body_post (fuel : nat) (podcast_name : string)
  (entry : Entry) (st : State) :
  body_post env podcast_name (entry_title entry) (temp_path_of env st) st
    (guarded_body env fuel podcast_name entry st).1
    (guarded_body env fuel podcast_name entry st).2.
Proof.
  destruct (guarded_body env fuel podcast_name entry st) as [o s'] eqn:E.
  cbn [fst snd].
  set (temp := temp_path_of env st) in *.
  set (title := entry_title entry) in *.
  assert (Hstay : body_post env podcast_name title temp st (Ret false) st).
  { apply (body_post_exit _ _ _ _ _ []); try reflexivity.
    apply union_subseteq_l. }
  pose proof E as E0.
  unfold guarded_body, process_body in E. rewrite try_bind_first in E.
  unfold pure at 1 in E.
  destruct (audio_url entry) as [[[|c url']|]|e|] eqn:Eu;
    try (injection E as <- <-; exact Hstay).
  2: { now apply audio_url_no_div in Eu. }
  rewrite try_bind_first in E. unfold requests_get at 1 in E.
  destruct (http_get env (step st)) as [|[] body] eqn:Eg;
    cbn [checked_status status_passed] in E.
  1, 3: injection E as <- <-;
    apply (body_post_exit _ _ _ _ _ [EvDownload (String c url') false]);
    try reflexivity; apply union_subseteq_l.
  rewrite try_bind_first in E. unfold open_wb at 1 in E.
  change (step (emit (EvDownload (String c url') true) st))
    with (S (step st)) in E.
  destruct (fs_open env (S (step st))) eqn:Eo.
  2: { injection E as <- <-.
       apply (body_post_exit _ _ _ _ _
                [EvOpen temp false; EvDownload (String c url') true]);
         try reflexivity; apply union_subseteq_l. }
  rewrite try_bind_first in E. unfold write_stream at 1 in E.
  change (step (set_files _ (emit (EvOpen _ true) _)))
    with (S (S (step st))) in E.
  destruct (stream_ok env (S (S (step st)))) eqn:Es.
  2: { injection E as <- <-.
       apply (body_post_exit _ _ _ _ _
                [EvWrite temp false; EvOpen temp true;
                 EvDownload (String c url') true]);
         try reflexivity.
       simpl. rewrite (comm_L (∪)). reflexivity. }
  clear E. rename E0 into E.
  rewrite (guarded_body_stages fuel podcast_name entry
             (String c url') st Eu) in E; [|discriminate|].
  2: { split; [now rewrite Eg|auto]. }
  fold temp title in E.
  set (st0 := downloaded (String c url') temp st) in *.
  assert (Ht0 : trace st0
                = [EvWrite temp true; EvOpen temp true; EvDownload (String c url') true]
                  ++ trace st) by reflexivity.
  assert (Hc0 : processed_episodes_cache st0 = processed_episodes_cache st)
    by reflexivity.
  assert (Hf0 : files st0 ⊆ files st ∪ {[temp]}).
  { simpl. rewrite (comm_L (∪)). reflexivity. }
  assert (Hn0 : Forall (fun ev => ¬ failed_request ev)
                  [EvWrite temp true; EvOpen temp true;
                   EvDownload (String c url') true]).
  { repeat constructor; simpl; auto. }
  unfold transcribe_with_retry in E.
  destruct (attempts_trace env fuel temp 5 (seq 0 5) st0)
    as (new1 & Ht1 & _ & HP1 & Hc1 & Hf1).
  destruct (transcription_not_failed new1 HP1) as (Hn1 & Ha1 & Hcr1).
  destruct (attempts env fuel temp 5 (seq 0 5) st0) as [[[r|]|e|] st1];
    cbn [fst snd] in *; try (injection E as <- <-).
  2, 3: apply (body_post_exit _ _ _ _ _ (new1 ++ [EvWrite temp true;
                 EvOpen temp true; EvDownload (String c url') true]));
    [rewrite Ht1, Ht0, <- app_assoc; reflexivity|congruence
    |now rewrite Hf1].
  2: { apply (body_post_div _ _ _ _ _ (new1 ++ [EvWrite temp true;
                EvOpen temp true; EvDownload (String c url') true]));
       [rewrite Ht1, Ht0, <- app_assoc; reflexivity
       |apply Forall_app; auto|congruence|now rewrite Hf1]. }
  destruct (add_to_notion_trace env podcast_name title
              (default "" (e_published entry)) (summary r) (transcript r)
              st1)
    as (date & ok & apps & Ht2 & HP2 & Hpre & Hret & Hnd & Hc2 & Hf2).
  destruct (add_to_notion env podcast_name title
              (default "" (e_published entry)) (summary r) (transcript r)
              st1) as [[u|e|] st2]; cbn [fst snd] in *.
  - destruct (Hret u eq_refl) as (-> & Happ & Hn2).
    unfold Py.add in E. cbn [Py.hashable] in E. injection E as <- <-.
    split; [discriminate|]. split; [simpl; now rewrite Hf2, Hf1|].
    exists (apps ++ EvCreate (create_request env podcast_name title date
                                (summary r) (transcript r)) true
              :: new1 ++ [EvWrite temp true; EvOpen temp true;
                          EvDownload (String c url') true]).
    split; [simpl; rewrite Ht2, Ht1, Ht0; norm_app|].
    split.
    { intros Hex. exfalso.
      apply Exists_exists in Hex as (ev & Hin & Hev).
      apply list_elem_of_In, in_app_or in Hin as [Hin|[<-|Hin]].
      - rewrite Forall_forall in Hn2.
        now apply list_elem_of_In, Hn2 in Hin.
      - exact Hev.
      - apply in_app_or in Hin as [Hin|Hin].
        + rewrite Forall_forall in Hn1.
          now apply list_elem_of_In, Hn1 in Hin.
        + rewrite Forall_forall in Hn0.
          now apply list_elem_of_In, Hn0 in Hin. }
    split; [simpl; now rewrite Hc2, Hc1, Hc0|].
    exists r, date. split; [apply in_or_app; right; left; reflexivity|].
    rewrite appended_app, Happ.
    rewrite appended_none; [reflexivity|].
    constructor; [reflexivity|]. apply Forall_app. split; [exact Ha1|].
    repeat constructor.
  - injection E as <- <-.
    apply (body_post_exit _ _ _ _ _
             (apps ++ EvCreate (create_request env podcast_name title date
                                  (summary r) (transcript r)) ok
                :: new1 ++ [EvWrite temp true; EvOpen temp true;
                            EvDownload (String c url') true]));
      [rewrite Ht2, Ht1, Ht0; norm_app|congruence
      |now rewrite Hf2, Hf1].
  - congruence.
Qed.

End Processor.

Section ProcessEpisode.

Variable env : Env.

(** The outcome of a call is that of its [try] block; the state is the
    one the [finally] block leaves. *)
Lemma process_episode_unfold (fuel : nat) (podcast_name : string)
  (entry : Entry) (st : State) :
  Py.contains (processed_episodes_cache st) (JStr (entry_title entry))
  = false →
  process_episode env fuel podcast_name entry st
  = match guarded_body env fuel podcast_name entry st with
    | (Div, s') => (Div, s')
    | (r, s') => (r, (cleanup env (temp_path_of env st) s').2)
    end.
Proof.
  intros Hc. unfold process_episode. rewrite Hc.
  unfold bind at 1. unfold time_time at 1. unfold try_finally.
  change (try_except
            (process_body env fuel podcast_name entry (entry_title entry)
               (temp_path_at (clock env (step st))))
            (fun _ => ret false) st)
    with (guarded_body env fuel podcast_name entry st).
  fold (temp_path_of env st).
  destruct (guarded_body env fuel podcast_name entry st) as [[b|e|] s'];
    try reflexivity;
    destruct (cleanup_spec env (temp_path_of env st) s') as (s2 & -> & _);
    reflexivity.
Qed.

Lemma process_episode_skip (fuel : nat) (podcast_name : string)
  (entry : Entry) (st : State) :
  Py.contains (processed_episodes_cache st) (JStr (entry_title entry))
  = true →
  process_episode env fuel podcast_name entry st = (Ret false, st).
Proof. intros Hc. unfold process_episode. now rewrite Hc. Qed.

Lemma guarded_body_remove (f : nat → bool) (fuel : nat)
  (podcast_name : string) (entry : Entry) (st : State) :
  guarded_body (with_remove f env) fuel podcast_name entry st
  = guarded_body env fuel podcast_name entry st.
Proof. reflexivity. Qed.

End ProcessEpisode.

(** C6: an entry whose title is in the ledger makes [process_episode]
    return false in the state it started in: no event is added to the
    trace, so nothing is downloaded, uploaded or written, and no file and
    no ledger entry changes. *)
Theorem known_entry_skipped (env : Env) (fuel : nat) (podcast_name : string)
  (entry : Entry) (st : State) :
  Py.contains (processed_episodes_cache st) (JStr (entry_title entry)) = true →
  process_episode env fuel podcast_name entry st = (Ret false, st)
  ∧ trace (process_episode env fuel podcast_name entry st).2 = trace st
  ∧ files (process_episode env fuel podcast_name entry st).2 = files st
  ∧ processed_episodes_cache (process_episode env fuel podcast_name entry st).2
    = processed_episodes_cache st.
Proof.
  intros Hc.
  assert (E : process_episode env fuel podcast_name entry st = (Ret false, st)).
  { unfold process_episode. now rewrite Hc. }
  rewrite E. repeat split.
Qed.

(** The ledger and the trace after a call. *)
Lemma process_episode_post (env : Env) (fuel : nat)
  (podcast_name : string) (entry : Entry) (st : State) :
  (∀ e, (process_episode env fuel podcast_name entry st).1 ≠ Exc e)
  ∧ ((process_episode env fuel podcast_name entry st).1 ≠ Ret true →
     processed_episodes_cache (process_episode env fuel podcast_name entry st).2
     = processed_episodes_cache st)
  ∧ (∃ new,
       trace (process_episode env fuel podcast_name entry st).2
       = new ++ trace st
       ∧ (Exists failed_request new →
          (process_episode env fuel podcast_name entry st).1 = Ret false)
       ∧ ((process_episode env fuel podcast_name entry st).1 = Ret true →
          Py.add (processed_episodes_cache st) (JStr (entry_title entry))
          = Ret (processed_episodes_cache
                   (process_episode env fuel podcast_name entry st).2)
          ∧ fully_persisted env podcast_name (entry_title entry) new)).
Proof.
  destruct (Py.contains (processed_episodes_cache st)
              (JStr (entry_title entry))) eqn:Hc.
  { rewrite (process_episode_skip env fuel podcast_name entry st Hc).
    cbn [fst snd]. split; [discriminate|]. split; [reflexivity|].
    exists []. split; [reflexivity|]. split; [reflexivity|]. discriminate. }
  rewrite (process_episode_unfold env fuel podcast_name entry st Hc).
  pose proof (guarded_body_post env fuel podcast_name entry st)
    as (Hne & Hf & new & Ht & Hfail & Hpost).
  destruct (guarded_body env fuel podcast_name entry st) as [o s'] eqn:Eg.
  cbn [fst snd] in *.
  destruct (cleanup_spec env (temp_path_of env st) s')
    as (s2 & Ecl & Hc2 & _ & _ & Hcases).
  assert (Hfinal : ∃ tail,
             trace s2 = tail ++ trace s'
             ∧ Forall (fun ev => ¬ failed_request ev
                                 ∧ is_append ev = false
                                 ∧ is_create ev = false) tail).
  { destruct Hcases as [[-> _]|[[Hr _]|[Hr _]]].
    - exists []. split; [reflexivity|constructor].
    - exists [EvRemove (temp_path_of env st) true]. split; [exact Hr|].
      repeat constructor; simpl; auto.
    - exists [EvRemove (temp_path_of env st) false]. split; [exact Hr|].
      repeat constructor; simpl; auto. }
  destruct Hfinal as (tail & Htail & Hquiet).
  assert (Hres : (match o with
                  | Div => (Div, s')
                  | _ => (o, (cleanup env (temp_path_of env st) s').2)
                  end).1 = o) by (destruct o; reflexivity).
  assert (Hst : ∃ tail',
             trace (match o with
                    | Div => (Div, s')
                    | _ => (o, (cleanup env (temp_path_of env st) s').2)
                    end).2 = tail' ++ trace s'
             ∧ Forall (fun ev => ¬ failed_request ev
                                 ∧ is_append ev = false
                                 ∧ is_create ev = false) tail'
             ∧ processed_episodes_cache
                 (match o with
                  | Div => (Div, s')
                  | _ => (o, (cleanup env (temp_path_of env st) s').2)
                  end).2 = processed_episodes_cache s').
  { rewrite Ecl. destruct o; cbn [fst snd].
    - exists tail. auto.
    - exists tail. auto.
    - exists []. split; [reflexivity|]. split; [constructor|reflexivity]. }
  destruct Hst as (tail' & Ht' & Hq' & Hc').
  replace (match o with
           | Ret a => (Ret a, (cleanup env (temp_path_of env st) s').2)
           | Exc e => (Exc e, (cleanup env (temp_path_of env st) s').2)
           | Div => (Div, s')
           end)
    with (match o with
          | Div => (Div, s')
          | _ => (o, (cleanup env (temp_path_of env st) s').2)
          end) by (destruct o; reflexivity).
  rewrite Hres, Ht', Hc'.
  split; [exact Hne|]. split.
  { intros Hnt. destruct o as [[]| |]; try reflexivity; try exact Hpost.
    now destruct Hnt. }
  exists (tail' ++ new). rewrite Ht, app_assoc. split; [reflexivity|].
  split.
  - intros Hex. apply Hfail. apply Exists_app in Hex as [Hex|Hex]; [|exact Hex].
    exfalso. apply Exists_exists in Hex as (ev & Hin & Hev).
    rewrite Forall_forall in Hq'. apply Hq' in Hin as [Hin _]. tauto.
  - intros ->. destruct Hpost as (Hadd & r & date & Hin & Happ).
    split; [exact Hadd|]. exists r, date.
    split; [apply in_or_app; now right|].
    rewrite appended_app, Happ, appended_none, app_nil_r; [reflexivity|].
    eapply Forall_impl; [exact Hq'|]. intros ev (_ & ? & _). assumption.
Qed.



Lemma add_contains (s c : Py.pyset) (x : string) :
  Py.add s (JStr x) = Ret c → Py.contains c (JStr x) = true.
Proof.
  unfold Py.add. simpl. destruct (Py.contains s (JStr x)) eqn:E.
  - now intros [= <-].
  - intros [= <-]. unfold Py.contains. rewrite existsb_app. simpl.
    now rewrite String.eqb_refl, orb_true_r.
Qed.

(** C8: a call that is not a skip and returns leaves no file behind but,
    at most, its own temporary file, and that one only when the removal in
    the [finally] block was tried and the file system refused it: the
    last event is then that failed removal, and [os.remove] raised at its
    step; where [os.remove] never raises, the temporary file is gone.  A
    skip leaves the files as they were; and what the call returns does
    not depend on how the removal goes. *)
Theorem temp_file_removed (env : Env) (fuel : nat) (podcast_name : string)
  (entry : Entry) (st : State) :
  (Py.contains (processed_episodes_cache st) (JStr (entry_title entry)) = true →
   files (process_episode env fuel podcast_name entry st).2 = files st
   ∧ trace (process_episode env fuel podcast_name entry st).2 = trace st)
  ∧ (Py.contains (processed_episodes_cache st) (JStr (entry_title entry))
     = false →
     ∀ b, (process_episode env fuel podcast_name entry st).1 = Ret b →
       files (process_episode env fuel podcast_name entry st).2
         ⊆ files st ∪ {[temp_path_of env st]}
       ∧ (temp_path_of env st
            ∈ files (process_episode env fuel podcast_name entry st).2 →
          ∃ old,
            trace (process_episode env fuel podcast_name entry st).2
            = EvRemove (temp_path_of env st) false :: old
            ∧ fs_remove env (length old) = false)
       ∧ ((∀ n, fs_remove env n = true) →
          temp_path_of env st
            ∉ files (process_episode env fuel podcast_name entry st).2))
  ∧ (∀ f,
       (process_episode (with_remove f env) fuel podcast_name entry st).1
       = (process_episode env fuel podcast_name entry st).1).
Proof.
  destruct (Py.contains (processed_episodes_cache st)
              (JStr (entry_title entry))) eqn:Hc.
  - rewrite (process_episode_skip env fuel podcast_name entry st Hc).
    split; [auto|]. split; [discriminate|].
    intros f. now rewrite (process_episode_skip _ fuel podcast_name entry st Hc).
  - split; [discriminate|].
    rewrite (process_episode_unfold env fuel podcast_name entry st Hc).
    split.
    + intros _ b.
      pose proof (guarded_body_post env fuel podcast_name entry st)
        as (_ & Hf & _).
      destruct (guarded_body env fuel podcast_name entry st) as [o s'].
      cbn [fst snd] in Hf.
      destruct (cleanup_spec env (temp_path_of env st) s')
        as (s2 & Ecl & _ & Hsub & _ & Hcases).
      rewrite Ecl. destruct o as [b0|e|]; cbn [fst snd]; intros Ho;
        try discriminate.
      assert (Htied : temp_path_of env st ∈ files s2 →
                ∃ old, trace s2 = EvRemove (temp_path_of env st) false :: old
                       ∧ fs_remove env (length old) = false).
      { intros Hin. destruct Hcases as [[-> Hno]|[[_ Hno]|[Hr Hfalse]]];
          [contradiction..|]. exists (trace s'). auto. }
      split; [etransitivity; [exact Hsub|exact Hf]|].
      split; [exact Htied|].
      intros Hall Hin. destruct (Htied Hin) as (old & _ & Hfalse).
      rewrite Hall in Hfalse. discriminate Hfalse.
    + intros f.
      rewrite (process_episode_unfold (with_remove f env) fuel podcast_name
                 entry st Hc).
      rewrite guarded_body_remove.
      destruct (guarded_body env fuel podcast_name entry st) as [[b|e|] s'];
        reflexivity.
Qed.

(** C9: an entry without a title has the identity "Unknown"; once a call
    for such an entry has returned true, the ledger holds "Unknown", and
    a call for any entry without a title, in any state whose ledger holds
    what that ledger holds, is a skip; the same when "Unknown" was in
    the ledger from the start. *)
Theorem untitled_entries_share_identity (env : Env) (fuel : nat)
  (podcast_name : string) (e1 e2 : Entry) (st : State) :
  e_title e1 = None →
  e_title e2 = None →
  entry_title e1 = "Unknown"
  ∧ entry_title e2 = "Unknown"
  ∧ ((process_episode env fuel podcast_name e1 st).1 = Ret true →
     Py.contains
       (processed_episodes_cache
          (process_episode env fuel podcast_name e1 st).2)
       (JStr "Unknown") = true
     ∧ ∀ env' fuel' podcast_name' st',
         (∀ x, Py.contains
                 (processed_episodes_cache
                    (process_episode env fuel podcast_name e1 st).2) x = true →
               Py.contains (processed_episodes_cache st') x = true) →
         process_episode env' fuel' podcast_name' e2 st' = (Ret false, st'))
  ∧ (Py.contains (processed_episodes_cache st) (JStr "Unknown") = true →
     process_episode env fuel podcast_name e2 st = (Ret false, st)).
Proof.
  intros H1 H2.
  assert (T1 : entry_title e1 = "Unknown") by (unfold entry_title; now rewrite H1).
  assert (T2 : entry_title e2 = "Unknown") by (unfold entry_title; now rewrite H2).
  split; [exact T1|]. split; [exact T2|]. split.
  - intros Htrue.
    destruct (process_episode_post env fuel podcast_name e1 st)
      as (_ & _ & (new & _ & _ & Hadd)).
    destruct (Hadd Htrue) as [Ha _]. rewrite T1 in Ha.
    apply add_contains in Ha. split; [exact Ha|].
    intros env' fuel' podcast_name' st' Hmono.
    apply process_episode_skip. rewrite T2. now apply Hmono.
  - intros Hin. apply process_episode_skip. now rewrite T2.
Qed.

(** * Further properties *)

(** ** The ledger load, further *)

Lemma contains_add_mono (s s' : Py.pyset) (x y : json) :
  Py.add s x = Ret s' → Py.contains s y = true → Py.contains s' y = true.
Proof.
  unfold Py.add. destruct (Py.hashable x); [|discriminate].
  destruct (Py.contains s x); intros [= <-] Hy; [exact Hy|].
  unfold Py.contains in *. rewrite existsb_app, Hy. reflexivity.
Qed.

Section LedgerMore.

Variable env : Env.

Lemma record_page_mono {S} (acc acc' : Py.pyset) (page : json) (s : S)
(x : json) :
record_page acc page s = (Ret acc', s) →
Py.contains acc x = true → Py.contains acc' x = true.
Proof.
intros E Hx. destruct (record_page_total acc page s) as (a & Ea & Hor).
rewrite Ea in E. injection E as <-.
destruct Hor as [->|(title & _ & Hadd)]; [exact Hx|].
eapply contains_add_mono; eauto.
Qed.

Lemma record_page_adds {S} (acc : Py.pyset) (page : json) (s : S)
(t : string) :
(episode_title page tt).1 = Ret (Some (JStr t)) →
∃ acc', record_page acc page s = (Ret acc', s)
        ∧ Py.contains acc' (JStr t) = true.
Proof.
intros Ht. unfold record_page, try_except, bind.
rewrite (episode_title_pure page s), Ht. unfold pure.
destruct (Py.add acc (JStr t)) as [a| |] eqn:Ea;
  try (unfold Py.add in Ea; simpl in Ea; discriminate).
exists a. split; [reflexivity|]. eapply add_contains; eauto.
Qed.

Lemma record_pages_mono {S} (pages : list json) :
∀ (acc acc' : Py.pyset) (s : S) (x : json),
  record_pages acc pages s = (Ret acc', s) →
  Py.contains acc x = true → Py.contains acc' x = true.
Proof.
induction pages as [|page rest IH]; intros acc acc' s x E Hx.
- injection E as <-. exact Hx.
- simpl in E. unfold bind in E.
  destruct (record_page_total acc page s) as (a & Ea & _).
  rewrite Ea in E. eapply IH; [exact E|].
  eapply record_page_mono; eauto.
Qed.

Lemma record_pages_adds {S} (pages : list json) (page : json) (t : string) :
∀ (acc : Py.pyset) (s : S),
  In page pages →
  (episode_title page tt).1 = Ret (Some (JStr t)) →
  ∃ acc', record_pages acc pages s = (Ret acc', s)
          ∧ Py.contains acc' (JStr t) = true.
Proof.
induction pages as [|p rest IH]; intros acc s Hin Ht; [destruct Hin|].
simpl. unfold bind. destruct Hin as [->|Hin].
- destruct (record_page_adds acc page s t Ht) as (a & Ea & Ha).
  rewrite Ea. destruct (record_pages_total rest a s) as (a' & Ea').
  exists a'. split; [exact Ea'|].
  eapply record_pages_mono; eauto.
- destruct (record_page_total acc p s) as (a & Ea & _). rewrite Ea.
  apply IH; assumption.
Qed.

Lemma titles_of_page_mono (acc : Py.pyset) (data x : json) :
Py.contains acc x = true → Py.contains (titles_of_page acc data) x = true.
Proof.
intros Hx. unfold titles_of_page.
destruct (Py.get data "results" (JArr [])) as [results| |]; try exact Hx.
destruct (Py.iter results) as [pages| |]; try exact Hx.
destruct (record_pages_total pages acc tt) as (a & Ea). rewrite Ea.
eapply record_pages_mono; eauto.
Qed.

Lemma accumulated_mono (k : nat) :
∀ first acc x,
  Py.contains acc x = true →
  Py.contains (accumulated env first k acc) x = true.
Proof.
induction k as [|k IH]; intros first acc x Hx; simpl; [exact Hx|].
destruct (notion_query env first) as [|[] [data|]]; try exact Hx.
apply IH. now apply titles_of_page_mono.
Qed.

Lemma accumulated_holds_record (k : nat) :
∀ first acc i page t,
  i < k →
  (∀ j, j < k → ∃ data, notion_query env (first + j)
                        = Response true (Some data)) →
  In page (records_at env (first + i)) →
  (episode_title page tt).1 = Ret (Some (JStr t)) →
  Py.contains (accumulated env first k acc) (JStr t) = true.
Proof.
induction k as [|k IH]; intros first acc i page t Hi Hall Hin Ht; [lia|].
simpl. destruct (Hall 0 ltac:(lia)) as (data & Hq).
rewrite Nat.add_0_r in Hq. rewrite Hq.
destruct i as [|i].
- apply accumulated_mono. rewrite Nat.add_0_r in Hin.
  unfold records_at in Hin. rewrite Hq in Hin. unfold field in Hin.
  unfold titles_of_page.
  destruct (Py.get data "results" (JArr [])) as [results| |];
    try (simpl in Hin; contradiction).
  destruct (Py.iter results) as [pages| |]; try contradiction.
  destruct (record_pages_adds pages page t acc tt Hin Ht) as (a & -> & Ha).
  exact Ha.
- apply (IH (S first) _ i page t); [lia| | |exact Ht].
  + intros j Hj. replace (S first + j) with (first + S j) by lia.
    apply Hall. lia.
  + now replace (S first + i) with (first + S i) by lia.
Qed.

End LedgerMore.

(** X1: a load whose requests are all answered, the last page saying
    that no more follow, returns the titles of all the pages: every
    record of a page read whose title is a string is in the set returned. *)
Theorem load_returns_all_titles (env : Env) (fuel k : nat) (st : State)
  (last : json) :
  k < fuel →
  pages_continue env (step st) k →
  notion_query env (step st + k) = Response true (Some last) →
  page_ends last = true →
  (load_processed_episodes_from_notion env fuel st).1
  = Ret (accumulated env (step st) (S k) [])
  ∧ ∀ i page t,
      i ≤ k →
      In page (records_at env (step st + i)) →
      (episode_title page tt).1 = Ret (Some (JStr t)) →
      Py.contains (accumulated env (step st) (S k) []) (JStr t) = true.
Proof.
  intros Hk Hp Hq He. split.
  - eapply load_complete; eauto.
  - intros i page t Hi Hin Ht.
    apply (accumulated_holds_record env (S k) _ _ i page t);
      [lia| |exact Hin|exact Ht].
    intros j Hj. destruct (decide (j = k)) as [->|Hne]; [eauto|].
    destruct (Hp j ltac:(lia)) as (data & Hd & _). eauto.
Qed.

(** X2: the load has no bound on the number of pages: when every page
    says that more follow, it is still asking whatever the fuel. *)
Theorem load_unbounded (env : Env) (st : State) :
  (∀ k, pages_continue env (step st) k) →
  ∀ fuel, (load_processed_episodes_from_notion env fuel st).1 = Div.
Proof.
  intros Hp fuel.
  unfold load_processed_episodes_from_notion, try_except.
  destruct (query_loop_after_pages env 0 fuel [] (JBool true) JNull st
              eq_refl (Hp fuel)) as (hm & c & st' & Hm & _ & E).
  rewrite Nat.add_0_r in E. rewrite E. simpl. rewrite Hm. reflexivity.
Qed.

Lemma queries_app (a b : list event) :
  queries (a ++ b) = queries b ++ queries a.
Proof. unfold queries. now rewrite reverse_app, omap_app. Qed.

Section LedgerRequests.

Variable env : Env.

Lemma effects_record_pages (P : event → Prop) (pages : list json) :
∀ acc, effects P (record_pages acc pages : M State Py.pyset).
Proof.
induction pages as [|page rest IH]; intros acc; simpl.
- apply effects_ret.
- apply effects_bind; [|intros a; apply IH].
  unfold record_page, episode_title. repeat effects_step.
Qed.

Lemma effects_query_loop (fuel : nat) :
∀ acc has_more cursor,
  effects (fun _ => True) (query_loop env fuel acc has_more cursor).
Proof.
induction fuel as [|fuel IH]; intros acc has_more cursor; simpl.
- destruct (Py.truthy has_more); [apply effects_diverge|apply effects_ret].
- destruct (Py.truthy has_more); [|apply effects_ret].
  apply effects_bind.
  { intros st. eexists [_]. simpl.
    split; [reflexivity|]. split; [repeat constructor|split; reflexivity]. }
  intros data.
  repeat first [apply IH | apply effects_record_pages | effects_step].
Qed.

(** A request is sent as soon as [has_more] is truthy, with the cursor
  at hand. *)
Lemma query_loop_sends (fuel : nat) (acc : Py.pyset) (has_more cursor : json)
(st : State) :
Py.truthy has_more = true →
∃ more,
  trace (query_loop env (S fuel) acc has_more cursor st).2
  = more ++ EvQuery (query_body cursor) :: trace st.
Proof.
intros Hm.
pose proof (effects_query_loop fuel) as Hloop.
simpl. rewrite Hm.
match goal with
| |- context [bind (post_query env ?b) ?K st] =>
    assert (HK : ∀ d, effects (fun _ => True) (K d));
    [|unfold bind at 1; unfold post_query at 1;
      destruct (checked_json (notion_query env (step st))) as [d|e|];
      [destruct (HK d (emit (EvQuery b) st)) as (more & Ht & _)
      |exists []; reflexivity..]]
end.
{ intros d.
  repeat first [apply Hloop | apply effects_record_pages | effects_step]. }
exists more. exact Ht.
Qed.

Lemma query_loop_page (fuel : nat) (acc : Py.pyset)
(has_more cursor data : json) (st : State) :
Py.truthy has_more = true →
notion_query env (step st) = Response true (Some data) →
page_continues data = true →
Py.truthy (field data "has_more" (JBool false)) = true
∧ query_loop env (S fuel) acc has_more cursor st
  = query_loop env fuel (titles_of_page acc data)
      (field data "has_more" (JBool false))
      (field data "next_cursor" JNull)
      (emit (EvQuery (query_body cursor)) st).
Proof.
intros Hm Hq Hc. simpl. rewrite Hm.
unfold bind at 1. unfold post_query. rewrite Hq. simpl.
unfold page_continues in Hc. unfold titles_of_page, field.
unfold bind at 1. unfold pure at 1.
destruct (Py.get data "results" (JArr [])) as [results| |] eqn:Er;
  try discriminate.
destruct (Py.get data "has_more" (JBool false)) as [hm| |] eqn:Eh;
  try discriminate.
unfold bind at 1. unfold pure at 1.
destruct (Py.iter results) as [pages| |] eqn:Ei; try discriminate.
unfold bind at 1.
pose proof (record_pages_pure pages acc
              (emit (EvQuery (query_body cursor)) st)) as Hp.
destruct (record_pages_total pages acc
            (emit (EvQuery (query_body cursor)) st)) as (a1 & E1).
destruct (record_pages_total pages acc tt) as (a2 & E2).
unfold query_body in *.
rewrite E1, E2 in *. simpl in Hp. injection Hp as ->.
unfold bind at 1. unfold pure at 1.
destruct data as [| | | | |fields]; try discriminate.
unfold bind at 1. unfold pure at 1. simpl.
split; [exact Hc|].
destruct (Py.assoc "next_cursor" fields); reflexivity.
Qed.

Lemma query_loop_bodies (fuel : nat) :
∀ k acc has_more cursor st,
  Py.truthy has_more = true →
  pages_continue env (step st) k →
  ∃ acc' has_more' cursor' st' sent,
    query_loop env (k + fuel) acc has_more cursor st
    = query_loop env fuel acc' has_more' cursor' st'
    ∧ Py.truthy has_more' = true
    ∧ trace st' = sent ++ trace st
    ∧ queries sent ++ [query_body cursor']
      = bodies env (step st) k (query_body cursor).
Proof.
induction k as [|k IH]; intros acc has_more cursor st Hm Hp.
- exists acc, has_more, cursor, st, []. auto.
- destruct (Hp 0 ltac:(lia)) as (data & Hq & Hc).
  rewrite Nat.add_0_r in Hq.
  destruct (query_loop_page (k + fuel) acc has_more cursor data st
              Hm Hq Hc) as (Hm1 & E1).
  change (S k + fuel) with (S (k + fuel)). rewrite E1.
  set (st1 := emit (EvQuery (query_body cursor)) st) in *.
  destruct (IH (titles_of_page acc data)
              (field data "has_more" (JBool false))
              (field data "next_cursor" JNull) st1 Hm1)
    as (acc' & hm' & c' & st' & sent & E2 & Hm2 & Ht2 & Hb2).
  { intros i Hi. change (step st1) with (S (step st)).
    replace (S (step st) + i) with (step st + S i) by lia.
    apply Hp. lia. }
  exists acc', hm', c', st', (sent ++ [EvQuery (query_body cursor)]).
  split; [exact E2|]. split; [exact Hm2|]. split.
  { rewrite Ht2. unfold st1. simpl. now rewrite <- app_assoc. }
  rewrite queries_app. simpl bodies. rewrite Hq.
  change (step st1) with (S (step st)) in Hb2. rewrite <- Hb2.
  reflexivity.
Qed.

End LedgerRequests.

(** X3: the first request of a load has no cursor; each request after a
    page that says more follow carries the [next_cursor] of that page, or
    no cursor again when that is missing, null or empty. *)
Theorem load_passes_cursor (env : Env) (fuel k : nat) (st : State) :
  k < fuel →
  pages_continue env (step st) k →
  ∃ new,
    trace (load_processed_episodes_from_notion env fuel st).2
    = new ++ trace st
    ∧ take (S k) (queries new) = bodies env (step st) k None.
Proof.
  intros Hk Hp.
  replace fuel with (k + S (fuel - S k)) by lia.
  destruct (query_loop_bodies env (S (fuel - S k)) k [] (JBool true) JNull st
              eq_refl Hp)
    as (acc' & hm' & c' & st' & sent & E & Hm & Ht & Hb).
  destruct (query_loop_sends env (fuel - S k) acc' hm' c' st' Hm)
    as (more & Hmore).
  assert (Hstate : (load_processed_episodes_from_notion env
                      (k + S (fuel - S k)) st).2
                   = (query_loop env (S (fuel - S k)) acc' hm' c' st').2).
  { unfold load_processed_episodes_from_notion, try_except. rewrite E.
    destruct (query_loop env (S (fuel - S k)) acc' hm' c' st')
      as [[a|e|] s]; reflexivity. }
  rewrite Hstate, Hmore, Ht.
  exists (more ++ EvQuery (query_body c') :: sent).
  split; [now rewrite <- app_assoc|].
  rewrite queries_app.
  change (EvQuery (query_body c') :: sent)
    with ([EvQuery (query_body c')] ++ sent).
  rewrite queries_app. change (query_body JNull) with (@None json) in Hb.
  rewrite <- Hb.
  change (queries [EvQuery (query_body c')]) with [query_body c'].
  rewrite take_app_length'; [reflexivity|].
  rewrite length_app. simpl.
  apply (f_equal length) in Hb. rewrite length_app in Hb. simpl in Hb.
  assert (Hlen : ∀ k first b, pages_continue env first k →
                              length (bodies env first k b) = S k).
  { clear. induction k as [|k IH]; intros first b Hp; [reflexivity|].
    simpl. destruct (Hp 0 ltac:(lia)) as (data & Hq & _).
    rewrite Nat.add_0_r in Hq. rewrite Hq. f_equal. apply IH.
    intros i Hi. replace (S first + i) with (first + S i) by lia.
    apply Hp. lia. }
  rewrite (Hlen k (step st) _ Hp) in Hb. lia.
Qed.

(** ** The retry loop, further *)

Lemma backoffs_app (a b : list event) :
  backoffs (a ++ b) = backoffs b ++ backoffs a.
Proof. unfold backoffs. now rewrite reverse_app, omap_app. Qed.

Lemma backoff_long (attempt : nat) : (60000 <=? backoff attempt)%Z = true.
Proof.
  apply Z.leb_le. unfold backoff.
  assert (0 < 2 ^ Z.of_nat attempt)%Z by (apply Z.pow_pos_nonneg; lia).
  lia.
Qed.

Lemma poll_events_quiet (evs : list event) :
  Forall poll_event evs →
  backoffs evs = [] ∧ count is_delete evs = 0 ∧ count is_handle evs = 0.
Proof.
  induction 1 as [|ev evs Hev _ (IH1 & IH2 & IH3)]; [auto|].
  change (ev :: evs) with ([ev] ++ evs).
  rewrite backoffs_app, !count_app, IH1, IH2, IH3.
  destruct ev; simpl in Hev; try contradiction; [auto|].
  subst. auto.
Qed.

Section RetryMore.

Variable env : Env.

Lemma handler_with_handle (max_retries attempt : nat) (e : exn) (s : State)
(f : gfile) :
attempt_handler env max_retries attempt e (s, Some f)
= let s1 := emit (EvDeleteFile (gname f) (genai_delete env (step s))) s in
  if attempt <? max_retries - 1
  then (Ret None, (emit (EvSleep (backoff attempt)) s1, Some f))
  else (Exc e, (s1, Some f)).
Proof.
unfold attempt_handler, bind, get_local, try_pass, try_except, outer,
  genai_delete_file, time_sleep, ret, raise, backoff. simpl.
destruct (genai_delete env (step s)); simpl;
  destruct (attempt <? max_retries - 1); reflexivity.
Qed.

Lemma handler_without_handle (max_retries attempt : nat) (e : exn)
(s : State) :
attempt_handler env max_retries attempt e (s, None)
= if attempt <? max_retries - 1
  then (Ret None, (emit (EvSleep (backoff attempt)) s, None))
  else (Exc e, (s, None)).
Proof.
unfold attempt_handler, bind, get_local, outer, time_sleep, ret, raise,
  backoff. simpl.
destruct (attempt <? max_retries - 1); reflexivity.
Qed.

Lemma gemini_file_some (s : State) (f : gfile) :
gemini_file (s, Some f) = (Ret f, (s, Some f)).
Proof. reflexivity. Qed.

Lemma outer_generate (p : prompt) (f : gfile) (s : State) (l : option gfile) :
outer (generate_text env p f) (s, l)
= match genai_generate env (step s) with
  | Some t => (Ret t, (emit (EvGenerate p (gname f) true) s, l))
  | None => (Exc ClientError, (emit (EvGenerate p (gname f) false) s, l))
  end.
Proof.
unfold outer, generate_text. simpl.
destruct (genai_generate env (step s)); reflexivity.
Qed.

Lemma try_pass_delete (name : string) (s : State) (l : option gfile) :
try_pass (outer (genai_delete_file env name)) (s, l)
= (Ret tt, (emit (EvDeleteFile name (genai_delete env (step s))) s, l)).
Proof.
unfold try_pass, try_except, outer, genai_delete_file, ret. simpl.
destruct (genai_delete env (step s)); reflexivity.
Qed.

(** The status loop keeps a handle in [gemini_file] and leaves pauses of
  five seconds and status requests only. *)
Lemma poll_shape (start_time : Z) :
∀ fuel s f,
  ∃ o s' f' np,
    poll env fuel start_time (s, Some f) = (o, (s', Some f'))
    ∧ trace s' = np ++ trace s
    ∧ Forall poll_event np.
Proof.
induction fuel as [|fuel IH]; intros s f; simpl;
  unfold bind at 1; rewrite gemini_file_some;
  destruct (String.eqb (gstate f) "PROCESSING").
- exists Div, s, f, []. auto.
- exists (Ret tt), s, f, []. auto.
- unfold bind at 1. unfold outer at 1, time_time at 1. simpl.
  destruct (600000 <? clock env (step s) - start_time)%Z.
  + exists (Exc (Exception "Timeout")), s, f, []. auto.
  + unfold bind at 1. unfold outer at 1, time_sleep at 1. simpl.
    unfold bind at 1. unfold outer at 1, genai_get_file at 1. simpl.
    destruct (genai_get env (step (emit (EvSleep 5000) s))) as [f1|] eqn:Eg.
    * simpl. unfold bind at 1. unfold set_local at 1. simpl.
      destruct (IH (emit (EvGetFile (gname f) true)
                      (emit (EvSleep 5000) s)) f1)
        as (o & s' & f' & np & E & Ht & HP).
      exists o, s', f', (np ++ [EvGetFile (gname f) true; EvSleep 5000]).
      split; [exact E|]. split.
      { rewrite Ht. simpl. now rewrite <- app_assoc. }
      apply Forall_app. split; [exact HP|]. repeat constructor.
    * simpl.
      exists (Exc ClientError),
        (emit (EvGetFile (gname f) false) (emit (EvSleep 5000) s)), f,
        [EvGetFile (gname f) false; EvSleep 5000].
      split; [reflexivity|]. split; [reflexivity|]. repeat constructor.
- exists (Ret tt), s, f, []. auto.
Qed.

(** One turn of the retry loop, event by event: the upload comes first;
  the turn pauses for [backoff attempt] exactly when it is to be
  followed by another; and unless the status loop is still running,
  a handle obtained is deleted once, and nothing is deleted without
  one. *)
Lemma attempt_turn_shape (fuel : nat) (audio_file : string)
(max_retries attempt : nat) (st : State) :
∃ new ok,
  trace (attempt_turn env fuel audio_file max_retries attempt st).2
  = new ++ EvUpload audio_file ok :: trace st
  ∧ count is_handle new = 0
  ∧ backoffs new
    = match (attempt_turn env fuel audio_file max_retries attempt st).1
      with
      | Ret None => [backoff attempt]
      | _ => []
      end
  ∧ ((attempt_turn env fuel audio_file max_retries attempt st).1 ≠ Div →
     count is_delete new = if ok then 1 else 0).
Proof.
destruct (attempt_turn env fuel audio_file max_retries attempt st)
  as [o s1] eqn:R. cbn [fst snd].
unfold attempt_turn, with_local, attempt_body in R.
rewrite try_bind_bind_first in R.
unfold outer at 1, genai_upload_file in R. simpl in R.
pose proof (backoff_long attempt) as Hlong.
destruct (genai_upload env (step st)) as [f|] eqn:Eu.
2: { rewrite handler_without_handle in R.
     destruct (attempt <? max_retries - 1); injection R as <- <-.
     - exists [EvSleep (backoff attempt)], false. simpl.
       split; [reflexivity|]. split; [reflexivity|].
       unfold backoffs. simpl. rewrite Hlong. auto.
     - exists [], false. simpl. auto. }
set (st0 := emit (EvUpload audio_file true) st) in *.
rewrite try_bind_bind_first in R. unfold set_local at 1 in R.
cbn [fst snd] in R.
rewrite try_bind_bind_first in R. unfold outer at 1, time_time at 1 in R.
cbn [fst snd] in R.
rewrite try_bind_bind_first in R.
destruct (poll_shape (clock env (step st0)) fuel st0 f)
  as (op & s2 & f2 & np & Ep & Htp & HPp).
rewrite Ep in R.
destruct (poll_events_quiet np HPp) as (Hb & Hd & Hh).
(* what the handler adds after events [evs] that hold no deletion *)
assert (Hhandled : ∀ e s evs,
          trace s = evs ++ trace st0 →
          backoffs evs = [] → count is_delete evs = 0 →
          count is_handle evs = 0 →
          (let '(r, (s', _)) :=
             attempt_handler env max_retries attempt e (s, Some f2) in
           (r, s')) = (o, s1) →
          ∃ new ok,
            trace s1 = new ++ EvUpload audio_file ok :: trace st
            ∧ count is_handle new = 0
            ∧ backoffs new = match o with
                             | Ret None => [backoff attempt]
                             | _ => []
                             end
            ∧ (o ≠ Div → count is_delete new = if ok then 1 else 0)).
{ intros e s evs Hts Hbs Hds Hhs Hh'. rewrite handler_with_handle in Hh'.
  cbv zeta in Hh'.
  destruct (attempt <? max_retries - 1); injection Hh' as <- <-.
  - exists (EvSleep (backoff attempt)
              :: EvDeleteFile (gname f2) (genai_delete env (step s)) :: evs),
      true.
    simpl. rewrite Hts. split; [reflexivity|].
    change (EvSleep (backoff attempt)
              :: EvDeleteFile (gname f2) (genai_delete env (step s)) :: evs)
      with ([EvSleep (backoff attempt);
             EvDeleteFile (gname f2) (genai_delete env (step s))] ++ evs).
    rewrite backoffs_app, !count_app, Hbs, Hds, Hhs.
    unfold backoffs. simpl. rewrite Hlong. auto.
  - exists (EvDeleteFile (gname f2) (genai_delete env (step s)) :: evs), true.
    simpl. rewrite Hts. split; [reflexivity|].
    change (EvDeleteFile (gname f2) (genai_delete env (step s)) :: evs)
      with ([EvDeleteFile (gname f2) (genai_delete env (step s))] ++ evs).
    rewrite backoffs_app, !count_app, Hbs, Hds, Hhs. auto. }
destruct op as [[]|e|].
- rewrite try_bind_bind_first, gemini_file_some in R.
  destruct (String.eqb (gstate f2) "FAILED").
  { rewrite try_bind_first in R. unfold raise at 1 in R.
    eapply (Hhandled _ s2 np);
      [exact Htp|exact Hb|exact Hd|exact Hh|exact R]. }
  rewrite try_bind_bind_first, outer_generate in R.
  destruct (genai_generate env (step s2)) as [t1|] eqn:Eg1.
  2: { eapply (Hhandled _ _
                 (EvGenerate summary_prompt (gname f2) false :: np));
         revgoals; [exact R| | | |simpl; now rewrite Htp];
         change (EvGenerate summary_prompt (gname f2) false :: np)
           with ([EvGenerate summary_prompt (gname f2) false] ++ np);
         rewrite ?backoffs_app, ?count_app, ?Hb, ?Hd, ?Hh; reflexivity. }
  rewrite try_bind_bind_first, outer_generate in R.
  change (step (emit (EvGenerate summary_prompt (gname f2) true) s2))
    with (S (step s2)) in R.
  destruct (genai_generate env (S (step s2))) as [t2|] eqn:Eg2.
  2: { eapply (Hhandled _ _
                 (EvGenerate transcript_prompt (gname f2) false
                    :: EvGenerate summary_prompt (gname f2) true :: np));
         revgoals; [exact R| | | |simpl; now rewrite Htp];
         change (EvGenerate transcript_prompt (gname f2) false
                   :: EvGenerate summary_prompt (gname f2) true :: np)
           with ([EvGenerate transcript_prompt (gname f2) false;
                  EvGenerate summary_prompt (gname f2) true] ++ np);
         rewrite ?backoffs_app, ?count_app, ?Hb, ?Hd, ?Hh; reflexivity. }
  rewrite try_bind_bind_first, try_pass_delete in R.
  rewrite try_bind_first in R. unfold ret at 1 in R.
  unfold try_except, ret in R. injection R as <- <-.
  eexists (_ :: _ :: _ :: np), true. simpl. rewrite Htp.
  split; [reflexivity|].
  match goal with
  | |- context [count is_handle (?a :: ?b :: ?c :: np)] =>
      change (a :: b :: c :: np) with ([a; b; c] ++ np)
  end.
  rewrite backoffs_app, !count_app, Hb, Hd, Hh. auto.
- eapply (Hhandled _ s2 np);
    [exact Htp|exact Hb|exact Hd|exact Hh|exact R].
- injection R as <- <-. exists np, true.
  split; [exact Htp|]. split; [exact Hh|]. split; [exact Hb|].
  intros Hnd. now destruct Hnd.
Qed.

End RetryMore.

Section RetryTheorems.

Variable env : Env.

Lemma attempts_cleanup (fuel : nat) (audio_file : string) (max_retries : nat) :
∀ turns st,
  (attempts env fuel audio_file max_retries turns st).1 ≠ Div →
  ∃ new,
    trace (attempts env fuel audio_file max_retries turns st).2
    = new ++ trace st
    ∧ count is_delete new = count is_handle new.
Proof.
induction turns as [|a rest IH]; intros st Hnd.
- exists []. auto.
- rewrite attempts_cons in *.
  destruct (attempt_turn_shape env fuel audio_file max_retries a st)
    as (new & ok & Ht & Hh & _ & Hd).
  assert (Hturn : count is_delete (new ++ [EvUpload audio_file ok])
                  = count is_handle (new ++ [EvUpload audio_file ok])
                  ∨ (attempt_turn env fuel audio_file max_retries a st).1
                    = Div).
  { destruct (attempt_turn env fuel audio_file max_retries a st).1
      as [r|e|] eqn:Eo; [left|left|now right];
      rewrite !count_app, Hh, Hd by discriminate;
      destruct ok; reflexivity. }
  destruct (attempt_turn env fuel audio_file max_retries a st)
    as [[[t|]|e|] s] eqn:E; cbn [fst snd] in *;
    try (destruct Hturn as [Hturn|[=]];
         exists (new ++ [EvUpload audio_file ok]);
         rewrite <- app_assoc; split; [exact Ht|exact Hturn]).
  + destruct Hturn as [Hturn|[=]].
    destruct (IH s Hnd) as (new' & Ht' & Hc').
    exists (new' ++ new ++ [EvUpload audio_file ok]).
    rewrite Ht', Ht, <- !app_assoc. split; [reflexivity|].
    rewrite !count_app in *. lia.
  + now destruct Hnd.
Qed.

Lemma after_turns_backoffs (fuel : nat) (audio_file : string)
(max_retries : nat) :
∀ n a st,
  a + n < max_retries →
  (∀ i, i < n →
     ∃ e, try_outcome env fuel audio_file
            (after_turns env fuel audio_file max_retries a i st) = Exc e) →
  ∃ new,
    trace (after_turns env fuel audio_file max_retries a n st)
    = new ++ trace st
    ∧ backoffs new = map backoff (seq a n).
Proof.
induction n as [|n IH]; intros a st Hlt Hfail.
- exists []. auto.
- destruct (attempt_turn_shape env fuel audio_file max_retries a st)
    as (new & ok & Ht & _ & Hb & _).
  pose proof (attempt_turn_outcome env fuel audio_file max_retries a st)
    as Ho.
  destruct (Hfail 0 ltac:(lia)) as [e He]. simpl in He. rewrite He in Ho.
  assert (Hlast : (a <? max_retries - 1) = true) by (apply Nat.ltb_lt; lia).
  rewrite Hlast in Ho. rewrite Ho in Hb.
  destruct (IH (S a) (attempt_turn env fuel audio_file max_retries a st).2)
    as (new' & Ht' & Hb'); [lia| |].
  { intros i Hi. apply (Hfail (S i)). lia. }
  exists (new' ++ new ++ [EvUpload audio_file ok]). split.
  + simpl. rewrite Ht', Ht, <- !app_assoc. reflexivity.
  + rewrite !backoffs_app, Hb', Hb. reflexivity.
Qed.

Lemma poll_zero (start_time : Z) (s : State) (f : gfile) :
poll env 0 start_time (s, Some f)
= if String.eqb (gstate f) "PROCESSING"
  then (Div, (s, Some f))
  else (Ret tt, (s, Some f)).
Proof.
simpl. unfold bind at 1. rewrite gemini_file_some.
destruct (String.eqb (gstate f) "PROCESSING"); reflexivity.
Qed.

(** One round of the status loop. *)
Lemma poll_step (start_time : Z) (fuel : nat) (s : State) (f : gfile) :
poll env (S fuel) start_time (s, Some f)
= if String.eqb (gstate f) "PROCESSING"
  then
    if (600000 <? clock env (step s) - start_time)%Z
    then (Exc (Exception "Timeout"), (s, Some f))
    else
      match genai_get env (S (step s)) with
      | Some f' =>
          poll env fuel start_time
            (emit (EvGetFile (gname f) true) (emit (EvSleep 5000) s),
             Some f')
      | None =>
          (Exc ClientError,
           (emit (EvGetFile (gname f) false) (emit (EvSleep 5000) s),
            Some f))
      end
  else (Ret tt, (s, Some f)).
Proof.
change (poll env (S fuel) start_time (s, Some f))
  with ((let! f := gemini_file in
         if String.eqb (gstate f) "PROCESSING" then
           let! now := outer (time_time env) in
           if (600000 <? now - start_time)%Z
           then raise (Exception "Timeout")
           else
             run outer (time_sleep 5000) then
             let! f' := outer (genai_get_file env (gname f)) in
             run set_local (Some f') then
             poll env fuel start_time
         else ret tt) (s, Some f)).
unfold bind at 1. rewrite gemini_file_some.
destruct (String.eqb (gstate f) "PROCESSING"); [|reflexivity].
unfold bind at 1. unfold outer at 1, time_time at 1. cbn [fst snd].
destruct (600000 <? clock env (step s) - start_time)%Z; [reflexivity|].
unfold bind at 1. unfold outer at 1, time_sleep at 1. cbn [fst snd].
unfold bind at 1. unfold outer at 1, genai_get_file at 1. cbn [fst snd].
change (step (emit (EvSleep 5000) s)) with (S (step s)).
destruct (genai_get env (S (step s))) as [f1|]; reflexivity.
Qed.

Lemma rounds_since_mono (since since' : nat) (tr : list event) :
since ≤ since' →
status_rounds_take_five env since tr →
status_rounds_take_five env since' tr.
Proof.
intros Hle H later name earlier Ht Hs. apply (H later name earlier Ht).
lia.
Qed.

Lemma ticking_rounds (since : nat) (tr : list event) :
ticking env → status_rounds_take_five env since tr.
Proof. intros H later name earlier _ _. apply H. Qed.

Lemma rounds_checked_sound (since : nat) (tr : list event) :
rounds_checked env since tr = true →
status_rounds_take_five env since tr.
Proof.
intros H later name earlier -> Hs. revert H.
induction later as [|x later IH]; intros H.
- cbn [app rounds_checked] in H. apply andb_true_iff in H as [H _].
  rewrite Z.eqb_refl in H. cbn [negb orb] in H.
  apply orb_true_iff in H as [H|H].
  + apply Nat.ltb_lt in H. lia.
  + now apply Z.leb_le in H.
- apply IH. cbn [app rounds_checked] in H.
  now apply andb_true_iff in H as [_ H].
Qed.

(** With rounds that take their five seconds, a status loop makes no
  more than 121 requests, and 122 rounds of fuel are enough for it to
  return or raise.  [i] counts the rounds already made. *)
Lemma poll_rounds (start_time : Z) (since : nat) (T : list event) :
status_rounds_take_five env since T →
∀ fuel i s f,
  since ≤ step s →
  (∃ later, T = later ++ trace (poll env fuel start_time (s, Some f)).2.1) →
  (5000 * Z.of_nat i ≤ clock env (step s) - start_time)%Z →
  i ≤ 121 →
  ∃ np,
    trace (poll env fuel start_time (s, Some f)).2.1 = np ++ trace s
    ∧ count is_status_request np + i ≤ 121
    ∧ (122 ≤ fuel + i → (poll env fuel start_time (s, Some f)).1 ≠ Div).
Proof.
intros Hrounds. induction fuel as [|fuel IH]; intros i s f Hs HT Hel Hi.
- rewrite poll_zero in *.
  destruct (String.eqb (gstate f) "PROCESSING"); exists [];
    (split; [reflexivity|]); (split; [simpl; lia|]);
    [lia|discriminate].
- rewrite poll_step in *.
  destruct (String.eqb (gstate f) "PROCESSING").
  2: { exists []. split; [reflexivity|]. split; [simpl; lia|discriminate]. }
  destruct (600000 <? clock env (step s) - start_time)%Z eqn:Eout.
  { exists []. split; [reflexivity|]. split; [simpl; lia|discriminate]. }
  apply Z.ltb_ge in Eout.
  destruct (genai_get env (S (step s))) as [f1|].
  2: { exists [EvGetFile (gname f) false; EvSleep 5000].
       split; [reflexivity|]. split; [|discriminate].
       unfold count. simpl. lia. }
  set (s1 := emit (EvGetFile (gname f) true) (emit (EvSleep 5000) s)) in *.
  destruct (poll_shape env start_time fuel s1 f1)
    as (o & s' & f' & np & Ep & Ht & _).
  destruct HT as [later HT]. rewrite Ep in HT. cbn [fst snd] in HT.
  rewrite Ht in HT.
  assert (Hround : (clock env (step s) + 5000
                    ≤ clock env (step s + 2))%Z).
  { apply (Hrounds (later ++ np) (gname f) (trace s));
      [rewrite HT, <- app_assoc; reflexivity|exact Hs]. }
  assert (Hstep : step s1 = step s + 2) by (unfold s1, step; simpl; lia).
  destruct (IH (S i) s1 f1) as (np' & Ht' & Hc & Hnd).
  + lia.
  + exists later. rewrite Ep. cbn [fst snd]. now rewrite Ht.
  + rewrite Hstep. lia.
  + lia.
  + exists (np' ++ [EvGetFile (gname f) true; EvSleep 5000]).
    split; [rewrite Ht', <- app_assoc; reflexivity|]. split.
    * rewrite count_app. unfold count at 2. simpl. lia.
    * intros Hf. apply Hnd. lia.
Qed.

(** A turn, around its status loop: what follows the loop holds no
  status request, and a turn that does not end is a status loop that
  does not end. *)
Lemma attempt_turn_poll (fuel : nat) (audio_file : string)
(max_retries attempt : nat) (st : State) :
∃ tail,
  count is_status_request tail = 0
  ∧ match genai_upload env (step st) with
    | None =>
        trace (attempt_turn env fuel audio_file max_retries attempt st).2
        = tail ++ EvUpload audio_file false :: trace st
        ∧ (attempt_turn env fuel audio_file max_retries attempt st).1 ≠ Div
    | Some f =>
        trace (attempt_turn env fuel audio_file max_retries attempt st).2
        = tail
          ++ trace (poll env fuel
                      (clock env (step (emit (EvUpload audio_file true) st)))
                      (emit (EvUpload audio_file true) st, Some f)).2.1
        ∧ ((attempt_turn env fuel audio_file max_retries attempt st).1 = Div →
           (poll env fuel
              (clock env (step (emit (EvUpload audio_file true) st)))
              (emit (EvUpload audio_file true) st, Some f)).1 = Div)
    end.
Proof.
destruct (attempt_turn env fuel audio_file max_retries attempt st)
  as [o s1] eqn:R. cbn [fst snd].
unfold attempt_turn, with_local, attempt_body in R.
rewrite try_bind_bind_first in R.
unfold outer at 1, genai_upload_file in R. simpl in R.
destruct (genai_upload env (step st)) as [f|] eqn:Eu.
2: { rewrite handler_without_handle in R.
     destruct (attempt <? max_retries - 1); injection R as <- <-.
     - exists [EvSleep (backoff attempt)]. split; [reflexivity|].
       split; [reflexivity|discriminate].
     - exists []. split; [reflexivity|]. split; [reflexivity|discriminate]. }
set (st0 := emit (EvUpload audio_file true) st) in *.
rewrite try_bind_bind_first in R. unfold set_local at 1 in R.
cbn [fst snd] in R.
rewrite try_bind_bind_first in R. unfold outer at 1, time_time at 1 in R.
cbn [fst snd] in R.
rewrite try_bind_bind_first in R.
destruct (poll_shape env (clock env (step st0)) fuel st0 f)
  as (op & s2 & f2 & np & Ep & _).
rewrite Ep in *. cbn [fst snd].
assert (Hhandled : ∀ e s evs,
          trace s = evs ++ trace s2 →
          count is_status_request evs = 0 →
          (let '(r, (s', _)) :=
             attempt_handler env max_retries attempt e (s, Some f2) in
           (r, s')) = (o, s1) →
          ∃ tail,
            count is_status_request tail = 0
            ∧ trace s1 = tail ++ trace s2
            ∧ (o = Div → op = Div)).
{ intros e s evs Hts Hq Hh'. rewrite handler_with_handle in Hh'.
  cbv zeta in Hh'.
  destruct (attempt <? max_retries - 1); injection Hh' as <- <-.
  - exists ([EvSleep (backoff attempt);
             EvDeleteFile (gname f2) (genai_delete env (step s))] ++ evs).
    rewrite count_app, Hq. split; [reflexivity|].
    split; [simpl; now rewrite Hts|discriminate].
  - exists ([EvDeleteFile (gname f2) (genai_delete env (step s))] ++ evs).
    rewrite count_app, Hq. split; [reflexivity|].
    split; [simpl; now rewrite Hts|discriminate]. }
destruct op as [[]|e|].
- rewrite try_bind_bind_first, gemini_file_some in R.
  destruct (String.eqb (gstate f2) "FAILED").
  { rewrite try_bind_first in R. unfold raise at 1 in R.
    exact (Hhandled _ s2 [] eq_refl eq_refl R). }
  rewrite try_bind_bind_first, outer_generate in R.
  destruct (genai_generate env (step s2)) as [t1|] eqn:Eg1.
  2: { exact (Hhandled _
                (emit (EvGenerate summary_prompt (gname f2) false) s2)
                [EvGenerate summary_prompt (gname f2) false]
                eq_refl eq_refl R). }
  rewrite try_bind_bind_first, outer_generate in R.
  change (step (emit (EvGenerate summary_prompt (gname f2) true) s2))
    with (S (step s2)) in R.
  destruct (genai_generate env (S (step s2))) as [t2|] eqn:Eg2.
  2: { exact (Hhandled _
                (emit (EvGenerate transcript_prompt (gname f2) false)
                   (emit (EvGenerate summary_prompt (gname f2) true) s2))
                [EvGenerate transcript_prompt (gname f2) false;
                 EvGenerate summary_prompt (gname f2) true]
                eq_refl eq_refl R). }
  rewrite try_bind_bind_first, try_pass_delete in R.
  rewrite try_bind_first in R. unfold ret at 1 in R.
  unfold try_except, ret in R. injection R as <- <-.
  exists [EvDeleteFile (gname f2) (genai_delete env (S (S (step s2))));
          EvGenerate transcript_prompt (gname f2) true;
          EvGenerate summary_prompt (gname f2) true].
  split; [reflexivity|]. split; [reflexivity|discriminate].
- exact (Hhandled _ s2 [] eq_refl eq_refl R).
- injection R as <- <-. exists []. auto.
Qed.

(** The retry loop with rounds that take their five seconds. *)
Lemma attempts_rounds (fuel : nat) (audio_file : string) (max_retries : nat)
(since : nat) (T : list event) :
status_rounds_take_five env since T →
∀ turns st,
  since ≤ step st →
  (∃ later,
     T = later
         ++ trace (attempts env fuel audio_file max_retries turns st).2) →
  ∃ new,
    trace (attempts env fuel audio_file max_retries turns st).2
    = new ++ trace st
    ∧ count is_status_request new ≤ 121 * length turns
    ∧ (122 ≤ fuel →
       (attempts env fuel audio_file max_retries turns st).1 ≠ Div).
Proof.
intros Hrounds. induction turns as [|a rest IH]; intros st Hs HT.
- exists []. split; [reflexivity|].
  split; [unfold count; simpl; lia|discriminate].
- rewrite attempts_cons in *. cbn [length]. rewrite Nat.mul_succ_r.
  destruct HT as [later HT].
  (* the turn, inside the trace *)
  assert (Hturn : ∃ later1 new1,
            T = later1
                ++ trace (attempt_turn env fuel audio_file max_retries
                            a st).2
            ∧ trace (attempt_turn env fuel audio_file max_retries a st).2
              = new1 ++ trace st
            ∧ count is_status_request new1 ≤ 121
            ∧ (122 ≤ fuel →
               (attempt_turn env fuel audio_file max_retries a st).1
               ≠ Div)).
  { assert (Hin : ∃ later1,
              T = later1
                  ++ trace (attempt_turn env fuel audio_file max_retries
                              a st).2).
    { destruct (attempt_turn env fuel audio_file max_retries a st)
        as [[[t|]|e|] s] eqn:E; cbn [fst snd] in *; eauto.
      destruct (attempts_trace env fuel audio_file max_retries rest s)
        as (new & Hn & _).
      rewrite Hn in HT. exists (later ++ new).
      now rewrite <- app_assoc. }
    destruct Hin as [later1 Hin]. exists later1.
    destruct (attempt_turn_poll fuel audio_file max_retries a st)
      as (tail & Hq & Hcase).
    destruct (genai_upload env (step st)) as [f|].
    - destruct Hcase as [Ht Hdiv].
      destruct (poll_rounds
                  (clock env (step (emit (EvUpload audio_file true) st)))
                  since T Hrounds fuel 0
                  (emit (EvUpload audio_file true) st) f)
        as (np & Hp & Hc & Hnd).
      + unfold step in *. simpl. lia.
      + exists (later1 ++ tail). rewrite <- app_assoc, <- Ht. exact Hin.
      + lia.
      + lia.
      + exists (tail ++ np ++ [EvUpload audio_file true]).
        split; [exact Hin|]. split.
        { rewrite Ht, Hp, <- !app_assoc. reflexivity. }
        split.
        { rewrite !count_app, Hq. unfold count at 2. simpl. lia. }
        intros Hf Hd. apply Hnd; [lia|]. now apply Hdiv.
    - destruct Hcase as [Ht Hnd].
      exists (tail ++ [EvUpload audio_file false]).
      split; [exact Hin|]. split; [now rewrite Ht, <- app_assoc|].
      split; [|auto].
      rewrite count_app, Hq. unfold count. simpl. lia. }
  destruct Hturn as (later1 & new1 & Hin & Ht1 & Hc1 & Hnd1).
  destruct (attempt_turn env fuel audio_file max_retries a st)
    as [[[t|]|e|] s] eqn:E; cbn [fst snd] in *.
  + exists new1. split; [exact Ht1|]. split; [lia|discriminate].
  + destruct (IH s) as (new & Hn & Hc & Hnd).
    * unfold step in *. rewrite Ht1, length_app. lia.
    * exists later. exact HT.
    * exists (new ++ new1). rewrite Hn, Ht1, <- app_assoc.
      split; [reflexivity|]. split; [rewrite count_app; lia|exact Hnd].
  + exists new1. split; [exact Ht1|]. split; [lia|discriminate].
  + exists new1. split; [exact Ht1|]. split; [lia|exact Hnd1].
Qed.

(** A transcription that began at [since] or later does not stall when
  its rounds take their five seconds. *)
Lemma stalled_never (fuel since : nat) (final : State) :
122 ≤ fuel →
status_rounds_take_five env since (trace final) →
¬ stalled env fuel since final.
Proof.
intros Hfuel Hrounds (path & st0 & Hs & E).
destruct (attempts_rounds fuel path 5 since (trace final) Hrounds
            (seq 0 5) st0 Hs) as (_ & _ & _ & Hnd).
- exists []. unfold transcribe_with_retry in E. now rewrite E.
- apply (Hnd Hfuel). unfold transcribe_with_retry in E. now rewrite E.
Qed.

(** The loop ends without a result only when it has no turn. *)
Lemma attempts_never_none (fuel : nat) (audio_file : string)
(max_retries : nat) :
∀ n a st,
  0 < n → a + n = max_retries →
  (attempts env fuel audio_file max_retries (seq a n) st).1 ≠ Ret None.
Proof.
induction n as [|n IH]; intros a st Hn Ha; [lia|].
cbn [seq]. rewrite attempts_cons.
pose proof (attempt_turn_outcome env fuel audio_file max_retries a st)
  as Ho.
destruct (attempt_turn env fuel audio_file max_retries a st)
  as [[[t|]|e|] s]; cbn [fst] in *; try discriminate.
destruct (try_outcome env fuel audio_file st); try discriminate.
destruct (a <? max_retries - 1) eqn:El; [|discriminate].
apply Nat.ltb_lt in El. apply IH; lia.
Qed.

End RetryTheorems.

(** X4: unless a status loop is still running, [transcribe_with_retry]
    leaves no handle behind without having tried to delete it: it asks
    for as many deletions as its uploads gave handles. *)
Theorem handles_are_deleted (env : Env) (fuel : nat) (audio_file : string)
  (max_retries : nat) (st : State) :
  (transcribe_with_retry env fuel audio_file max_retries st).1 ≠ Div →
  ∃ new,
    trace (transcribe_with_retry env fuel audio_file max_retries st).2
    = new ++ trace st
    ∧ count is_delete new = count is_handle new.
Proof. apply attempts_cleanup. Qed.

(** X5: the pauses between attempts double from 60 seconds: when the
    first [n] attempts fail and the next one returns, or is the last and
    fails as well, the pauses taken are 60, 120, .., 60 * 2 ^ (n - 1)
    seconds, one after each of the [n] failures and none after the
    attempt that ends the call. *)
Theorem backoff_schedule (env : Env) (fuel : nat) (audio_file : string)
  (max_retries n : nat) (st : State) :
  n < max_retries →
  (∀ i, i < n →
     ∃ e, try_outcome env fuel audio_file
            (after_turns env fuel audio_file max_retries 0 i st) = Exc e) →
  ((∃ r, try_outcome env fuel audio_file
           (after_turns env fuel audio_file max_retries 0 n st) = Ret r)
   ∨ (n = max_retries - 1
      ∧ ∃ e, try_outcome env fuel audio_file
               (after_turns env fuel audio_file max_retries 0 n st) = Exc e)) →
  ∃ new,
    trace (transcribe_with_retry env fuel audio_file max_retries st).2
    = new ++ trace st
    ∧ backoffs new = map backoff (seq 0 n).
Proof.
  intros Hn Hfail Hlast.
  destruct (after_turns_backoffs env fuel audio_file max_retries n 0 st
              ltac:(lia) Hfail) as (new & Ht & Hb).
  unfold transcribe_with_retry.
  assert (Hseq : seq 0 max_retries
                 = seq 0 n ++ n :: seq (S n) (max_retries - S n)).
  { replace max_retries with (n + S (max_retries - S n)) at 1 by lia.
    rewrite seq_app. reflexivity. }
  rewrite Hseq.
  rewrite attempts_skip_failures by (lia || exact Hfail).
  rewrite attempts_cons.
  set (s := after_turns env fuel audio_file max_retries 0 n st) in *.
  destruct (attempt_turn_shape env fuel audio_file max_retries n s)
    as (new' & ok & Ht' & _ & Hb' & _).
  pose proof (attempt_turn_outcome env fuel audio_file max_retries n s) as Ho.
  assert (Hstop : ∃ o, (attempt_turn env fuel audio_file max_retries n s).1 = o
                       ∧ o ≠ Ret None
                       ∧ backoffs new' = []).
  { destruct Hlast as [[r Hr]|[Hmax [e He]]].
    - rewrite Hr in Ho. rewrite Ho in Hb'. eexists. split; [exact Ho|].
      split; [discriminate|exact Hb'].
    - rewrite He in Ho.
      assert (Hl : (n <? max_retries - 1) = false)
        by (apply Nat.ltb_ge; lia).
      rewrite Hl in Ho. rewrite Ho in Hb'. eexists. split; [exact Ho|].
      split; [discriminate|exact Hb']. }
  destruct Hstop as (o & Eo & Hnot & Hb0).
  exists (new' ++ [EvUpload audio_file ok] ++ new).
  assert (Hs : (match attempt_turn env fuel audio_file max_retries n s with
                | (Ret (Some t), s0) => (Ret (Some t), s0)
                | (Ret None, s0) =>
                    attempts env fuel audio_file max_retries
                      (seq (S n) (max_retries - S n)) s0
                | (Exc e, s0) => (Exc e, s0)
                | (Div, s0) => (Div, s0)
                end).2
               = (attempt_turn env fuel audio_file max_retries n s).2).
  { destruct (attempt_turn env fuel audio_file max_retries n s)
      as [[[t|]|e|] s0]; try reflexivity.
    cbn [fst] in Eo. subst o. now destruct Hnot. }
  replace (0 + n) with n by lia.
  rewrite Hs, Ht', Ht. split; [now rewrite <- !app_assoc|].
  rewrite !backoffs_app, Hb, Hb0.
  change (backoffs [EvUpload audio_file ok]) with (@nil Z).
  now rewrite !app_nil_r.
Qed.

(** X6: when every round of its status loops takes five seconds or
    more, whatever the time the other calls take, no attempt waits for
    ever: the call makes no more than 121 status requests for each
    attempt allowed, and with 122 rounds of fuel for each status loop
    [transcribe_with_retry] returns or raises. *)
Theorem transcription_ends (env : Env) (fuel : nat) (audio_file : string)
  (max_retries : nat) (st : State) :
  status_rounds_take_five env (step st)
    (trace (transcribe_with_retry env fuel audio_file max_retries st).2) →
  (∃ new,
     trace (transcribe_with_retry env fuel audio_file max_retries st).2
     = new ++ trace st
     ∧ count is_status_request new ≤ 121 * max_retries)
  ∧ (122 ≤ fuel →
     (transcribe_with_retry env fuel audio_file max_retries st).1 ≠ Div).
Proof.
  intros Hrounds. unfold transcribe_with_retry in *.
  destruct (attempts_rounds env fuel audio_file max_retries (step st) _
              Hrounds (seq 0 max_retries) st (Nat.le_refl _))
    as (new & Ht & Hc & Hnd).
  - now exists [].
  - rewrite length_seq in Hc. split; [eauto|exact Hnd].
Qed.

(** X7: whatever the number of attempts allowed, the uploads are no
    more than that number; and the call ends without a result and
    without an error only when no attempt is allowed, in which case it
    asks for nothing. *)
Theorem attempts_within_limit (env : Env) (fuel : nat) (audio_file : string)
  (max_retries : nat) (st : State) :
  (∃ new,
     trace (transcribe_with_retry env fuel audio_file max_retries st).2
     = new ++ trace st
     ∧ count is_upload new ≤ max_retries)
  ∧ ((transcribe_with_retry env fuel audio_file max_retries st).1 = Ret None
     ↔ max_retries = 0)
  ∧ (max_retries = 0 →
     (transcribe_with_retry env fuel audio_file max_retries st).2 = st).
Proof.
  split; [|split].
  - unfold transcribe_with_retry.
    destruct (attempts_trace env fuel audio_file max_retries
                (seq 0 max_retries) st) as (new & Ht & Hn & _).
    exists new. rewrite length_seq in Hn. auto.
  - split; [|intros ->; reflexivity].
    destruct max_retries as [|m]; [reflexivity|]. intros H. exfalso.
    revert H. unfold transcribe_with_retry.
    apply (attempts_never_none env fuel audio_file (S m) (S m) 0);
      [lia|reflexivity].
  - intros ->. reflexivity.
Qed.

(** ** The document store, further *)

Section NotionMore.

Variable env : Env.

(** The method, path by path. *)
Lemma add_to_notion_paths (podcast_name title published summary
                         transcript : string) (st : State) :
add_to_notion env podcast_name title published summary transcript st
= let date := default (today env (step st))
                (parse_date env (step st) published) in
  let data := create_request env podcast_name title date summary
                transcript in
  let r := notion_create env (step st) in
  let st1 := emit (EvCreate data (status_passed r)) st in
  match checked_json r with
  | Ret page =>
      match Py.getitem page "id" with
      | Ret page_id =>
          match Py.get page "url" (JStr "") with
          | Ret page_url =>
              match remaining (chunks transcript) with
              | [] => (Ret page_url, st1)
              | b :: rest =>
                  match append_batches env page_id (batches (b :: rest))
                          st1 with
                  | (Ret _, s) => (Ret page_url, s)
                  | (Exc e, s) => (Exc e, s)
                  | (Div, s) => (Div, s)
                  end
              end
          | Exc e => (Exc e, st1)
          | Div => (Div, st1)
          end
      | Exc e => (Exc e, st1)
      | Div => (Div, st1)
      end
  | Exc e => (Exc e, st1)
  | Div => (Div, st1)
  end.
Proof.
cbv zeta. unfold add_to_notion. rewrite try_bind_first.
assert (Hd : notion_date env published st
             = (Ret (default (today env (step st))
                       (parse_date env (step st) published)), st)).
{ unfold notion_date, try_except.
  destruct (parse_date env (step st) published); reflexivity. }
rewrite Hd. rewrite try_bind_first. unfold post_create.
fold (create_request env podcast_name title
        (default (today env (step st)) (parse_date env (step st) published))
        summary transcript).
destruct (checked_json (notion_create env (step st))) as [page|e|];
  try reflexivity.
rewrite try_bind_first. unfold pure at 1.
destruct (Py.getitem page "id") as [page_id|e|]; try reflexivity.
rewrite try_bind_first. unfold pure at 1.
destruct (Py.get page "url" (JStr "")) as [page_url|e|]; try reflexivity.
rewrite try_bind_first.
destruct (remaining (chunks transcript)) as [|b rest]; [reflexivity|].
destruct (append_batches env page_id (batches (b :: rest)) _)
  as [[[]|e|] s]; reflexivity.
Qed.

(** The append loop stops at the first request that fails: a failed
  request is the newest event, and then the loop raises. *)
Lemma append_batches_stop (page_id : json) :
∀ bs st,
  ∃ new,
    trace (append_batches env page_id bs st).2 = new ++ trace st
    ∧ appended new `prefix_of` bs
    ∧ (((append_batches env page_id bs st).1 = Ret tt
        ∧ appended new = bs
        ∧ Forall (fun ev => ¬ failed_request ev) new)
       ∨ (∃ e ev rest,
            (append_batches env page_id bs st).1 = Exc e
            ∧ new = ev :: rest
            ∧ failed_request ev
            ∧ Forall (fun ev => ¬ failed_request ev) rest)).
Proof.
induction bs as [|b rest IH]; intros st.
- exists []. split; [reflexivity|]. split; [reflexivity|]. left. auto.
- rewrite append_batches_cons. cbv zeta.
  assert (Hfail : ∀ e,
            ∃ new,
              trace (Exc e : outcome unit,
                     emit (EvAppend page_id b false) st).2
              = new ++ trace st
              ∧ appended new `prefix_of` b :: rest
              ∧ (((Exc e : outcome unit,
                   emit (EvAppend page_id b false) st).1 = Ret tt
                  ∧ appended new = b :: rest
                  ∧ Forall (fun ev => ¬ failed_request ev) new)
                 ∨ (∃ e' ev rest',
                      (Exc e : outcome unit,
                       emit (EvAppend page_id b false) st).1 = Exc e'
                      ∧ new = ev :: rest'
                      ∧ failed_request ev
                      ∧ Forall (fun ev => ¬ failed_request ev) rest'))).
  { intros e. exists [EvAppend page_id b false]. split; [reflexivity|].
    split; [apply prefix_cons, prefix_nil|]. right.
    exists e, (EvAppend page_id b false), []. simpl. auto. }
  destruct (notion_append env (step st)) as [|[] body];
    cbn [checked_status status_passed]; [apply Hfail| |apply Hfail].
  destruct (IH (emit (EvSleep 300) (emit (EvAppend page_id b true) st)))
    as (new & Ht & Hpre & Hcases).
  exists (new ++ [EvSleep 300; EvAppend page_id b true]).
  rewrite Ht, <- app_assoc. split; [reflexivity|].
  rewrite appended_app.
  change (appended [EvSleep 300; EvAppend page_id b true]) with [b].
  split; [now apply prefix_cons|].
  assert (Hok : Forall (fun ev => ¬ failed_request ev)
                  [EvSleep 300; EvAppend page_id b true])
    by (repeat constructor; simpl; auto).
  destruct Hcases as [(Hr & Ha & Hn)|(e & ev & rest' & Hr & -> & Hev & Hn)].
  + left. rewrite Hr, Ha. split; [reflexivity|]. split; [reflexivity|].
    apply Forall_app. auto.
  + right. exists e, ev, (rest' ++ [EvSleep 300; EvAppend page_id b true]).
    split; [exact Hr|]. split; [reflexivity|]. split; [exact Hev|].
    apply Forall_app. auto.
Qed.

End NotionMore.

(** X8: when [add_to_notion] returns, the page holds the whole
    transcript: the create request went through, no append failed, and
    the blocks sent, those of the create request and then those of the
    appends in order, are the heading, the divider and the segments of
    the transcript, whose texts in a row are the transcript. *)
Theorem page_holds_transcript (env : Env) (podcast_name title published
  summary transcript : string) (st : State) (url : json) :
  (add_to_notion env podcast_name title published summary transcript st).1
  = Ret url →
  ∃ date apps,
    trace (add_to_notion env podcast_name title published summary
             transcript st).2
    = apps ++ EvCreate (create_request env podcast_name title date summary
                          transcript) true :: trace st
    ∧ Forall (fun ev => ¬ failed_request ev) apps
    ∧ cd_children (create_request env podcast_name title date summary
                     transcript) ++ concat (appended apps)
      = Heading1 "Full Transcript" :: Divider :: chunks transcript
    ∧ PyStr.concat (map block_text (chunks transcript)) = transcript.
Proof.
  intros Hr.
  destruct (add_to_notion_trace env podcast_name title published summary
              transcript st)
    as (date & ok & apps & Ht & _ & _ & Hret & _).
  destruct (Hret url Hr) as (-> & Happ & Hok).
  exists date, apps. split; [exact Ht|]. split; [exact Hok|]. split.
  - rewrite Happ, batches_concat. cbn [create_request cd_children].
    unfold initial_blocks, remaining. rewrite <- app_assoc, take_drop.
    reflexivity.
  - unfold chunks. rewrite map_map. simpl. rewrite map_id.
    apply chunk_texts_concat.
Qed.

(** X9: a date that cannot be parsed does not stop [add_to_notion]: the
    create request is sent with the date of the day. *)
Theorem unparsed_date_is_today (env : Env) (podcast_name title published
  summary transcript : string) (st : State) :
  parse_date env (step st) published = None →
  ∃ ok apps,
    trace (add_to_notion env podcast_name title published summary
             transcript st).2
    = apps ++ EvCreate (create_request env podcast_name title
                          (today env (step st)) summary transcript) ok
              :: trace st.
Proof.
  intros Hp. rewrite add_to_notion_paths. cbv zeta. rewrite Hp.
  cbn [default].
  set (data := create_request env podcast_name title (today env (step st))
                 summary transcript).
  exists (status_passed (notion_create env (step st))).
  destruct (checked_json (notion_create env (step st))) as [page|e|];
    try (exists []; reflexivity).
  destruct (Py.getitem page "id") as [page_id|e|];
    try (exists []; reflexivity).
  destruct (Py.get page "url" (JStr "")) as [page_url|e|];
    try (exists []; reflexivity).
  destruct (remaining (chunks transcript)) as [|b rest];
    [exists []; reflexivity|].
  destruct (append_batches_trace env page_id (batches (b :: rest))
              (emit (EvCreate data
                       (status_passed (notion_create env (step st)))) st))
    as (new & Ht & _).
  exists new.
  destruct (append_batches env page_id (batches (b :: rest)) _)
    as [[[]|e|] s]; exact Ht.
Qed.

(** X10: a reply to the create request that is JSON but has no [id]
    makes [add_to_notion] raise after the page was created: the create
    request is in the trace as passed, and nothing is appended. *)
Theorem page_without_id (env : Env) (podcast_name title published
  summary transcript : string) (st : State) (page : json) (e : exn) :
  notion_create env (step st) = Response true (Some page) →
  Py.getitem page "id" = Exc e →
  ∃ date,
    add_to_notion env podcast_name title published summary transcript st
    = (Exc e,
       emit (EvCreate (create_request env podcast_name title date summary
                         transcript) true) st).
Proof.
  intros Hc Hid. rewrite add_to_notion_paths. cbv zeta. rewrite Hc.
  cbn [checked_json status_passed]. rewrite Hid. eauto.
Qed.

(** X11: [add_to_notion] stops at the first request that fails: a failed
    create or append request is the last thing the call does, and the
    call raises. *)
Theorem failed_request_ends_call (env : Env) (podcast_name title published
  summary transcript : string) (st : State) :
  ∃ new,
    trace (add_to_notion env podcast_name title published summary
             transcript st).2 = new ++ trace st
    ∧ ∀ later ev earlier,
        new = later ++ ev :: earlier →
        failed_request ev →
        later = []
        ∧ ∃ e, (add_to_notion env podcast_name title published summary
                  transcript st).1 = Exc e.
Proof.
  rewrite add_to_notion_paths. cbv zeta.
  set (data := create_request env podcast_name title _ summary transcript).
  assert (Hone : ∀ (o : outcome json) ok,
            (ok = false → ∃ e, o = Exc e) →
            ∃ new,
              trace (o, emit (EvCreate data ok) st).2 = new ++ trace st
              ∧ ∀ later ev earlier,
                  new = later ++ ev :: earlier →
                  failed_request ev →
                  later = [] ∧ ∃ e, (o, emit (EvCreate data ok) st).1 = Exc e).
  { intros o ok Hok. exists [EvCreate data ok]. split; [reflexivity|].
    intros later ev earlier Hsplit Hev.
    destruct later as [|x later].
    - injection Hsplit as <- _. split; [reflexivity|].
      destruct ok; [contradiction|]. now apply Hok.
    - injection Hsplit as _ Hnil. now destruct later. }
  destruct (notion_create env (step st)) as [|[] [page|]] eqn:Eq;
    cbn [checked_json status_passed];
    try (apply Hone; eauto; fail).
  destruct (Py.getitem page "id") as [page_id|e|];
    try (apply Hone; intros [=]; fail).
  destruct (Py.get page "url" (JStr "")) as [page_url|e|];
    try (apply Hone; intros [=]; fail).
  destruct (remaining (chunks transcript)) as [|b rest];
    [apply Hone; intros [=]|].
  destruct (append_batches_stop env page_id (batches (b :: rest))
              (emit (EvCreate data true) st))
    as (new & Ht & _ & Hcases).
  exists (new ++ [EvCreate data true]).
  destruct (append_batches env page_id (batches (b :: rest)) _)
    as [o s] eqn:E. cbn [fst snd] in *.
  assert (Hs : trace (match o with
                      | Ret _ => (Ret page_url, s)
                      | Exc e => (Exc e, s)
                      | Div => (Div, s)
                      end).2 = (new ++ [EvCreate data true]) ++ trace st).
  { rewrite <- app_assoc. destruct o; exact Ht. }
  split; [exact Hs|].
  intros later ev earlier Hsplit Hev.
  destruct Hcases as [(_ & _ & Hn)|(e & ev' & rest' & -> & -> & Hev' & Hn)].
  - exfalso.
    assert (Hin : ev ∈ new ++ [EvCreate data true]).
    { rewrite Hsplit. apply elem_of_app. right. apply elem_of_cons. auto. }
    apply elem_of_app in Hin as [Hin|Hin].
    + rewrite Forall_forall in Hn. now apply Hn in Hin.
    + apply list_elem_of_singleton in Hin. now subst.
  - split; [|eauto].
    destruct later as [|x later]; [reflexivity|]. exfalso.
    injection Hsplit as _ Hrest.
    assert (Hin : ev ∈ rest' ++ [EvCreate data true]).
    { rewrite Hrest. apply elem_of_app. right. apply elem_of_cons. auto. }
    apply elem_of_app in Hin as [Hin|Hin].
    + rewrite Forall_forall in Hn. now apply Hn in Hin.
    + apply list_elem_of_singleton in Hin. now subst.
Qed.

(** ** The episode processor, further *)

Section ProcessMore.

Variable env : Env.

(** Only the transcription can keep the [try] block from ending. *)
Lemma guarded_body_stalled (fuel : nat) (podcast_name : string)
(entry : Entry) (st : State) :
(guarded_body env fuel podcast_name entry st).1 = Div →
stalled env fuel (step st) (guarded_body env fuel podcast_name entry st).2.
Proof.
intros H.
destruct (guarded_body env fuel podcast_name entry st) as [o s'] eqn:E.
cbn [fst snd] in *. subst o. pose proof E as E0.
unfold guarded_body, process_body in E. rewrite try_bind_first in E.
unfold pure at 1 in E.
destruct (audio_url entry) as [[[|c url']|]|e|] eqn:Eu; try discriminate E.
2: { now apply audio_url_no_div in Eu. }
rewrite try_bind_first in E. unfold requests_get at 1 in E.
destruct (http_get env (step st)) as [|[] body] eqn:Eg;
  cbn [checked_status status_passed] in E; try discriminate E.
rewrite try_bind_first in E. unfold open_wb at 1 in E.
change (step (emit (EvDownload (String c url') true) st))
  with (S (step st)) in E.
destruct (fs_open env (S (step st))) eqn:Eo; [|discriminate E].
rewrite try_bind_first in E. unfold write_stream at 1 in E.
change (step (set_files _ (emit (EvOpen _ true) _)))
  with (S (S (step st))) in E.
destruct (stream_ok env (S (S (step st)))) eqn:Es; [|discriminate E].
clear E.
rewrite (guarded_body_stages env fuel podcast_name entry
           (String c url') st Eu) in E0; [|discriminate|].
2: { split; [now rewrite Eg|auto]. }
destruct (transcribe_with_retry env fuel (temp_path_of env st) 5
            (downloaded (String c url') (temp_path_of env st) st))
  as [[[r|]|e|] st1] eqn:Et; try discriminate E0.
- exfalso.
  destruct (add_to_notion_trace env podcast_name (entry_title entry)
              (default "" (e_published entry)) (summary r) (transcript r)
              st1) as (_ & _ & _ & _ & _ & _ & _ & Hnd & _).
  destruct (add_to_notion env podcast_name (entry_title entry)
              (default "" (e_published entry)) (summary r) (transcript r)
              st1) as [[u|e|] st2]; cbn [fst] in Hnd.
  + destruct (Py.add (processed_episodes_cache st2)
                (JStr (entry_title entry))); discriminate E0.
  + discriminate E0.
  + now destruct Hnd.
- injection E0 as <-.
  exists (temp_path_of env st),
    (downloaded (String c url') (temp_path_of env st) st).
  split; [unfold step; simpl; lia|exact Et].
Qed.

Lemma process_episode_stalled (fuel : nat) (podcast_name : string)
(entry : Entry) (st : State) :
(process_episode env fuel podcast_name entry st).1 = Div →
stalled env fuel (step st)
  (process_episode env fuel podcast_name entry st).2.
Proof.
destruct (Py.contains (processed_episodes_cache st)
            (JStr (entry_title entry))) eqn:Hc.
- now rewrite (process_episode_skip env fuel podcast_name entry st Hc).
- rewrite (process_episode_unfold env fuel podcast_name entry st Hc).
  pose proof (guarded_body_stalled fuel podcast_name entry st) as Hg.
  destruct (guarded_body env fuel podcast_name entry st) as [[b|e|] s'];
    cbn [fst snd] in *; [discriminate|discriminate|].
  intros _. now apply Hg.
Qed.

Lemma process_episode_returns (fuel : nat) (podcast_name : string)
(entry : Entry) (st : State) :
122 ≤ fuel →
status_rounds_take_five env (step st)
  (trace (process_episode env fuel podcast_name entry st).2) →
∃ b, (process_episode env fuel podcast_name entry st).1 = Ret b.
Proof.
intros Hfuel Hrounds.
destruct (process_episode_post env fuel podcast_name entry st)
  as (Hne & _).
destruct (process_episode env fuel podcast_name entry st).1
  as [b|e|] eqn:E; [eauto|now destruct (Hne e)|].
apply process_episode_stalled in E.
now apply stalled_never in E.
Qed.

(** What a call adds to the ledger. *)
Lemma process_episode_ledger (fuel : nat) (podcast_name : string)
(entry : Entry) (st : State) :
processed_episodes_cache (process_episode env fuel podcast_name entry st).2
= processed_episodes_cache st
  ++ match (process_episode env fuel podcast_name entry st).1 with
     | Ret true => [JStr (entry_title entry)]
     | _ => []
     end.
Proof.
destruct (process_episode_post env fuel podcast_name entry st)
  as (_ & Hsame & new & _ & _ & Htrue).
destruct (Py.contains (processed_episodes_cache st)
            (JStr (entry_title entry))) eqn:Hc.
{ rewrite (process_episode_skip env fuel podcast_name entry st Hc).
  simpl. now rewrite app_nil_r. }
destruct (process_episode env fuel podcast_name entry st).1
  as [[]|e|] eqn:E;
  try (rewrite app_nil_r; apply Hsame; discriminate).
destruct (Htrue eq_refl) as [Hadd _].
unfold Py.add in Hadd. cbn [Py.hashable] in Hadd. rewrite Hc in Hadd.
now injection Hadd as <-.
Qed.

End ProcessMore.

(** X12: when every round of the status loops of the call takes five
    seconds or more, whatever the time the download and the other calls
    take, and with 122 rounds of fuel, [process_episode] returns true or
    false for every entry, in every state and whatever the services
    answer. *)
Theorem process_episode_always_returns (env : Env) (fuel : nat)
  (podcast_name : string) (entry : Entry) (st : State) :
  122 ≤ fuel →
  status_rounds_take_five env (step st)
    (trace (process_episode env fuel podcast_name entry st).2) →
  ∃ b, (process_episode env fuel podcast_name entry st).1 = Ret b.
Proof. apply process_episode_returns. Qed.

(** X13: the ledger is only added to, at its end, and by one title at
    most: after a call it is the ledger before the call, followed by the
    title of the entry exactly when the call returned true. *)
Theorem ledger_gains_the_title (env : Env) (fuel : nat)
  (podcast_name : string) (entry : Entry) (st : State) :
  processed_episodes_cache (process_episode env fuel podcast_name entry st).2
  = processed_episodes_cache st
    ++ match (process_episode env fuel podcast_name entry st).1 with
       | Ret true => [JStr (entry_title entry)]
       | _ => []
       end.
Proof. apply process_episode_ledger. Qed.

(** X14: an episode is processed once in a run: after a call that
    returned true, a call for an entry of the same title, from any feed
    and whatever the services answer then, is a skip that leaves the
    state as it is. *)
Theorem second_call_is_skipped (env : Env) (fuel : nat)
  (podcast_name : string) (entry : Entry) (st : State) :
  (process_episode env fuel podcast_name entry st).1 = Ret true →
  ∀ env' fuel' podcast_name' entry',
    entry_title entry' = entry_title entry →
    process_episode env' fuel' podcast_name' entry'
      (process_episode env fuel podcast_name entry st).2
    = (Ret false, (process_episode env fuel podcast_name entry st).2).
Proof.
  intros Ht env' fuel' podcast_name' entry' Htitle.
  apply process_episode_skip. rewrite Htitle.
  destruct (process_episode_post env fuel podcast_name entry st)
    as (_ & _ & new & _ & _ & Htrue).
  destruct (Htrue Ht) as [Hadd _]. exact (add_contains _ _ _ Hadd).
Qed.

(** X15: an entry without a usable audio URL costs nothing: when its
    enclosures and links give no URL or an empty one, and no file has
    the name of the temporary file, the call returns false in the state
    it started in. *)
Theorem no_audio_no_effect (env : Env) (fuel : nat) (podcast_name : string)
  (entry : Entry) (st : State) :
  (∀ c url, audio_url entry ≠ Ret (Some (String c url))) →
  temp_path_of env st ∉ files st →
  process_episode env fuel podcast_name entry st = (Ret false, st).
Proof.
  intros Hu Hf.
  destruct (Py.contains (processed_episodes_cache st)
              (JStr (entry_title entry))) eqn:Hc.
  - now apply process_episode_skip.
  - rewrite (process_episode_unfold env fuel podcast_name entry st Hc).
    rewrite (guarded_body_no_url env fuel podcast_name entry st Hu).
    unfold cleanup, bind, os_path_exists. simpl.
    now rewrite bool_decide_eq_false_2.
Qed.

(** X16: the scan of the links stops at the first link whose type has
    [audio] in it, in any case of the letters: the links before it have
    no such type, and its [href], present or not, is the result; without
    such a link there is no result. *)
Theorem first_audio_link_is_first (links : list link) :
  (∃ before l after,
     links = before ++ l :: after
     ∧ Forall (fun l' => PyStr.contains "audio"
                           (PyStr.lower (default "" (link_type l')))
                         = false) before
     ∧ PyStr.contains "audio" (PyStr.lower (default "" (link_type l))) = true
     ∧ first_audio_link links = link_href l)
  ∨ (Forall (fun l' => PyStr.contains "audio"
                         (PyStr.lower (default "" (link_type l')))
                       = false) links
     ∧ first_audio_link links = None).
Proof.
  induction links as [|l rest IH].
  - right. split; [constructor|reflexivity].
  - cbn [first_audio_link].
    destruct (PyStr.contains "audio" (PyStr.lower (default "" (link_type l))))
      eqn:E.
    + left. exists [], l, rest. split; [reflexivity|].
      split; [constructor|]. auto.
    + destruct IH as [(before & l' & after & -> & Hb & Hl & Hr)|[Hall Hr]].
      * left. exists (l :: before), l', after. split; [reflexivity|].
        split; [now constructor|]. auto.
      * right. split; [now constructor|exact Hr].
Qed.

(** ** Configuration, storage cleanup, start and main loop *)

Lemma deletions_app (a b : list event) :
  deletions (a ++ b) = deletions b ++ deletions a.
Proof. unfold deletions. now rewrite reverse_app, omap_app. Qed.

Section StartAndRun.

Variable env : Env.

(** The loop of lines 43-47 asks for every handle in turn, whatever the
  answers. *)
Lemma delete_each (listed : list gfile) :
∀ st,
  ∃ new,
    for_each listed (fun f => try_pass (genai_delete_file env (gname f))) st
    = (Ret tt,
       {| trace := new ++ trace st;
          files := files st;
          processed_episodes_cache := processed_episodes_cache st |})
    ∧ deletions new = map gname listed
    ∧ length new = length listed.
Proof.
induction listed as [|f rest IH]; intros st.
- exists []. destruct st. auto.
- cbn [for_each]. unfold bind at 1.
  assert (Hone : ∃ ok,
            try_pass (genai_delete_file env (gname f)) st
            = (Ret tt, emit (EvDeleteFile (gname f) ok) st)).
  { unfold try_pass, try_except, genai_delete_file.
    destruct (genai_delete env (step st)); eauto. }
  destruct Hone as [ok ->].
  destruct (IH (emit (EvDeleteFile (gname f) ok) st))
    as (new & -> & Hd & Hl).
  exists (new ++ [EvDeleteFile (gname f) ok]). split.
  + simpl. now rewrite <- app_assoc.
  + rewrite deletions_app, Hd, length_app, Hl. simpl. split; [auto|lia].
Qed.

Lemma force_clear_spec (list_files : nat → option (list gfile))
(st : State) :
∃ new,
  force_clear_api_storage env list_files st
  = (Ret tt,
     {| trace := new ++ trace st;
        files := files st;
        processed_episodes_cache := processed_episodes_cache st |})
  ∧ deletions new = map gname (default [] (list_files (step st)))
  ∧ length new = length (default [] (list_files (step st))).
Proof.
unfold force_clear_api_storage. rewrite try_bind_first.
destruct (list_files (step st)) as [[|f rest]|].
- exists []. destruct st. auto.
- destruct (delete_each (f :: rest) st) as (new & E & Hd & Hl).
  exists new. unfold try_except. rewrite E. auto.
- exists []. destruct st. auto.
Qed.

(** One turn of the loop over the entries. *)
Lemma run_entry_eq (fuel : nat) (podcast_name : string) (entry : Entry)
(s : State) (n : nat) :
run_entry env fuel podcast_name entry (s, n)
= match process_episode env fuel podcast_name entry s with
  | (Ret true, s') => (Ret tt, (emit (EvSleep 5000) s', S n))
  | (Ret false, s') => (Ret tt, (s', n))
  | (Exc e, s') => (Exc e, (s', n))
  | (Div, s') => (Div, (s', n))
  end.
Proof.
unfold run_entry, bind, outer. cbn [fst snd].
destruct (process_episode env fuel podcast_name entry s)
  as [[[]|e|] s']; reflexivity.
Qed.

Lemma stalled_since (fuel since since' : nat) (final : State) :
since ≤ since' →
stalled env fuel since' final → stalled env fuel since final.
Proof.
intros Hle (path & st0 & Hs & E). exists path, st0. split; [lia|exact E].
Qed.

Lemma counted_loop {X : Type} (fuel m : nat) (body : X → M run_frame unit) :
(∀ x sl, counted env fuel m sl (body x sl)) →
∀ xs sl, counted env fuel (m * length xs) sl (for_each xs body sl).
Proof.
intros Hbody. induction xs as [|x rest IH]; intros sl.
- unfold counted. cbn [for_each ret fst snd length].
  split; [discriminate|]. split; [lia|]. split; [lia|].
  split; [lia|discriminate].
- cbn [for_each]. unfold bind at 1.
  destruct (Hbody x sl) as (Hne & Hn & Hl & Hs & Hd).
  unfold counted in *.
  cbn [length]. rewrite Nat.mul_succ_r.
  destruct (body x sl) as [[[]|e|] sl1]; cbn [fst snd] in *.
  + destruct (IH sl1) as (Hne' & Hn' & Hl' & Hs' & Hd').
    split; [exact Hne'|]. split; [lia|]. split; [lia|]. split; [lia|].
    intros Hdiv. apply (stalled_since fuel _ (step sl1.1)); auto.
  + now destruct (Hne e).
  + split; [discriminate|]. cbn [fst snd].
    split; [lia|]. split; [lia|]. split; [lia|exact Hd].
Qed.

Lemma run_entry_counted (fuel : nat) (podcast_name : string)
(entry : Entry) (sl : run_frame) :
counted env fuel 1 sl (run_entry env fuel podcast_name entry sl).
Proof.
destruct sl as [s n]. rewrite run_entry_eq.
pose proof (process_episode_ledger env fuel podcast_name entry s) as Hl.
destruct (process_episode_post env fuel podcast_name entry s)
  as (Hne & _ & new & Ht & _).
pose proof (process_episode_stalled env fuel podcast_name entry s) as Hd.
assert (Hs : step s
             ≤ step (process_episode env fuel podcast_name entry s).2)
  by (unfold step; rewrite Ht, length_app; lia).
unfold counted.
destruct (process_episode env fuel podcast_name entry s)
  as [[[]|e|] s']; cbn [fst snd] in *.
- split; [discriminate|]. split; [lia|]. split.
  + simpl. rewrite Hl, length_app. simpl. lia.
  + split; [unfold step in *; simpl; lia|discriminate].
- split; [discriminate|]. split; [lia|]. split.
  + rewrite Hl, app_nil_r. lia.
  + split; [exact Hs|discriminate].
- now destruct (Hne e).
- split; [discriminate|]. split; [lia|]. split.
  + rewrite Hl, app_nil_r. lia.
  + split; [exact Hs|]. intros _. now apply Hd.
Qed.

Lemma run_feed_counted (parse : nat → json → option Feed) (fuel : nat)
(feed_url : json) (sl : run_frame) :
counted env fuel 10 sl (run_feed env parse fuel feed_url sl).
Proof.
assert (Hstay : counted env fuel 10 sl (Ret tt, sl)).
{ unfold counted. cbn [fst snd].
  split; [discriminate|]. split; [lia|]. split; [lia|].
  split; [lia|discriminate]. }
unfold run_feed. rewrite try_bind_first.
destruct (parse (step sl.1) feed_url) as [feed|]; [|exact Hstay].
destruct (feed_entries feed) as [|entry rest] eqn:Ee; [exact Hstay|].
pose proof (counted_loop fuel 1 _
              (run_entry_counted fuel (default "Unknown" (feed_title feed)))
              (take 10 (entry :: rest)) sl) as (Hne & Hn & Hl & Hs & Hd).
assert (Hten : length (take 10 (entry :: rest)) ≤ 10)
  by (rewrite length_take; lia).
unfold try_except, counted in *.
destruct (for_each (take 10 (entry :: rest)) _ sl) as [[[]|e|] sl1];
  cbn [fst snd] in *.
- split; [discriminate|]. split; [lia|]. split; [lia|].
  split; [exact Hs|discriminate].
- now destruct (Hne e).
- split; [discriminate|]. split; [lia|]. split; [lia|].
  split; [exact Hs|exact Hd].
Qed.

Lemma run_loop_counted (parse : nat → json → option Feed) (fuel : nat)
(rss_feeds : json) (urls : list json) (st : State) :
Py.iter rss_feeds = Ret urls →
(∀ e, (run_loop env parse fuel rss_feeds st).1 ≠ Exc e)
∧ (∀ total,
     (run_loop env parse fuel rss_feeds st).1 = Ret total →
     total ≤ 10 * length urls
     ∧ length (processed_episodes_cache
                 (run_loop env parse fuel rss_feeds st).2)
       = length (processed_episodes_cache st) + total)
∧ ((run_loop env parse fuel rss_feeds st).1 = Div →
   stalled env fuel (step st) (run_loop env parse fuel rss_feeds st).2).
Proof.
intros Hi.
assert (E : run_loop env parse fuel rss_feeds st
            = match for_each urls (run_feed env parse fuel) (st, 0) with
              | (Ret _, (s, n)) => (Ret n, s)
              | (Exc e, (s, _)) => (Exc e, s)
              | (Div, (s, _)) => (Div, s)
              end).
{ unfold run_loop, with_local. unfold bind at 1. unfold pure at 1.
  rewrite Hi. unfold bind at 1.
  destruct (for_each urls (run_feed env parse fuel) (st, 0))
    as [[[]|e|] [s n]]; reflexivity. }
rewrite E. clear E.
pose proof (counted_loop fuel 10 _ (run_feed_counted parse fuel) urls
              (st, 0)) as (Hne & Hn & Hl & Hs & Hd).
destruct (for_each urls (run_feed env parse fuel) (st, 0))
  as [[[]|e|] [s n]]; cbn [fst snd] in *.
- split; [discriminate|]. split; [|discriminate].
  intros total [= <-]. split; lia.
- now destruct (Hne e).
- split; [discriminate|]. split; [discriminate|]. intros _. now apply Hd.
Qed.

(** The start, step by step. *)
Lemma init_paths (list_files : nat → option (list gfile)) (p : Process)
(fuel : nat) (st : State) :
init env list_files p fuel st
= match load_env_configs p with
  | Ret config =>
      let s1 := (force_clear_api_storage env list_files st).2 in
      match load_processed_episodes_from_notion env fuel s1 with
      | (Ret cache, s2) => (Ret config, set_cache cache s2)
      | (Exc e, s2) => (Exc e, s2)
      | (Div, s2) => (Div, s2)
      end
  | Exc e => (Exc e, st)
  | Div => (Div, st)
  end.
Proof.
unfold init. unfold bind at 1. unfold pure at 1.
destruct (load_env_configs p) as [config|e|]; try reflexivity.
unfold bind at 1.
destruct (force_clear_spec list_files st) as (new & -> & _).
cbn [snd]. unfold bind at 1.
destruct (load_processed_episodes_from_notion env fuel _)
  as [[cache|e|] s2]; reflexivity.
Qed.

End StartAndRun.

(** X17: the storage cleanup never raises and never stops half way: it
    asks once for the deletion of every handle the listing gave, in the
    order of the listing and whatever the answers, and for nothing when
    the listing fails; files and ledger are as they were. *)
Theorem storage_cleanup_asks_for_all (env : Env)
  (list_files : nat → option (list gfile)) (st : State) :
  ∃ new,
    force_clear_api_storage env list_files st
    = (Ret tt,
       {| trace := new ++ trace st;
          files := files st;
          processed_episodes_cache := processed_episodes_cache st |})
    ∧ deletions new = map gname (default [] (list_files (step st)))
    ∧ length new = length (default [] (list_files (step st))).
Proof. apply force_clear_spec. Qed.

(** X18: the credentials are checked before the configuration file is
    read: when one of the three variables is not set or is empty,
    [load_env_configs] raises the error of the missing variables,
    whatever [config.json] holds. *)
Theorem credentials_checked_first (p : Process) (name : string) :
  In name required_variables →
  set_variable (environ p name) = false →
  load_env_configs p = Exc missing_variables.
Proof.
  intros Hin Hset. unfold load_env_configs.
  destruct Hin as [<-|[<-|[<-|[]]]]; rewrite Hset;
    rewrite ?andb_false_r; reflexivity.
Qed.

(** X19: a configuration that loads is complete: the three variables
    are set to the strings kept, none of them empty, and the list of
    feeds is the [rss_feeds] entry of the JSON object in [config.json]. *)
Theorem loaded_config_is_complete (p : Process) (c : Config) :
  load_env_configs p = Ret c →
  environ p "GEMINI_API_KEY" = Some (gemini_key c)
  ∧ environ p "NOTION_API_KEY" = Some (notion_token c)
  ∧ environ p "NOTION_DATABASE_ID" = Some (config_database_id c)
  ∧ gemini_key c ≠ "" ∧ notion_token c ≠ "" ∧ config_database_id c ≠ ""
  ∧ ∃ config,
      config_json p = Some (Some config)
      ∧ Py.getitem config "rss_feeds" = Ret (rss_feeds c).
Proof.
  unfold load_env_configs.
  destruct (environ p "GEMINI_API_KEY") as [[|a g]|]; try discriminate.
  destruct (environ p "NOTION_API_KEY") as [[|b t]|]; try discriminate.
  destruct (environ p "NOTION_DATABASE_ID") as [[|d i]|]; try discriminate.
  cbn [set_variable andb negb default].
  destruct (config_json p) as [[config|]|]; try discriminate.
  destruct (Py.getitem config "rss_feeds") as [feeds|e|] eqn:E;
    try discriminate.
  intros [= <-]. cbn. repeat (split; [congruence|]). eauto.
Qed.

(** X20: the start fails only through its configuration: when the
    constructor raises, [load_env_configs] raised that error, and
    nothing was asked of any service; a failing storage cleanup or
    ledger load never stops the start. *)
Theorem start_fails_only_on_configuration (env : Env)
  (list_files : nat → option (list gfile)) (p : Process) (fuel : nat)
  (st : State) (e : exn) :
  (init env list_files p fuel st).1 = Exc e →
  load_env_configs p = Exc e
  ∧ (init env list_files p fuel st).2 = st.
Proof.
  rewrite init_paths.
  destruct (load_env_configs p) as [config|e'|]; cbn [fst snd].
  - cbv zeta.
    destruct (load_processed_episodes_from_notion env fuel
                (force_clear_api_storage env list_files st).2)
      as [[cache|e'|] s2] eqn:El; cbn [fst]; try discriminate.
    intros _. exfalso.
    assert (Hne : (load_processed_episodes_from_notion env fuel
                     (force_clear_api_storage env list_files st).2).1
                  ≠ Exc e').
    { unfold load_processed_episodes_from_notion, try_except.
      destruct (query_loop env fuel [] (JBool true) JNull _)
        as [[a|e''|] s]; simpl; discriminate. }
    rewrite El in Hne. now destruct Hne.
  - intros [= ->]. auto.
  - discriminate.
Qed.

(** X21: what the ledger load read at the start is skipped in the run:
    when the configuration loads and the pages of the ledger are all
    answered, an entry whose title is that of a record of one of the
    pages makes [process_episode] return false in the state the start
    left, whatever the services answer then. *)
Theorem recorded_episode_is_skipped (env : Env)
  (list_files : nat → option (list gfile)) (p : Process) (fuel k : nat)
  (st : State) (c : Config) (last : json) :
  load_env_configs p = Ret c →
  k < fuel →
  pages_continue env
    (step (force_clear_api_storage env list_files st).2) k →
  notion_query env
    (step (force_clear_api_storage env list_files st).2 + k)
  = Response true (Some last) →
  page_ends last = true →
  (init env list_files p fuel st).1 = Ret c
  ∧ ∀ i page entry env' fuel' podcast_name,
      i ≤ k →
      In page (records_at env
                 (step (force_clear_api_storage env list_files st).2 + i)) →
      (episode_title page tt).1 = Ret (Some (JStr (entry_title entry))) →
      process_episode env' fuel' podcast_name entry
        (init env list_files p fuel st).2
      = (Ret false, (init env list_files p fuel st).2).
Proof.
  intros Hc Hk Hp Hq He. rewrite init_paths, Hc. cbv zeta.
  set (s1 := (force_clear_api_storage env list_files st).2) in *.
  pose proof (load_complete env fuel k s1 last Hk Hp Hq He) as Hl.
  destruct (load_processed_episodes_from_notion env fuel s1)
    as [o s2]. cbn [fst] in Hl. subst o. cbn [fst snd].
  split; [reflexivity|].
  intros i page entry env' fuel' podcast_name Hi Hin Ht.
  apply process_episode_skip. cbn [set_cache processed_episodes_cache].
  apply (accumulated_holds_record env (S k) _ _ i page _);
    [lia| |exact Hin|exact Ht].
  intros j Hj. destruct (decide (j = k)) as [->|Hne]; [eauto|].
  destruct (Hp j ltac:(lia)) as (data & Hd & _). eauto.
Qed.

(** X22: [run] never raises when the feeds can be iterated, and the
    count it reports is the number of titles the run added to the
    ledger, at most ten for each feed. *)
Theorem run_counts_new_episodes (env : Env)
  (parse : nat → json → option Feed) (fuel : nat) (rss_feeds : json)
  (urls : list json) (st : State) :
  Py.iter rss_feeds = Ret urls →
  (∀ e, (run_loop env parse fuel rss_feeds st).1 ≠ Exc e)
  ∧ ∀ total,
      (run_loop env parse fuel rss_feeds st).1 = Ret total →
      total ≤ 10 * length urls
      ∧ length (processed_episodes_cache
                  (run_loop env parse fuel rss_feeds st).2)
        = length (processed_episodes_cache st) + total.
Proof.
  intros Hi.
  destruct (run_loop_counted env parse fuel rss_feeds urls st Hi)
    as (Hne & Hc & _). auto.
Qed.

(** X23: when every round of the status loops of the run takes five
    seconds or more, whatever the time the other calls take, and with
    122 rounds of fuel, [run] comes to its end and reports a count,
    whatever the feeds and the services answer. *)
Theorem run_comes_to_an_end (env : Env)
  (parse : nat → json → option Feed) (fuel : nat) (rss_feeds : json)
  (urls : list json) (st : State) :
  Py.iter rss_feeds = Ret urls →
  122 ≤ fuel →
  status_rounds_take_five env (step st)
    (trace (run_loop env parse fuel rss_feeds st).2) →
  ∃ total, (run_loop env parse fuel rss_feeds st).1 = Ret total.
Proof.
  intros Hi Hfuel Hrounds.
  destruct (run_loop_counted env parse fuel rss_feeds urls st Hi)
    as (Hne & _ & Hd).
  destruct (run_loop env parse fuel rss_feeds st).1 as [total|e|] eqn:E;
    [eauto|now destruct (Hne e)|].
  specialize (Hd eq_refl). now apply stalled_never in Hd.
Qed.

(** * The statements at sample inputs *)

Lemma load_never_raises_witness :
  pages_continue second_page_unreadable (step empty_state) 1
  ∧ reply_breaks (notion_query second_page_unreadable (step empty_state + 1))
    = true
  ∧ failed_reply (notion_query second_page_unreadable (step empty_state + 1))
    = false
  ∧ (load_processed_episodes_from_notion second_page_unreadable 5
       empty_state).1 = Ret []
  ∧ identity_field (JObj [("properties", JObj [])]) = None
  ∧ record_page [JStr "Episode 1"] (JObj [("properties", JObj [])])
      empty_state
    = (Ret [JStr "Episode 1"], empty_state)
  ∧ identity_field (record_holding JNull) = Some JNull
  ∧ record_page [JStr "Episode 1"] (record_holding JNull) empty_state
    = (Ret [JStr "Episode 1"; JNull], empty_state).
Proof.
  assert (Hp : pages_continue second_page_unreadable (step empty_state) 1).
  { intros i Hi. destruct i; [|exfalso; lia]. eexists. split; reflexivity. }
  pose proof (load_never_raises second_page_unreadable 5 empty_state)
    as (_ & Hbreak & _ & _ & Hrecord).
  split; [exact Hp|]. split; [reflexivity|]. split; [reflexivity|].
  split; [exact (Hbreak 1 ltac:(lia) Hp eq_refl)|].
  split; [reflexivity|].
  split; [exact (proj1 (Hrecord [JStr "Episode 1"]
                          (JObj [("properties", JObj [])])) eq_refl)|].
  split; [reflexivity|].
  exact (proj2 (proj2 (Hrecord [JStr "Episode 1"] (record_holding JNull)))
           JNull eq_refl eq_refl).
Defined.

Lemma transcribe_five_attempts_witness :
  (∀ k, k < 4 →
     ∃ e, try_outcome four_failures 3 "temp_1.mp3"
            (after_turns four_failures 3 "temp_1.mp3" 5 0 k empty_state)
          = Exc e)
  ∧ try_outcome four_failures 3 "temp_1.mp3"
      (after_turns four_failures 3 "temp_1.mp3" 5 0 4 empty_state)
    = Ret {| summary := "Two hosts talk."; transcript := " Two hosts talk. " |}
  ∧ (transcribe_with_retry four_failures 3 "temp_1.mp3" 5 empty_state).1
    = Ret (Some {| summary := "Two hosts talk.";
                   transcript := " Two hosts talk. " |}).
Proof.
  assert (Hf : ∀ k, k < 4 →
            ∃ e, try_outcome four_failures 3 "temp_1.mp3"
                   (after_turns four_failures 3 "temp_1.mp3" 5 0 k empty_state)
                 = Exc e).
  { intros k Hk.
    destruct k as [|[|[|[|k]]]];
      [exists ClientError; vm_compute; reflexivity..|exfalso; lia]. }
  assert (Hs : try_outcome four_failures 3 "temp_1.mp3"
                 (after_turns four_failures 3 "temp_1.mp3" 5 0 4 empty_state)
               = Ret {| summary := "Two hosts talk.";
                        transcript := " Two hosts talk. " |})
    by (vm_compute; reflexivity).
  split; [exact Hf|]. split; [exact Hs|].
  exact (proj1 (proj2 (transcribe_five_attempts four_failures 3 "temp_1.mp3"
                         empty_state) Hf) _ Hs).
Defined.

Lemma summary_truncated_witness :
  2000 < String.length long_summary
  ∧ String.length (trim_summary long_summary) = 2000.
Proof.
  assert (H : 2000 < String.length long_summary)
    by (apply Nat.ltb_lt; vm_compute; reflexivity).
  split; [exact H|].
  exact (proj1 (proj2 (proj2 (summary_truncated long_summary H)))).
Defined.

Lemma known_entry_skipped_witness :
  Py.contains (processed_episodes_cache seen_state)
    (JStr (entry_title sample_entry)) = true
  ∧ process_episode calm 3 "Creator Talk" sample_entry seen_state
    = (Ret false, seen_state).
Proof.
  split; [reflexivity|].
  exact (proj1 (known_entry_skipped calm 3 "Creator Talk" sample_entry
                  seen_state eq_refl)).
Defined.


Lemma temp_file_removed_witness :
  Py.contains (processed_episodes_cache empty_state)
    (JStr (entry_title sample_entry)) = false
  ∧ (process_episode calm 3 "Creator Talk" sample_entry empty_state).1
    = Ret true
  ∧ (∀ n, fs_remove calm n = true)
  ∧ files (process_episode calm 3 "Creator Talk" sample_entry empty_state).2
      ⊆ files empty_state ∪ {[temp_path_of calm empty_state]}
  ∧ (temp_path_of calm empty_state
       ∉ files (process_episode calm 3 "Creator Talk" sample_entry
                  empty_state).2)
  ∧ (process_episode (with_remove (fun _ => false) calm) 3 "Creator Talk"
       sample_entry empty_state).1 = Ret true.
Proof.
  assert (Hr : (process_episode calm 3 "Creator Talk" sample_entry
                  empty_state).1 = Ret true) by (vm_compute; reflexivity).
  pose proof (temp_file_removed calm 3 "Creator Talk" sample_entry
                empty_state) as (_ & Hreturn & Hsame).
  destruct (Hreturn eq_refl true Hr) as (Hsub & _ & Hgone).
  split; [reflexivity|]. split; [exact Hr|]. split; [reflexivity|].
  split; [exact Hsub|]. split; [exact (Hgone (fun _ => eq_refl))|].
  rewrite (Hsame (fun _ => false)). exact Hr.
Defined.

Lemma untitled_entries_share_identity_witness :
  e_title untitled_entry = None
  ∧ (process_episode calm 3 "Creator Talk" untitled_entry empty_state).1
    = Ret true
  ∧ process_episode calm 3 "Creator Talk" untitled_entry
      (process_episode calm 3 "Creator Talk" untitled_entry empty_state).2
    = (Ret false,
       (process_episode calm 3 "Creator Talk" untitled_entry empty_state).2).
Proof.
  assert (Hr : (process_episode calm 3 "Creator Talk" untitled_entry
                  empty_state).1 = Ret true) by (vm_compute; reflexivity).
  split; [reflexivity|]. split; [exact Hr|].
  apply (proj2 (proj1 (proj2 (proj2
           (untitled_entries_share_identity calm 3 "Creator Talk"
              untitled_entry untitled_entry empty_state eq_refl eq_refl)))
           Hr)).
  intros x Hx. exact Hx.
Defined.

Lemma appends_only_beyond_98_witness :
  String.length "A short talk." ≤ 98 * 2000
  ∧ ∃ new,
      trace (add_to_notion calm "Creator Talk" "Episode 1" "" "A summary."
               "A short talk." empty_state).2 = new ++ trace empty_state
      ∧ count is_create new = 1
      ∧ count is_append new = 0.
Proof.
  assert (H : String.length "A short talk." ≤ 98 * 2000)
    by (apply Nat.leb_le; vm_compute; reflexivity).
  split; [exact H|].
  destruct (appends_only_beyond_98 calm "Creator Talk" "Episode 1" ""
              "A summary." "A short talk." empty_state)
    as (new & Ht & Hc & _ & _ & Hshort).
  exists new. split; [exact Ht|]. split; [exact Hc|].
  exact (proj2 (Hshort H)).
Defined.

(** * The further statements at sample inputs *)

Lemma load_returns_all_titles_witness :
  pages_continue two_pages (step empty_state) 1
  ∧ notion_query two_pages (step empty_state + 1)
    = Response true (Some second_page)
  ∧ page_ends second_page = true
  ∧ (load_processed_episodes_from_notion two_pages 5 empty_state).1
    = Ret (accumulated two_pages (step empty_state) 2 [])
  ∧ accumulated two_pages (step empty_state) 2 []
    = [JStr "Episode 1"; JStr "Episode 2"].
Proof.
  assert (Hp : pages_continue two_pages (step empty_state) 1).
  { intros i Hi. destruct i; [|exfalso; lia]. eexists. split; reflexivity. }
  split; [exact Hp|]. split; [reflexivity|]. split; [reflexivity|].
  split; [|reflexivity].
  exact (proj1 (load_returns_all_titles two_pages 5 1 empty_state second_page
                  ltac:(lia) Hp eq_refl eq_refl)).
Defined.

Lemma load_unbounded_witness :
  (∀ k, pages_continue endless_pages (step empty_state) k)
  ∧ (load_processed_episodes_from_notion endless_pages 50 empty_state).1
    = Div.
Proof.
  assert (Hp : ∀ k, pages_continue endless_pages (step empty_state) k).
  { intros k i Hi. eexists. split; reflexivity. }
  split; [exact Hp|].
  exact (load_unbounded endless_pages empty_state Hp 50).
Defined.

Lemma load_passes_cursor_witness :
  pages_continue two_pages (step empty_state) 1
  ∧ bodies two_pages (step empty_state) 1 None = [None; Some (JStr "c1")]
  ∧ ∃ new,
      trace (load_processed_episodes_from_notion two_pages 5 empty_state).2
      = new ++ trace empty_state
      ∧ take 2 (queries new) = bodies two_pages (step empty_state) 1 None.
Proof.
  assert (Hp : pages_continue two_pages (step empty_state) 1).
  { intros i Hi. destruct i; [|exfalso; lia]. eexists. split; reflexivity. }
  split; [exact Hp|]. split; [reflexivity|].
  exact (load_passes_cursor two_pages 5 1 empty_state ltac:(lia) Hp).
Defined.

Lemma handles_are_deleted_witness :
  (transcribe_with_retry calm 3 "temp_1.mp3" 5 empty_state).1 ≠ Div
  ∧ ∃ new,
      trace (transcribe_with_retry calm 3 "temp_1.mp3" 5 empty_state).2
      = new ++ trace empty_state
      ∧ count is_delete new = count is_handle new.
Proof.
  assert (H : (transcribe_with_retry calm 3 "temp_1.mp3" 5 empty_state).1
              ≠ Div) by (vm_compute; discriminate).
  split; [exact H|].
  exact (handles_are_deleted calm 3 "temp_1.mp3" 5 empty_state H).
Defined.

Lemma backoff_schedule_witness :
  (∀ i, i < 4 →
     ∃ e, try_outcome no_upload_ever 3 "temp_1.mp3"
            (after_turns no_upload_ever 3 "temp_1.mp3" 5 0 i empty_state)
          = Exc e)
  ∧ map backoff (seq 0 4) = [60000; 120000; 240000; 480000]%Z
  ∧ ∃ new,
      trace (transcribe_with_retry no_upload_ever 3 "temp_1.mp3" 5
               empty_state).2 = new ++ trace empty_state
      ∧ backoffs new = map backoff (seq 0 4).
Proof.
  assert (Hf : ∀ i, i < 4 →
            ∃ e, try_outcome no_upload_ever 3 "temp_1.mp3"
                   (after_turns no_upload_ever 3 "temp_1.mp3" 5 0 i
                      empty_state) = Exc e).
  { intros i Hi.
    destruct i as [|[|[|[|i]]]];
      [exists ClientError; vm_compute; reflexivity..|exfalso; lia]. }
  split; [exact Hf|]. split; [reflexivity|].
  apply (backoff_schedule no_upload_ever 3 "temp_1.mp3" 5 4 empty_state);
    [lia|exact Hf|].
  right. split; [reflexivity|]. exists ClientError. vm_compute. reflexivity.
Defined.

Lemma transcription_ends_witness :
  clock instant_download 0 = clock instant_download 2
  ∧ status_rounds_take_five instant_download
      (step (downloaded "https://cdn.example/e1.mp3" "temp_1700000000.mp3"
               empty_state))
      (trace (transcribe_with_retry instant_download 122
                "temp_1700000000.mp3" 5
                (downloaded "https://cdn.example/e1.mp3"
                   "temp_1700000000.mp3" empty_state)).2)
  ∧ (transcribe_with_retry instant_download 122 "temp_1700000000.mp3" 5
       (downloaded "https://cdn.example/e1.mp3" "temp_1700000000.mp3"
          empty_state)).1 ≠ Div
  ∧ ticking stuck
  ∧ (transcribe_with_retry stuck 122 "temp_1.mp3" 5 empty_state).1 ≠ Div
  ∧ ∃ new,
      trace (transcribe_with_retry stuck 122 "temp_1.mp3" 5 empty_state).2
      = new ++ trace empty_state
      ∧ count is_status_request new ≤ 121 * 5.
Proof.
  assert (Hr : status_rounds_take_five instant_download
                 (step (downloaded "https://cdn.example/e1.mp3"
                          "temp_1700000000.mp3" empty_state))
                 (trace (transcribe_with_retry instant_download 122
                           "temp_1700000000.mp3" 5
                           (downloaded "https://cdn.example/e1.mp3"
                              "temp_1700000000.mp3" empty_state)).2))
    by (apply rounds_checked_sound; vm_compute; reflexivity).
  assert (Ht : ticking stuck) by (intros n; cbn [stuck clock]; lia).
  split; [reflexivity|]. split; [exact Hr|].
  split; [exact (proj2 (transcription_ends instant_download 122
                          "temp_1700000000.mp3" 5 _ Hr) ltac:(lia))|].
  split; [exact Ht|].
  pose proof (transcription_ends stuck 122 "temp_1.mp3" 5 empty_state
                (ticking_rounds stuck _ _ Ht)) as [Hc Hnd].
  split; [exact (Hnd ltac:(lia))|exact Hc].
Defined.

Lemma page_holds_transcript_witness :
  (add_to_notion calm "Creator Talk" "Episode 1" "" "A summary."
     "A short talk." empty_state).1 = Ret (JStr "https://www.notion.so/p1")
  ∧ ∃ date apps,
      trace (add_to_notion calm "Creator Talk" "Episode 1" "" "A summary."
               "A short talk." empty_state).2
      = apps ++ EvCreate (create_request calm "Creator Talk" "Episode 1" date
                            "A summary." "A short talk.") true
                :: trace empty_state
      ∧ Forall (fun ev => ¬ failed_request ev) apps
      ∧ cd_children (create_request calm "Creator Talk" "Episode 1" date
                       "A summary." "A short talk.")
        ++ concat (appended apps)
        = Heading1 "Full Transcript" :: Divider :: chunks "A short talk."
      ∧ PyStr.concat (map block_text (chunks "A short talk."))
        = "A short talk.".
Proof.
  assert (H : (add_to_notion calm "Creator Talk" "Episode 1" "" "A summary."
                 "A short talk." empty_state).1
              = Ret (JStr "https://www.notion.so/p1"))
    by (vm_compute; reflexivity).
  split; [exact H|].
  exact (page_holds_transcript calm "Creator Talk" "Episode 1" ""
           "A summary." "A short talk." empty_state _ H).
Defined.

Lemma unparsed_date_is_today_witness :
  parse_date page_lacks_id (step empty_state) "next week" = None
  ∧ ∃ ok apps,
      trace (add_to_notion page_lacks_id "Creator Talk" "Episode 1"
               "next week" "A summary." "A short talk." empty_state).2
      = apps ++ EvCreate (create_request page_lacks_id "Creator Talk"
                            "Episode 1" "2024-06-01" "A summary."
                            "A short talk.") ok
                :: trace empty_state.
Proof.
  split; [reflexivity|].
  exact (unparsed_date_is_today page_lacks_id "Creator Talk" "Episode 1"
           "next week" "A summary." "A short talk." empty_state eq_refl).
Defined.

Lemma page_without_id_witness :
  notion_create page_lacks_id (step empty_state)
  = Response true (Some (JObj [("object", JStr "page")]))
  ∧ Py.getitem (JObj [("object", JStr "page")]) "id" = Exc KeyError
  ∧ ∃ date,
      add_to_notion page_lacks_id "Creator Talk" "Episode 1" "" "A summary."
        "A short talk." empty_state
      = (Exc KeyError,
         emit (EvCreate (create_request page_lacks_id "Creator Talk"
                           "Episode 1" date "A summary." "A short talk.")
                 true) empty_state).
Proof.
  split; [reflexivity|]. split; [reflexivity|].
  exact (page_without_id page_lacks_id "Creator Talk" "Episode 1" ""
           "A summary." "A short talk." empty_state _ KeyError
           eq_refl eq_refl).
Defined.

Lemma process_episode_always_returns_witness :
  clock instant_download 0 = clock instant_download 2
  ∧ status_rounds_take_five instant_download (step empty_state)
      (trace (process_episode instant_download 122 "Creator Talk"
                sample_entry empty_state).2)
  ∧ count is_status_request
      (trace (process_episode instant_download 122 "Creator Talk"
                sample_entry empty_state).2) = 3
  ∧ ∃ b, (process_episode instant_download 122 "Creator Talk" sample_entry
            empty_state).1 = Ret b.
Proof.
  assert (Hr : status_rounds_take_five instant_download (step empty_state)
                 (trace (process_episode instant_download 122 "Creator Talk"
                           sample_entry empty_state).2))
    by (apply rounds_checked_sound; vm_compute; reflexivity).
  split; [reflexivity|]. split; [exact Hr|].
  split; [vm_compute; reflexivity|].
  exact (process_episode_always_returns instant_download 122 "Creator Talk"
           sample_entry empty_state ltac:(lia) Hr).
Defined.

Lemma second_call_is_skipped_witness :
  (process_episode calm 3 "Creator Talk" sample_entry empty_state).1
  = Ret true
  ∧ process_episode no_upload_ever 3 "Another Show" sample_entry
      (process_episode calm 3 "Creator Talk" sample_entry empty_state).2
    = (Ret false,
       (process_episode calm 3 "Creator Talk" sample_entry empty_state).2).
Proof.
  assert (Hr : (process_episode calm 3 "Creator Talk" sample_entry
                  empty_state).1 = Ret true) by (vm_compute; reflexivity).
  split; [exact Hr|].
  exact (second_call_is_skipped calm 3 "Creator Talk" sample_entry
           empty_state Hr no_upload_ever 3 "Another Show" sample_entry
           eq_refl).
Defined.

Lemma no_audio_no_effect_witness :
  audio_url silent_entry = Ret (Some "")
  ∧ (temp_path_of calm empty_state ∉ files empty_state)
  ∧ process_episode calm 3 "Creator Talk" silent_entry empty_state
    = (Ret false, empty_state).
Proof.
  assert (Hf : temp_path_of calm empty_state ∉ files empty_state)
    by apply not_elem_of_empty.
  split; [reflexivity|]. split; [exact Hf|].
  apply (no_audio_no_effect calm 3 "Creator Talk" silent_entry empty_state);
    [|exact Hf].
  intros c url. discriminate.
Defined.

Lemma credentials_checked_first_witness :
  In "NOTION_API_KEY" required_variables
  ∧ set_variable (environ bare_process "NOTION_API_KEY") = false
  ∧ load_env_configs bare_process = Exc missing_variables.
Proof.
  assert (Hin : In "NOTION_API_KEY" required_variables)
    by (right; left; reflexivity).
  split; [exact Hin|]. split; [reflexivity|].
  exact (credentials_checked_first bare_process "NOTION_API_KEY" Hin eq_refl).
Defined.

Lemma loaded_config_is_complete_witness :
  load_env_configs sample_process = Ret sample_config
  ∧ environ sample_process "NOTION_DATABASE_ID"
    = Some (config_database_id sample_config)
  ∧ notion_token sample_config ≠ "".
Proof.
  split; [reflexivity|].
  pose proof (loaded_config_is_complete sample_process sample_config eq_refl)
    as H.
  split; [exact (proj1 (proj2 (proj2 H)))|].
  exact (proj1 (proj2 (proj2 (proj2 (proj2 H))))).
Defined.

Lemma start_fails_only_on_configuration_witness :
  (init calm (fun _ => Some [sample_file]) bare_process 5 empty_state).1
  = Exc missing_variables
  ∧ load_env_configs bare_process = Exc missing_variables
  ∧ (init calm (fun _ => Some [sample_file]) bare_process 5 empty_state).2
    = empty_state.
Proof.
  split; [reflexivity|].
  exact (start_fails_only_on_configuration calm (fun _ => Some [sample_file])
           bare_process 5 empty_state missing_variables eq_refl).
Defined.

Lemma recorded_episode_is_skipped_witness :
  load_env_configs sample_process = Ret sample_config
  ∧ pages_continue two_pages
      (step (force_clear_api_storage two_pages (fun _ => None)
               empty_state).2) 1
  ∧ In (record_titled "Episode 1")
      (records_at two_pages
         (step (force_clear_api_storage two_pages (fun _ => None)
                  empty_state).2 + 0))
  ∧ process_episode no_upload_ever 3 "Creator Talk" sample_entry
      (init two_pages (fun _ => None) sample_process 5 empty_state).2
    = (Ret false,
       (init two_pages (fun _ => None) sample_process 5 empty_state).2).
Proof.
  assert (Hp : pages_continue two_pages
                 (step (force_clear_api_storage two_pages (fun _ => None)
                          empty_state).2) 1).
  { intros i Hi. destruct i; [|exfalso; lia]. eexists. split; reflexivity. }
  assert (Hin : In (record_titled "Episode 1")
                  (records_at two_pages
                     (step (force_clear_api_storage two_pages (fun _ => None)
                              empty_state).2 + 0)))
    by (left; reflexivity).
  split; [reflexivity|]. split; [exact Hp|]. split; [exact Hin|].
  exact (proj2 (recorded_episode_is_skipped two_pages (fun _ => None)
                  sample_process 5 1 empty_state sample_config second_page
                  eq_refl ltac:(lia) Hp eq_refl eq_refl)
           0 (record_titled "Episode 1") sample_entry no_upload_ever 3
           "Creator Talk" ltac:(lia) Hin eq_refl).
Defined.

Lemma run_counts_new_episodes_witness :
  Py.iter (rss_feeds sample_config) = Ret [JStr "https://feeds.example/a.xml"]
  ∧ (run_loop calm sample_feed 3 (rss_feeds sample_config) empty_state).1
    = Ret 2
  ∧ 2 ≤ 10 * 1
  ∧ length (processed_episodes_cache
              (run_loop calm sample_feed 3 (rss_feeds sample_config)
                 empty_state).2)
    = length (processed_episodes_cache empty_state) + 2.
Proof.
  assert (Hr : (run_loop calm sample_feed 3 (rss_feeds sample_config)
                  empty_state).1 = Ret 2) by (vm_compute; reflexivity).
  split; [reflexivity|]. split; [exact Hr|].
  exact (proj2 (run_counts_new_episodes calm sample_feed 3
                  (rss_feeds sample_config) _ empty_state eq_refl) 2 Hr).
Defined.

Lemma run_comes_to_an_end_witness :
  Py.iter (rss_feeds sample_config) = Ret [JStr "https://feeds.example/a.xml"]
  ∧ clock instant_download 0 = clock instant_download 2
  ∧ status_rounds_take_five instant_download (step empty_state)
      (trace (run_loop instant_download sample_feed 122
                (rss_feeds sample_config) empty_state).2)
  ∧ ∃ total,
      (run_loop instant_download sample_feed 122 (rss_feeds sample_config)
         empty_state).1 = Ret total.
Proof.
  assert (Hr : status_rounds_take_five instant_download (step empty_state)
                 (trace (run_loop instant_download sample_feed 122
                           (rss_feeds sample_config) empty_state).2))
    by (apply rounds_checked_sound; vm_compute; reflexivity).
  split; [reflexivity|]. split; [reflexivity|]. split; [exact Hr|].
  exact (run_comes_to_an_end instant_download sample_feed 122
           (rss_feeds sample_config) _ empty_state eq_refl ltac:(lia) Hr).
Defined.
